(** * E-commerce dataset generator and Arrakis Night palette: a shallow embedding

    This development embeds the two Python modules of the repository,

    - [src/data/generate_bigdata.py], the batch script that synthesises the
      transaction table and writes it with [DataFrame.to_csv], and
    - [src/themes/plot_arrakis_night_style.py], the palette functions
      [get_palette] and [get_water_palette] and the styling functions
      [apply], [apply_to_figure] and [style_dataframe_plot],

    and proves the properties the specification states about them, and
    further properties of the code.

    Python integers are [Z]; Python lists and NumPy arrays are [list];
    [float64] values are [spec_float] of the Standard Library with the
    binary64 parameters, so that every floating-point operation of the script
    is the IEEE 754 one; the ordered [dict] passed to [pd.DataFrame] is an
    association list; the file system touched by [to_csv] is a finite map
    from paths to contents; exceptions are the [Raise] results of a small
    state-and-exception monad. *)

From Stdlib Require Import ZArith List Bool Lia.
From Stdlib Require Import Strings.String Strings.Ascii.
From Stdlib Require Import Numbers.DecimalString Decimal.
From Stdlib Require Import Floats.SpecFloat.
From stdpp Require Import base list gmap strings.

Local Open Scope string_scope.
Local Open Scope Z_scope.

(** ** Python exceptions and fallible computations *)

Inductive exn : Type :=
  | ValueError
  | IndexError
  | KeyError
  | TypeError
  | ZeroDivisionError
  | OverflowError
  | OSError.

Inductive result (A : Type) : Type :=
  | Ok (a : A)
  | Raise (e : exn).

Arguments Ok {A} a.
Arguments Raise {A} e.

Definition rbind {A B : Type} (r : result A) (k : A -> result B) : result B :=
  match r with
  | Ok a => k a
  | Raise e => Raise e
  end.

(** A list comprehension whose body can raise: elements are evaluated left
    to right and the first exception aborts the comprehension. *)
Fixpoint traverse {A B : Type} (f : A -> result B) (l : list A) : result (list B) :=
  match l with
  | [] => Ok []
  | x :: l' =>
      rbind (f x) (fun y => rbind (traverse f l') (fun ys => Ok (y :: ys)))
  end.

(** ** Python built-ins used by both modules *)

Module Py.

(** [range(lo, hi)]: the integers [lo, lo+1, ..., hi-1], empty when [hi <= lo]. *)
Definition range2 (lo hi : Z) : list Z :=
  List.map (fun i : nat => lo + Z.of_nat i) (seq 0 (Z.to_nat (hi - lo))).

(** [range(n)] *)
Definition range (n : Z) : list Z := range2 0 n.

(** [len(l)] *)
Definition len {A : Type} (l : list A) : Z := Z.of_nat (length l).

(** [enumerate(l)] *)
Definition enumerate {A : Type} (l : list A) : list (Z * A) :=
  combine (range (len l)) l.

(** [a % b] on integers: Python's remainder takes the sign of the divisor,
    like [Z.modulo], and raises on a zero divisor. *)
Definition mod_ (a b : Z) : result Z :=
  if b =? 0 then Raise ZeroDivisionError else Ok (a mod b).

(** [l[i]]: negative indices count from the end, anything outside
    [-len(l), len(l))] raises [IndexError]. *)
Definition getitem {A : Type} (l : list A) (i : Z) : result A :=
  let j := if i <? 0 then i + len l else i in
  if j <? 0 then Raise IndexError
  else match l !! Z.to_nat j with
       | Some x => Ok x
       | None => Raise IndexError
       end.

End Py.


(** [str(i)] for an integer. *)
Definition string_of_Z (z : Z) : string := NilZero.string_of_int (Z.to_int z).

(** ** IEEE 754 binary64: the [float64] of NumPy and pandas

    The operations are those of [SpecFloat] at precision 53 and maximal
    exponent 1024.  [rint], [np.round] and the shortest round-trip
    formatting, which NumPy provides, are written out on top of them. *)

Module F64.

Definition float : Type := spec_float.
Definition prec : Z := 53.
Definition emax : Z := 1024.

Definition mul : float -> float -> float := SFmul prec emax.
Definition div : float -> float -> float := SFdiv prec emax.
Definition eqb : float -> float -> bool := SFeqb.
Definition ltb : float -> float -> bool := SFltb.
Definition leb : float -> float -> bool := SFleb.
Definition valid : float -> bool := valid_binary prec emax.

(** Conversion of an integer ([int64], Python [int]) to [float64], rounding
    to nearest even when the integer needs more than 53 bits. *)
Definition of_Z (z : Z) : float := binary_normalize prec emax z 0 false.

(** The integer nearest to [a / b] for [b > 0], ties to the even one. *)
Definition rne_div (a b : Z) : Z :=
  let q := a / b in
  match 2 * (a mod b) ?= b with
  | Lt => q
  | Gt => q + 1
  | Eq => if Z.even q then q else q + 1
  end.

(** [np.rint]: round to the nearest integral value, ties to even; the sign
    of a zero result is that of the argument. *)
Definition rint (x : float) : float :=
  match x with
  | S754_finite s m e =>
      if 0 <=? e then x
      else binary_normalize prec emax
             (cond_Zopp s (rne_div (Zpos m) (2 ^ (- e)))) 0 s
  | _ => x
  end.

(** [np.round(x, decimals)] on a float: NumPy scales by [10**decimals],
    applies [rint] and scales back (multiply, rint, divide for
    [decimals >= 0]; divide, rint, multiply for negative [decimals]). *)
Definition np_round (x : float) (decimals : Z) : float :=
  if decimals =? 0 then rint x
  else if 0 <? decimals then
    let f := of_Z (10 ^ decimals) in div (rint (mul x f)) f
  else
    let f := of_Z (10 ^ (- decimals)) in mul (rint (div x f)) f.

(** A rounded mantissa [m] in [[2^52, 2^53]] with exponent [e], as a float:
    a mantissa that rounding carried to [2^53] is renormalised. *)
Definition renorm (s : bool) (m e : Z) : float :=
  if m <? 2 ^ 53 then S754_finite s (Z.to_pos m) e
  else S754_finite s (Z.to_pos (2 ^ 52)) (e + 1).

(** *** Decimal conversion *)

(** The float nearest to the rational [a / b], for positive [a] and [b]. *)
Definition of_ratio (a b : Z) : float :=
  let '(m, e, l) := SFdiv_core_binary prec emax a 0 b 0 in
  binary_round_aux prec emax false m e l.

(** The float nearest to the decimal [N * 10^q], for positive [N]: what
    reading the decimal string back yields. *)
Definition of_decimal (N q : Z) : float :=
  if 0 <=? q then of_Z (N * 10 ^ q) else of_ratio N (10 ^ (- q)).

(** A positive finite float [m * 2^e] as an exact fraction. *)
Definition ratio (m : positive) (e : Z) : Z * Z :=
  if 0 <=? e then (Zpos m * 2 ^ e, 1) else (Zpos m, 2 ^ (- e)).

Definition ndigits (z : Z) : Z := Z.of_nat (String.length (string_of_Z z)).

Fixpoint neg_exponent (fuel : nat) (a b j : Z) : Z :=
  match fuel with
  | O => j
  | S fuel' => if b <=? a * 10 ^ j then j else neg_exponent fuel' a b (j + 1)
  end.

(** [floor (log10 (a / b))] for a positive binary64 value [a / b]
    (at least [2^-1074], so 400 steps suffice below 1). *)
Definition exponent10 (a b : Z) : Z :=
  if b <=? a then ndigits (a / b) - 1 else - neg_exponent 400 a b 1.

(** Shortest round-trip digits: for [p = 1, 2, ..., 17] significant digits,
    the two [p]-digit decimals around [x = a / b] are read back; the first
    [p] at which one of them gives [x] again wins, the closer one when both
    do.  The result is the digit string as an integer and the decimal
    exponent of its last digit. *)
Fixpoint shortest_from (fuel : nat) (x : float) (a b k p : Z) : Z * Z :=
  match fuel with
  | O => (0, 0)
  | S fuel' =>
      let q := k - (p - 1) in
      let num := if 0 <=? q then a else a * 10 ^ (- q) in
      let den := if 0 <=? q then b * 10 ^ q else b in
      let lo := num / den in
      let hi := lo + 1 in
      let ok_lo := (0 <? lo) && eqb (of_decimal lo q) x in
      let ok_hi := eqb (of_decimal hi q) x in
      match ok_lo, ok_hi with
      | true, true =>
          match 2 * (num mod den) ?= den with
          | Lt => (lo, q)
          | Gt => (hi, q)
          | Eq => if Z.even lo then (lo, q) else (hi, q)
          end
      | true, false => (lo, q)
      | false, true => (hi, q)
      | false, false => shortest_from fuel' x a b k (p + 1)
      end
  end.

Fixpoint strip_zeros (fuel : nat) (N q : Z) : Z * Z :=
  match fuel with
  | O => (N, q)
  | S fuel' =>
      if (N mod 10 =? 0) && negb (N =? 0)
      then strip_zeros fuel' (N / 10) (q + 1)
      else (N, q)
  end.

Definition shortest (m : positive) (e : Z) : Z * Z :=
  let '(a, b) := ratio m e in
  let '(N, q) := shortest_from 17 (S754_finite false m e) a b (exponent10 a b) 1 in
  strip_zeros 400 N q.

Fixpoint zeros (n : nat) : string :=
  match n with
  | O => EmptyString
  | S n' => String "0" (zeros n')
  end.

(** Positional notation when the decimal point falls within
    [1e-4 <= |x| < 1e16], scientific notation otherwise. *)
Definition format_digits (N q : Z) : string :=
  let D := string_of_Z N in
  let nd := Z.of_nat (String.length D) in
  let decpt := nd + q in
  if (-4 <? decpt) && (decpt <=? 16) then
    if 0 <=? q then D ++ zeros (Z.to_nat q) ++ ".0"
    else if 0 <? decpt then
      substring 0 (Z.to_nat decpt) D ++ "."
        ++ substring (Z.to_nat decpt) (Z.to_nat (- q)) D
    else "0." ++ zeros (Z.to_nat (- decpt)) ++ D
  else
    let ex := decpt - 1 in
    let mant := match D with
                | String c EmptyString => String c EmptyString
                | String c rest => String c ("." ++ rest)
                | EmptyString => EmptyString
                end in
    let exs := string_of_Z (Z.abs ex) in
    mant ++ "e" ++ (if ex <? 0 then "-" else "+")
         ++ (if Z.abs ex <? 10 then "0" ++ exs else exs).

(** [str(x)] / [repr(x)] of a [float64]: the shortest decimal string that
    reads back as [x]. *)
Definition repr (x : float) : string :=
  match x with
  | S754_nan => "nan"
  | S754_infinity s => if s then "-inf" else "inf"
  | S754_zero s => if s then "-0.0" else "0.0"
  | S754_finite s m e =>
      let '(N, q) := shortest m e in
      (if s then "-" else EmptyString) ++ format_digits N q
  end.

End F64.

(** ** Python's [datetime] and [timedelta] *)

Module Datetime.

Record datetime : Type := mk_datetime
  { year : Z; month : Z; day : Z;
    hour : Z; minute : Z; second : Z; microsecond : Z }.

Record timedelta : Type := mk_timedelta
  { days : Z; seconds : Z; microseconds : Z }.

Definition MINYEAR : Z := 1.
Definition MAXYEAR : Z := 9999.
Definition MAXORDINAL : Z := 3652059.

Definition DAYS_IN_MONTH : list Z :=
  [-1; 31; 28; 31; 30; 31; 30; 31; 31; 30; 31; 30; 31].

Definition DAYS_BEFORE_MONTH : list Z :=
  [-1; 0; 31; 59; 90; 120; 151; 181; 212; 243; 273; 304; 334].

Definition is_leap (y : Z) : bool :=
  (y mod 4 =? 0) && (negb (y mod 100 =? 0) || (y mod 400 =? 0)).

Definition days_before_year (y : Z) : Z :=
  let y1 := y - 1 in
  y1 * 365 + y1 / 4 - y1 / 100 + y1 / 400.

Definition days_in_month (y m : Z) : Z :=
  if (m =? 2) && is_leap y then 29 else nth (Z.to_nat m) DAYS_IN_MONTH 0.

Definition days_before_month (y m : Z) : Z :=
  nth (Z.to_nat m) DAYS_BEFORE_MONTH 0
  + (if (2 <? m) && is_leap y then 1 else 0).

Definition ymd2ord (y m d : Z) : Z :=
  days_before_year y + days_before_month y m + d.

Definition DI400Y : Z := 146097.
Definition DI100Y : Z := 36524.
Definition DI4Y : Z := 1461.

Definition ord2ymd (n : Z) : Z * Z * Z :=
  let n := n - 1 in
  let n400 := n / DI400Y in
  let n := n mod DI400Y in
  let y := n400 * 400 + 1 in
  let n100 := n / DI100Y in
  let n := n mod DI100Y in
  let n4 := n / DI4Y in
  let n := n mod DI4Y in
  let n1 := n / 365 in
  let n := n mod 365 in
  let y := y + n100 * 100 + n4 * 4 + n1 in
  if (n1 =? 4) || (n100 =? 4) then (y - 1, 12, 31)
  else
    let leapyear := (n1 =? 3) && (negb (n4 =? 24) || (n100 =? 3)) in
    let m := Z.shiftr (n + 50) 5 in
    let preceding :=
      nth (Z.to_nat m) DAYS_BEFORE_MONTH 0
      + (if (2 <? m) && leapyear then 1 else 0) in
    if n <? preceding then
      let m := m - 1 in
      let preceding :=
        preceding - (nth (Z.to_nat m) DAYS_IN_MONTH 0
                     + (if (m =? 2) && leapyear then 1 else 0)) in
      (y, m, n - preceding + 1)
    else (y, m, n - preceding + 1).

(** [datetime(y, m, d)]: midnight of the given day; out-of-range fields
    raise [ValueError]. *)
Definition make (y m d : Z) : result datetime :=
  if (MINYEAR <=? y) && (y <=? MAXYEAR) && (1 <=? m) && (m <=? 12)
     && (1 <=? d) && (d <=? days_in_month y m)
  then Ok (mk_datetime y m d 0 0 0 0)
  else Raise ValueError.

(** [timedelta(days=k)] *)
Definition timedelta_days (k : Z) : result timedelta :=
  if Z.abs k <=? 999999999 then Ok (mk_timedelta k 0 0)
  else Raise OverflowError.

Definition toordinal (t : datetime) : Z := ymd2ord (year t) (month t) (day t).

(** [t + delta] *)
Definition add (t : datetime) (delta : timedelta) : result datetime :=
  let us := microsecond t + microseconds delta in
  let s := hour t * 3600 + minute t * 60 + second t + seconds delta
           + us / 1000000 in
  let d := toordinal t + days delta + s / 86400 in
  let s := s mod 86400 in
  if (0 <? d) && (d <=? MAXORDINAL) then
    let '(y, m, dd) := ord2ymd d in
    Ok (mk_datetime y m dd (s / 3600) (s mod 3600 / 60) (s mod 3600 mod 60)
                    (us mod 1000000))
  else Raise OverflowError.

(** Comparison of two datetimes is the lexicographic comparison of their
    fields. *)
Definition fields (t : datetime) : list Z :=
  [year t; month t; day t; hour t; minute t; second t; microsecond t].

Fixpoint lex_compare (a b : list Z) : comparison :=
  match a, b with
  | [], [] => Eq
  | [], _ :: _ => Lt
  | _ :: _, [] => Gt
  | x :: a', y :: b' =>
      match x ?= y with
      | Eq => lex_compare a' b'
      | c => c
      end
  end.

Definition compare (a b : datetime) : comparison :=
  lex_compare (fields a) (fields b).

Definition leb (a b : datetime) : bool :=
  match compare a b with Gt => false | _ => true end.

(** Zero-padded decimal of a non-negative integer. *)
Definition zfill (width : nat) (z : Z) : string :=
  let s := string_of_Z z in
  F64.zeros (width - String.length s) ++ s.

(** [strftime('%Y-%m-%d')] *)
Definition isodate (t : datetime) : string :=
  zfill 4 (year t) ++ "-" ++ zfill 2 (month t) ++ "-" ++ zfill 2 (day t).

(** [strftime('%Y-%m-%d %H:%M:%S')], with the microseconds when there are
    some. *)
Definition isodatetime (t : datetime) : string :=
  isodate t ++ " " ++ zfill 2 (hour t) ++ ":" ++ zfill 2 (minute t) ++ ":"
    ++ zfill 2 (second t)
    ++ (if microsecond t =? 0 then EmptyString
        else "." ++ zfill 6 (microsecond t)).

Definition is_midnight (t : datetime) : bool :=
  (hour t =? 0) && (minute t =? 0) && (second t =? 0) && (microsecond t =? 0).

Definition is_digit (c : ascii) : bool :=
  let k := Z.of_nat (nat_of_ascii c) in (48 <=? k) && (k <=? 57).

(** The shape [YYYY-MM-DD]. *)
Definition is_iso_date (s : string) : bool :=
  match list_ascii_of_string s with
  | [y1; y2; y3; y4; h1; m1; m2; h2; d1; d2] =>
      forallb is_digit [y1; y2; y3; y4; m1; m2; d1; d2]
      && Ascii.eqb h1 "-" && Ascii.eqb h2 "-"
  | _ => false
  end.

End Datetime.


(** ** pandas: columns, frames, element-wise product, [to_csv] *)

Module Pandas.

(** A column (a [Series]) with its dtype: [int64], [object] strings,
    [float64] or [datetime64]. *)
Inductive column : Type :=
  | IntCol (l : list Z)
  | StrCol (l : list string)
  | FloatCol (l : list F64.float)
  | DateCol (l : list Datetime.datetime).

Definition col_len (c : column) : nat :=
  match c with
  | IntCol l => length l
  | StrCol l => length l
  | FloatCol l => length l
  | DateCol l => length l
  end.

(** A [DataFrame] with the default [RangeIndex]: its columns in order. *)
Definition DataFrame : Type := list (string * column).

(** [pd.DataFrame(data)] for a [dict] of columns: the columns keep the
    insertion order of the dictionary and must all have one length. *)
Definition make (data : list (string * column)) : result DataFrame :=
  match data with
  | [] => Ok []
  | (_, c) :: rest =>
      if forallb (fun kc => Nat.eqb (col_len (snd kc)) (col_len c)) rest
      then Ok data
      else Raise ValueError
  end.

(** [len(df)] *)
Definition nrows (df : DataFrame) : nat :=
  match df with
  | [] => O
  | (_, c) :: _ => col_len c
  end.

(** [df[name]] *)
Fixpoint getitem (df : DataFrame) (name : string) : result column :=
  match df with
  | [] => Raise KeyError
  | (k, c) :: df' => if String.eqb k name then Ok c else getitem df' name
  end.

(** [int64] arithmetic wraps around. *)
Definition wrap64 (z : Z) : Z := (z + 2 ^ 63) mod 2 ^ 64 - 2 ^ 63.

(** [s * k] on a Python string. *)
Fixpoint str_repeat (s : string) (k : nat) : string :=
  match k with
  | O => EmptyString
  | S k' => s ++ str_repeat s k'
  end.

(** [a * b] on two columns of one frame (same index, so the product is
    taken position by position); an [int64] operand is converted to
    [float64] when the other one is [float64]. *)
Definition mul (a b : column) : result column :=
  match a, b with
  | FloatCol x, IntCol y =>
      Ok (FloatCol (zip_with (fun p q => F64.mul p (F64.of_Z q)) x y))
  | IntCol x, FloatCol y =>
      Ok (FloatCol (zip_with (fun p q => F64.mul (F64.of_Z p) q) x y))
  | FloatCol x, FloatCol y => Ok (FloatCol (zip_with F64.mul x y))
  | IntCol x, IntCol y => Ok (IntCol (zip_with (fun p q => wrap64 (p * q)) x y))
  | StrCol x, IntCol y =>
      Ok (StrCol (zip_with (fun p q => str_repeat p (Z.to_nat q)) x y))
  | IntCol x, StrCol y =>
      Ok (StrCol (zip_with (fun p q => str_repeat q (Z.to_nat p)) x y))
  | _, _ => Raise TypeError
  end.

(** [df[name] = col], for a column carrying the index of [df]: an existing
    column is replaced in place, a new one is appended as the last column. *)
Fixpoint setitem (df : DataFrame) (name : string) (col : column) : DataFrame :=
  match df with
  | [] => [(name, col)]
  | (k, c) :: df' =>
      if String.eqb k name then (k, col) :: df'
      else (k, c) :: setitem df' name col
  end.

(** *** Rows

    A row of the transaction table, as [df.itertuples(index=False)] yields
    it once the nine columns exist. *)

Record transaction : Type := mk_transaction
  { transaction_id : Z;
    customer_id : Z;
    product_category : string;
    product_price : F64.float;
    quantity : Z;
    date : Datetime.datetime;
    payment_method : string;
    country : string;
    total : F64.float }.

Definition as_int (c : column) : result (list Z) :=
  match c with IntCol l => Ok l | _ => Raise TypeError end.
Definition as_str (c : column) : result (list string) :=
  match c with StrCol l => Ok l | _ => Raise TypeError end.
Definition as_float (c : column) : result (list F64.float) :=
  match c with FloatCol l => Ok l | _ => Raise TypeError end.
Definition as_date (c : column) : result (list Datetime.datetime) :=
  match c with DateCol l => Ok l | _ => Raise TypeError end.

Definition transactions (df : DataFrame) : result (list transaction) :=
  rbind (rbind (getitem df "transaction_id") as_int) (fun c1 =>
  rbind (rbind (getitem df "customer_id") as_int) (fun c2 =>
  rbind (rbind (getitem df "product_category") as_str) (fun c3 =>
  rbind (rbind (getitem df "product_price") as_float) (fun c4 =>
  rbind (rbind (getitem df "quantity") as_int) (fun c5 =>
  rbind (rbind (getitem df "date") as_date) (fun c6 =>
  rbind (rbind (getitem df "payment_method") as_str) (fun c7 =>
  rbind (rbind (getitem df "country") as_str) (fun c8 =>
  rbind (rbind (getitem df "total") as_float) (fun c9 =>
  Ok (List.map
        (fun i =>
           mk_transaction
             (nth i c1 0) (nth i c2 0) (nth i c3 EmptyString)
             (nth i c4 S754_nan) (nth i c5 0)
             (nth i c6 (Datetime.mk_datetime 1 1 1 0 0 0 0))
             (nth i c7 EmptyString) (nth i c8 EmptyString)
             (nth i c9 S754_nan))
        (seq 0 (nrows df)))))))))))).

(** *** CSV serialisation ([QUOTE_MINIMAL], separator [,], line feed) *)

Definition LF : ascii := ascii_of_nat 10.
Definition CR : ascii := ascii_of_nat 13.
Definition DQUOTE : ascii := ascii_of_nat 34.
Definition COMMA : ascii := ascii_of_nat 44.

Definition special (c : ascii) : bool :=
  Ascii.eqb c COMMA || Ascii.eqb c DQUOTE || Ascii.eqb c LF || Ascii.eqb c CR.

Definition needs_quoting (s : string) : bool :=
  existsb special (list_ascii_of_string s).

Fixpoint double_quotes (s : string) : string :=
  match s with
  | EmptyString => EmptyString
  | String c s' =>
      if Ascii.eqb c DQUOTE then String c (String c (double_quotes s'))
      else String c (double_quotes s')
  end.

Definition csv_field (s : string) : string :=
  if needs_quoting s
  then String DQUOTE (double_quotes s ++ String DQUOTE EmptyString)
  else s.

Definition is_nan (x : F64.float) : bool :=
  match x with
  | S754_nan => true
  | _ => false
  end.

(** The cells of a column as text: integers in decimal, floats in their
    shortest round-trip form (no [float_format] is given; a NaN is written
    as the empty [na_rep]), datetimes as dates only when every value of the
    column is at midnight, strings as they are. *)
Definition format_column (c : column) : list string :=
  match c with
  | IntCol l => List.map string_of_Z l
  | StrCol l => l
  | FloatCol l =>
      List.map (fun x => if is_nan x then EmptyString else F64.repr x) l
  | DateCol l =>
      if forallb Datetime.is_midnight l
      then List.map Datetime.isodate l
      else List.map Datetime.isodatetime l
  end.

Definition csv_line (fields : list string) : string :=
  String.concat "," (List.map csv_field fields) ++ String LF EmptyString.

Definition header (df : DataFrame) : list string := List.map fst df.

(** The text cells of row [i]. *)
Definition row (df : DataFrame) (i : nat) : list string :=
  List.map (fun kc => nth i (format_column (snd kc)) EmptyString) df.

Definition rows (df : DataFrame) : list (list string) :=
  List.map (row df) (seq 0 (nrows df)).

(** The lines [to_csv(index=False)] writes: the header, then the rows. *)
Definition csv_lines (df : DataFrame) : list string :=
  List.map csv_line (header df :: rows df).

Definition csv_text (df : DataFrame) : string :=
  String.concat EmptyString (csv_lines df).

(** The header line and the line of one transaction, as they stand in the
    file. *)
Definition header_line : string :=
  "transaction_id,customer_id,product_category,product_price,quantity,date,payment_method,country,total"
  ++ String LF EmptyString.

Definition transaction_line (r : transaction) : string :=
  String.concat ","
    [ string_of_Z (transaction_id r);
      string_of_Z (customer_id r);
      product_category r;
      F64.repr (product_price r);
      string_of_Z (quantity r);
      Datetime.isodate (date r);
      payment_method r;
      country r;
      F64.repr (total r) ]
  ++ String LF EmptyString.

(** The number of characters after the decimal point of a numeral, [None]
    when it has no point. *)
Fixpoint decimals (s : string) : option nat :=
  match s with
  | EmptyString => None
  | String c s' => if Ascii.eqb c "." then Some (String.length s') else decimals s'
  end.

End Pandas.

(** ** The file system *)

(** What can go wrong when a path is opened for writing and written to:
    the directory does not exist, the file or directory is not writable, or
    the device has room for [room] more bytes only. *)
Inductive write_fault : Type :=
  | MissingDirectory
  | PermissionDenied
  | DiskFull (room : nat).

Record filesystem : Type := mk_filesystem
  { files : gmap string string;
    faults : gmap string write_fault }.

(** [open(path, 'w')], write [content], close.  A failed [open] leaves the
    files as they are; an [open] that succeeds truncates or creates the
    file, and a write that runs out of room leaves what was written. *)
Definition write_file (path content : string) (fs : filesystem)
  : result unit * filesystem :=
  match faults fs !! path with
  | None => (Ok tt, mk_filesystem (<[path := content]> (files fs)) (faults fs))
  | Some MissingDirectory => (Raise OSError, fs)
  | Some PermissionDenied => (Raise OSError, fs)
  | Some (DiskFull room) =>
      if (String.length content <=? room)%nat
      then (Ok tt, mk_filesystem (<[path := content]> (files fs)) (faults fs))
      else (Raise OSError,
            mk_filesystem (<[path := substring 0 room content]> (files fs))
                          (faults fs))
  end.

(** ** The random number generator

    [np.random] is NumPy's global generator.  Its algorithm is not part of
    the repository: the script is modelled over any generator offering the
    four draws it uses, and the properties that depend on the values drawn
    assume the ranges NumPy documents for them ([GeneratorLaws]). *)

Record Generator : Type := mk_generator
  { rng_state : Type;
    (** [np.random.seed(s)]: the state is a function of the seed alone *)
    rng_seed : Z -> rng_state;
    (** [np.random.randint(low, high)]: one integer *)
    rng_randint : Z -> Z -> rng_state -> Z * rng_state;
    (** [np.random.randint(low, high, n)] *)
    rng_randint_size : Z -> Z -> nat -> rng_state -> list Z * rng_state;
    (** [np.random.choice(a, n)] *)
    rng_choice_size : list string -> nat -> rng_state -> list string * rng_state;
    (** [np.random.uniform(low, high, n)] *)
    rng_uniform_size :
      F64.float -> F64.float -> nat -> rng_state -> list F64.float * rng_state }.

Definition in_range (lo hi x : Z) : Prop := lo <= x < hi.

Definition in_float_range (lo hi x : F64.float) : Prop :=
  F64.valid x = true /\ F64.leb lo x = true /\ F64.ltb x hi = true.

(** The documented contract of the draws: [randint] is uniform over the
    half-open [[low, high)], [choice] picks elements of [a], [uniform] draws
    from the half-open [[low, high)], and a draw of size [n] has [n]
    elements. *)
Record GeneratorLaws (G : Generator) : Prop := mk_laws
  { randint_range : forall lo hi s,
      lo < hi -> in_range lo hi (fst (rng_randint G lo hi s));
    randint_size_length : forall lo hi n s,
      length (fst (rng_randint_size G lo hi n s)) = n;
    randint_size_range : forall lo hi n s,
      lo < hi -> Forall (in_range lo hi) (fst (rng_randint_size G lo hi n s));
    choice_size_length : forall a n s,
      length (fst (rng_choice_size G a n s)) = n;
    choice_size_member : forall a n s,
      a <> [] -> Forall (fun x => In x a) (fst (rng_choice_size G a n s));
    uniform_size_length : forall lo hi n s,
      length (fst (rng_uniform_size G lo hi n s)) = n;
    uniform_size_range : forall lo hi n s,
      F64.valid lo = true -> F64.ltb lo hi = true ->
      Forall (in_float_range lo hi) (fst (rng_uniform_size G lo hi n s)) }.

(** ** The script [generate_bigdata.py] *)

Module Script.

Section WithGenerator.

Context (G : Generator).

(** The state the script acts on: NumPy's global generator state and the
    file system.  (The progress messages it prints are left out.) *)
Record world : Type := mk_world
  { rng : rng_state G;
    fs : filesystem }.

(** Computations that read and update the world and may raise; what was
    done before an exception stays done. *)
Definition M (A : Type) : Type := world -> result A * world.

Definition ret {A : Type} (a : A) : M A := fun w => (Ok a, w).

Definition bind {A B : Type} (c : M A) (k : A -> M B) : M B :=
  fun w =>
    match c w with
    | (Ok a, w') => k a w'
    | (Raise e, w') => (Raise e, w')
    end.

Definition lift {A : Type} (r : result A) : M A := fun w => (r, w).

Notation "x <- c ; k" := (bind c (fun x => k))
  (at level 20, c at level 100, k at level 200, only parsing).

(** A list comprehension whose body acts on the world. *)
Fixpoint for_each {A B : Type} (f : A -> M B) (l : list A) : M (list B) :=
  match l with
  | [] => ret []
  | x :: l' => y <- f x; ys <- for_each f l'; ret (y :: ys)
  end.

(** *** [np.random], with the argument checks NumPy makes *)

Definition np_random_seed (s : Z) : M unit :=
  fun w =>
    if (0 <=? s) && (s <? 2 ^ 32)
    then (Ok tt, mk_world (rng_seed G s) (fs w))
    else (Raise ValueError, w).

Definition np_random_randint (low high : Z) : M Z :=
  fun w =>
    if high <=? low then (Raise ValueError, w)
    else let '(x, s) := rng_randint G low high (rng w) in
         (Ok x, mk_world s (fs w)).

Definition np_random_randint_size (low high n : Z) : M (list Z) :=
  fun w =>
    if n <? 0 then (Raise ValueError, w)
    else if high <=? low then (Raise ValueError, w)
    else let '(l, s) := rng_randint_size G low high (Z.to_nat n) (rng w) in
         (Ok l, mk_world s (fs w)).

Definition np_random_choice (a : list string) (n : Z) : M (list string) :=
  fun w =>
    if n <? 0 then (Raise ValueError, w)
    else match a, Z.to_nat n with
         | [], S _ => (Raise ValueError, w)
         | _, k => let '(l, s) := rng_choice_size G a k (rng w) in
                   (Ok l, mk_world s (fs w))
         end.

Definition np_random_uniform (low high : F64.float) (n : Z) : M (list F64.float) :=
  fun w =>
    if n <? 0 then (Raise ValueError, w)
    else let '(l, s) := rng_uniform_size G low high (Z.to_nat n) (rng w) in
         (Ok l, mk_world s (fs w)).

(** *** [DataFrame.to_csv(path, index=False)] *)

Definition to_csv (df : Pandas.DataFrame) (path : string) : M unit :=
  fun w =>
    let '(r, fs') := write_file path (Pandas.csv_text df) (fs w) in
    (r, mk_world (rng w) fs').

(** *** The script, lines 8 to 32: building the frame *)

Definition categories : list string :=
  ["Electronics"; "Fashion"; "Home"; "Sports"; "Books"].
Definition payment_methods : list string :=
  ["Credit Card"; "PayPal"; "Bank Transfer"; "Cash"].
Definition countries : list string :=
  ["Germany"; "Austria"; "Switzerland"; "Netherlands"; "Belgium"].

Definition window_days : Z := 730.

(** [start_date + timedelta(days=np.random.randint(0, 730))] *)
Definition draw_date (start_date : Datetime.datetime) : M Datetime.datetime :=
  k <- np_random_randint 0 window_days;
  delta <- lift (Datetime.timedelta_days k);
  lift (Datetime.add start_date delta).

Definition build_frame (seed n : Z) : M Pandas.DataFrame :=
  _ <- np_random_seed seed;
  start_date <- lift (Datetime.make 2022 1 1);
  dates <- for_each (fun _ => draw_date start_date) (Py.range n);
  let transaction_id := Py.range2 1 (n + 1) in
  customer_id <- np_random_randint_size 1000 50000 n;
  product_category <- np_random_choice categories n;
  u <- np_random_uniform (F64.of_Z 5) (F64.of_Z 500) n;
  let product_price := List.map (fun x => F64.np_round x 2) u in
  quantity <- np_random_randint_size 1 10 n;
  payment_method <- np_random_choice payment_methods n;
  country <- np_random_choice countries n;
  let data :=
    [ ("transaction_id", Pandas.IntCol transaction_id);
      ("customer_id", Pandas.IntCol customer_id);
      ("product_category", Pandas.StrCol product_category);
      ("product_price", Pandas.FloatCol product_price);
      ("quantity", Pandas.IntCol quantity);
      ("date", Pandas.DateCol dates);
      ("payment_method", Pandas.StrCol payment_method);
      ("country", Pandas.StrCol country) ] in
  df <- lift (Pandas.make data);
  price <- lift (Pandas.getitem df "product_price");
  qty <- lift (Pandas.getitem df "quantity");
  total <- lift (Pandas.mul price qty);
  ret (Pandas.setitem df "total" total).

(** *** The frame as a function of the draws

    The same frame computed without the exception plumbing: seed, draw the
    day offsets one by one, then the six column draws in the order of the
    dictionary.  [build_frame_run] below shows that [build_frame] returns
    this frame whenever the generator keeps to its contract. *)

Definition start_date : Datetime.datetime :=
  Datetime.mk_datetime 2022 1 1 0 0 0 0.

(** [start_date + timedelta(days=730)] *)
Definition end_date : Datetime.datetime :=
  Datetime.mk_datetime 2024 1 1 0 0 0 0.

(** [start_date + timedelta(days=k)], with [start_date] standing in for a
    sum that raises. *)
Definition date_at (k : Z) : Datetime.datetime :=
  match rbind (Datetime.timedelta_days k) (Datetime.add start_date) with
  | Ok d => d
  | Raise _ => start_date
  end.

Fixpoint draw_offsets (m : nat) (s : rng_state G) : list Z * rng_state G :=
  match m with
  | O => ([], s)
  | S m' =>
      let '(k, s1) := rng_randint G 0 window_days s in
      let '(ks, s2) := draw_offsets m' s1 in
      (k :: ks, s2)
  end.

Definition synthesize (seed : Z) (m : nat) : Pandas.DataFrame * rng_state G :=
  let s0 := rng_seed G seed in
  let '(offsets, s1) := draw_offsets m s0 in
  let '(customer_id, s2) := rng_randint_size G 1000 50000 m s1 in
  let '(product_category, s3) := rng_choice_size G categories m s2 in
  let '(u, s4) := rng_uniform_size G (F64.of_Z 5) (F64.of_Z 500) m s3 in
  let product_price := List.map (fun x => F64.np_round x 2) u in
  let '(quantity, s5) := rng_randint_size G 1 10 m s4 in
  let '(payment_method, s6) := rng_choice_size G payment_methods m s5 in
  let '(country, s7) := rng_choice_size G countries m s6 in
  ([ ("transaction_id", Pandas.IntCol (Py.range2 1 (Z.of_nat m + 1)));
     ("customer_id", Pandas.IntCol customer_id);
     ("product_category", Pandas.StrCol product_category);
     ("product_price", Pandas.FloatCol product_price);
     ("quantity", Pandas.IntCol quantity);
     ("date", Pandas.DateCol (List.map date_at offsets));
     ("payment_method", Pandas.StrCol payment_method);
     ("country", Pandas.StrCol country);
     ("total",
      Pandas.FloatCol
        (zip_with (fun p q => F64.mul p (F64.of_Z q)) product_price quantity)) ],
   s7).

(** Row [i] of that frame. *)
Definition row_at (seed : Z) (m : nat) (i : nat) : Pandas.transaction :=
  let s0 := rng_seed G seed in
  let '(offsets, s1) := draw_offsets m s0 in
  let '(customer_id, s2) := rng_randint_size G 1000 50000 m s1 in
  let '(product_category, s3) := rng_choice_size G categories m s2 in
  let '(u, s4) := rng_uniform_size G (F64.of_Z 5) (F64.of_Z 500) m s3 in
  let '(quantity, s5) := rng_randint_size G 1 10 m s4 in
  let '(payment_method, s6) := rng_choice_size G payment_methods m s5 in
  let '(country, s7) := rng_choice_size G countries m s6 in
  let price := F64.np_round (nth i u S754_nan) 2 in
  Pandas.mk_transaction
    (1 + Z.of_nat i) (nth i customer_id 0) (nth i product_category EmptyString)
    price (nth i quantity 0) (date_at (nth i offsets 0))
    (nth i payment_method EmptyString) (nth i country EmptyString)
    (F64.mul price (F64.of_Z (nth i quantity 0))).


(** *** The whole script: build the frame, then line 34 *)

Definition target : string := "ecommerce_5m.csv".

Definition script (seed n : Z) : M unit :=
  df <- build_frame seed n;
  to_csv df target.

(** The script as it stands: seed 42, five million rows. *)
Definition main : M unit := script 42 5000000.

End WithGenerator.

End Script.

(** ** The dates of the window

    What the script can compute as [start_date + timedelta(days=k)]: the sum
    does not raise, lies between [start_date] and [end_date], is at midnight
    and prints as [YYYY-MM-DD] without any character that CSV quotes. *)

Definition date_check (k : Z) : bool :=
  match rbind (Datetime.timedelta_days k) (Datetime.add Script.start_date) with
  | Ok d =>
      Datetime.leb Script.start_date d && Datetime.leb d Script.end_date
      && Datetime.is_midnight d && Datetime.is_iso_date (Datetime.isodate d)
      && negb (Pandas.needs_quoting (Datetime.isodate d))
  | Raise _ => false
  end.

(** The last day the script can draw: [start_date + timedelta(days=729)]. *)
Definition last_date : Datetime.datetime :=
  Datetime.mk_datetime 2023 12 31 0 0 0 0.

(** The calendar side of a draw [k]: the date is a real day of 2022 or
    2023, no later than [last_date], and [k] days after [start_date] on the
    proleptic ordinal scale. *)
Definition calendar_check (k : Z) : bool :=
  let d := Script.date_at k in
  ((Datetime.year d =? 2022) || (Datetime.year d =? 2023))
  && (1 <=? Datetime.month d) && (Datetime.month d <=? 12)
  && (1 <=? Datetime.day d)
  && (Datetime.day d <=? Datetime.days_in_month (Datetime.year d) (Datetime.month d))
  && Datetime.leb d last_date
  && (Datetime.toordinal d =? Datetime.toordinal Script.start_date + k).

(** The number of occurrences of a character in a string. *)
Fixpoint count_char (c : ascii) (s : string) : nat :=
  match s with
  | EmptyString => O
  | String c' s' => (if Ascii.eqb c' c then 1 else 0) + count_char c s'
  end.

(** ** A generator that replays a tape

    Every behaviour the contract allows is the behaviour of some generator;
    this one reads the values to draw from a tape chosen by the seed, and
    falls back to the lower bound (the first element for [choice]) when the
    tape is exhausted or holds a value outside the requested range. *)

Module Tape.

Record tape : Type := mk_tape
  { ints : list Z;
    floats : list F64.float }.

Definition clamp (lo hi x : Z) : Z :=
  if (lo <=? x) && (x <? hi) then x else lo.

Definition fclamp (lo hi x : F64.float) : F64.float :=
  if F64.valid x && F64.leb lo x && F64.ltb x hi then x else lo.

(** The first [n] elements of [l], padded with [d]. *)
Definition take_pad {A : Type} (n : nat) (l : list A) (d : A) : list A :=
  take n (l ++ repeat d n)%list.

Definition pick (a : list string) (i : Z) : string :=
  nth (Z.to_nat (i mod Py.len a)) a (hd EmptyString a).

Definition generator (tape_of_seed : Z -> tape) : Generator :=
  {| rng_state := tape;
     rng_seed := tape_of_seed;
     rng_randint := fun lo hi t =>
       (clamp lo hi (hd lo (ints t)), mk_tape (tl (ints t)) (floats t));
     rng_randint_size := fun lo hi n t =>
       (List.map (clamp lo hi) (take_pad n (ints t) lo),
        mk_tape (drop n (ints t)) (floats t));
     rng_choice_size := fun a n t =>
       (List.map (pick a) (take_pad n (ints t) 0),
        mk_tape (drop n (ints t)) (floats t));
     rng_uniform_size := fun lo hi n t =>
       (List.map (fclamp lo hi) (take_pad n (floats t) lo),
        mk_tape (ints t) (drop n (floats t))) |}.

(** Two tapes for a run of one row.  The integers are, in the order the
    script draws them: the day offset, the customer, the category index, the
    quantity, the payment index and the country index; the float is the
    uniform draw of the price. *)
Definition one_row (u : F64.float) (qty : Z) : tape :=
  mk_tape [0; 1000; 0; qty; 1; 2] [u].

(** A draw of 5.1 (which [np.round] leaves at 5.1) with quantity 3. *)
Definition ordinary (seed : Z) : tape := one_row (F64.of_decimal 51 (-1)) 3.

(** A draw of 499.996, inside [[5, 500)], with quantity 9. *)
Definition near_top (seed : Z) : tape := one_row (F64.of_decimal 499996 (-3)) 9.

Definition empty_fs : filesystem := mk_filesystem ∅ ∅.

(** A fresh world for the tape generator: generator not yet seeded, no
    file, no fault. *)
Definition fresh (tape_of_seed : Z -> tape) : Script.world (generator tape_of_seed) :=
  Script.mk_world (generator tape_of_seed) (mk_tape [] []) empty_fs.

(** A world whose device has room for [room] more bytes at the target. *)
Definition short_of_room (tape_of_seed : Z -> tape) (room : nat)
  : Script.world (generator tape_of_seed) :=
  Script.mk_world (generator tape_of_seed) (mk_tape [] [])
    (mk_filesystem ∅ {[ Script.target := DiskFull room ]}).

(** A world left by earlier work: the generator has been used and a file
    is already at the target. *)
Definition used (tape_of_seed : Z -> tape) : Script.world (generator tape_of_seed) :=
  Script.mk_world (generator tape_of_seed) (mk_tape [7; 7; 7] [])
    (mk_filesystem {[ Script.target := "old" ]} ∅).

End Tape.

(** ** What a run produces *)

(** The frame [df] a run builds from the world [w], and its rows. *)
Definition generates (G : Generator) (seed n : Z) (w : Script.world G)
    (df : Pandas.DataFrame) (recs : list Pandas.transaction) : Prop :=
  exists w', Script.build_frame G seed n w = (Ok df, w')
             /\ Pandas.transactions df = Ok recs.

(** The file the script leaves at its target path, if any. *)
Definition output_file (G : Generator) (w : Script.world G) : option string :=
  files (Script.fs G w) !! Script.target.

Definition no_lf (s : string) : Prop :=
  existsb (Ascii.eqb Pandas.LF) (list_ascii_of_string s) = false.

(** A line of text: some characters other than the line feed, then one line
    feed. *)
Definition single_line (l : string) : Prop :=
  exists body, l = body ++ String Pandas.LF EmptyString /\ no_lf body.

(** A computation whose result and generator state depend on the generator
    state alone, and which leaves the file system alone. *)
Definition rng_determined {G : Generator} {A : Type} (c : Script.M G A) : Prop :=
  forall w1 w2 : Script.world G,
    Script.rng G w1 = Script.rng G w2 ->
    fst (c w1) = fst (c w2)
    /\ Script.rng G (snd (c w1)) = Script.rng G (snd (c w2))
    /\ Script.fs G (snd (c w1)) = Script.fs G w1
    /\ Script.fs G (snd (c w2)) = Script.fs G w2.

(** ** The theme module: [COLOR_CYCLE], [get_palette], [get_water_palette] *)

Module Theme.

Definition COLOR_CYCLE : list string :=
  [ "#7BA898";   (* 1. River teal *)
    "#8EC4D4";   (* 2. Light blue *)
    "#4A7088";   (* 3. Dark blue *)
    "#CCA361";   (* 4. Golden sand *)
    "#8FBA70";   (* 5. Green *)
    "#4A7858";   (* 6. Dark green *)
    "#6BA8B0";   (* 7. Shallow pool *)
    "#D4A868";   (* 8. Light sand *)
    "#5A9A78";   (* 9. Medium green *)
    "#7AA0B0" ]. (* 10. Medium blue *)

(** The gold accent, [COLORS['gold']]. *)
Definition gold : string := "#CCA361".

(** [get_palette(n, include_accent)]; [n = None] is the default argument. *)
Definition get_palette (n : option Z) (include_accent : bool) : result (list string) :=
  let palette :=
    if include_accent then COLOR_CYCLE
    else List.map snd
           (List.filter (fun ic : Z * string => negb (fst ic =? 5))
                        (Py.enumerate COLOR_CYCLE)) in
  match n with
  | None => Ok palette
  | Some n =>
      traverse
        (fun i => rbind (Py.mod_ i (Py.len palette)) (fun j => Py.getitem palette j))
        (Py.range n)
  end.

(** [get_water_palette(n)] *)
Definition get_water_palette (n : option Z) : result (list string) :=
  get_palette n false.

(** A hex colour string: ['#'] followed by six hexadecimal digits. *)
Definition is_hex_digit (c : ascii) : bool :=
  let k := Z.of_nat (nat_of_ascii c) in
  ((48 <=? k) && (k <=? 57)) || ((65 <=? k) && (k <=? 70)) || ((97 <=? k) && (k <=? 102)).

Definition is_hex_color (s : string) : bool :=
  match s with
  | String "#" d =>
      (String.length d =? 6)%nat && forallb is_hex_digit (list_ascii_of_string d)
  | _ => false
  end.

End Theme.

(** ** matplotlib, as far as the theme module touches it

    [pyplot] holds the three things the styling functions read and write:
    the global [rcParams], the figures and the axes.  Figures and axes are
    Python objects reached through references, here numbers; a figure lists
    its axes and an axes names its figure, so that two axes of one figure
    share it.  The texts, tick styles, spines and legend of an axes belong
    to that axes alone and are kept inside it.  Only the attributes the
    module sets are kept. *)

Module Mpl.

(** A [Text]: its string, [color] and [fontweight]. *)
Record text : Type := mk_text
  { text_str : string;
    text_color : string;
    text_weight : string }.

(** A [Spine]: its edge colour and its visibility. *)
Record spine : Type := mk_spine
  { spine_color : string;
    spine_visible : bool }.

(** The major ticks of one axis: colour of the marks and of their labels. *)
Record ticks : Type := mk_ticks
  { tick_color : string;
    tick_labelcolor : string }.

(** A [Legend]: the face and edge colour of its frame, and its texts. *)
Record legend : Type := mk_legend
  { frame_facecolor : string;
    frame_edgecolor : string;
    legend_texts : list text }.

(** An [Axes].  [title], [left_title] and [right_title] are the three
    titles matplotlib keeps ([ax.title], [ax._left_title],
    [ax._right_title]); [spines] is the ordered mapping [ax.spines];
    [ax_legend] is what [ax.get_legend()] returns; [ax_figure] is
    [ax.figure]. *)
Record axes : Type := mk_axes
  { ax_facecolor : string;
    xticks : ticks;
    yticks : ticks;
    xlabel : text;
    ylabel : text;
    title : text;
    left_title : text;
    right_title : text;
    spines : list (string * spine);
    ax_legend : option legend;
    ax_figure : nat }.

(** A [Figure]: its face colour and [fig.get_axes()]. *)
Record figure : Type := mk_figure
  { fig_facecolor : string;
    fig_axes : list nat }.

(** The values the module stores in [rcParams]. *)
Inductive rcvalue : Type :=
  | RcStr (s : string)
  | RcBool (b : bool)
  | RcInt (n : Z)
  | RcFloat (x : F64.float)
  | RcTuple (l : list Z)
  | RcCycler (prop : string) (values : list string).

Definition rc : Type := string -> rcvalue.

Record pyplot : Type := mk_pyplot
  { rcParams : rc;
    figures : nat -> figure;
    all_axes : nat -> axes }.

(** The installed libraries: the style sheets [plt.style.use] knows, and
    seaborn if it can be imported.  Of seaborn only the effect of
    [set_theme(style, rc)] and [set_palette(palette)] on [rcParams] is
    used. *)
Record seaborn_module : Type := mk_seaborn
  { sns_set_theme : string -> list (string * rcvalue) -> rc -> rc;
    sns_set_palette : list string -> rc -> rc }.

Record library : Type := mk_library
  { style_sheet : string -> list (string * rcvalue);
    seaborn : option seaborn_module }.

(** *** Computations on [pyplot] that may raise *)

Definition M (A : Type) : Type := pyplot -> result A * pyplot.

Definition ret {A : Type} (a : A) : M A := fun s => (Ok a, s).

Definition bind {A B : Type} (c : M A) (k : A -> M B) : M B :=
  fun s =>
    match c s with
    | (Ok a, s') => k a s'
    | (Raise e, s') => (Raise e, s')
    end.

Definition lift {A : Type} (r : result A) : M A := fun s => (r, s).

Notation "x <- c ; k" := (bind c (fun x => k))
  (at level 20, c at level 100, k at level 200, only parsing).

(** A [for] loop whose body acts on [pyplot]. *)
Fixpoint for_ {A : Type} (l : list A) (body : A -> M unit) : M unit :=
  match l with
  | [] => ret tt
  | x :: l' => _ <- body x; for_ l' body
  end.

(** *** Assignment to one object or one [rcParams] entry *)

Definition upd {A : Type} (i : nat) (v : A) (f : nat -> A) : nat -> A :=
  fun j => if Nat.eqb j i then v else f j.

Definition rc_set (k : string) (v : rcvalue) (r : rc) : rc :=
  fun k' => if String.eqb k' k then v else r k'.

(** [rcParams.update(d)]: the entries are assigned one after the other. *)
Definition rc_update (d : list (string * rcvalue)) (r : rc) : rc :=
  fold_left (fun r kv => rc_set (fst kv) (snd kv) r) d r.

Definition modify_axes (a : nat) (f : axes -> axes) : M unit :=
  fun s =>
    (Ok tt, mk_pyplot (rcParams s) (figures s) (upd a (f (all_axes s a)) (all_axes s))).

Definition modify_figure (fig : nat) (f : figure -> figure) : M unit :=
  fun s =>
    (Ok tt, mk_pyplot (rcParams s) (upd fig (f (figures s fig)) (figures s)) (all_axes s)).

Definition modify_rc (f : rc -> rc) : M unit :=
  fun s => (Ok tt, mk_pyplot (f (rcParams s)) (figures s) (all_axes s)).

(** *** Setters on the parts of an axes *)

Definition set_color (c : string) (t : text) : text :=
  mk_text (text_str t) c (text_weight t).

Definition with_facecolor (c : string) (a : axes) : axes :=
  mk_axes c (xticks a) (yticks a) (xlabel a) (ylabel a) (title a) (left_title a)
    (right_title a) (spines a) (ax_legend a) (ax_figure a).

Definition with_ticks (x y : ticks) (a : axes) : axes :=
  mk_axes (ax_facecolor a) x y (xlabel a) (ylabel a) (title a) (left_title a)
    (right_title a) (spines a) (ax_legend a) (ax_figure a).

Definition with_xlabel (t : text) (a : axes) : axes :=
  mk_axes (ax_facecolor a) (xticks a) (yticks a) t (ylabel a) (title a) (left_title a)
    (right_title a) (spines a) (ax_legend a) (ax_figure a).

Definition with_ylabel (t : text) (a : axes) : axes :=
  mk_axes (ax_facecolor a) (xticks a) (yticks a) (xlabel a) t (title a) (left_title a)
    (right_title a) (spines a) (ax_legend a) (ax_figure a).

Definition with_title (t : text) (a : axes) : axes :=
  mk_axes (ax_facecolor a) (xticks a) (yticks a) (xlabel a) (ylabel a) t (left_title a)
    (right_title a) (spines a) (ax_legend a) (ax_figure a).

Definition with_left_title (t : text) (a : axes) : axes :=
  mk_axes (ax_facecolor a) (xticks a) (yticks a) (xlabel a) (ylabel a) (title a) t
    (right_title a) (spines a) (ax_legend a) (ax_figure a).

Definition with_right_title (t : text) (a : axes) : axes :=
  mk_axes (ax_facecolor a) (xticks a) (yticks a) (xlabel a) (ylabel a) (title a)
    (left_title a) t (spines a) (ax_legend a) (ax_figure a).

Definition with_spines (l : list (string * spine)) (a : axes) : axes :=
  mk_axes (ax_facecolor a) (xticks a) (yticks a) (xlabel a) (ylabel a) (title a)
    (left_title a) (right_title a) l (ax_legend a) (ax_figure a).

Definition with_legend (l : option legend) (a : axes) : axes :=
  mk_axes (ax_facecolor a) (xticks a) (yticks a) (xlabel a) (ylabel a) (title a)
    (left_title a) (right_title a) (spines a) l (ax_figure a).

(** The spine stored under [key] replaced by [f] of it. *)
Definition map_spine (key : string) (f : spine -> spine)
    (l : list (string * spine)) : list (string * spine) :=
  List.map (fun kv => if String.eqb (fst kv) key then (fst kv, f (snd kv)) else kv) l.

(** *** The methods the module calls *)

(** [fig.set_facecolor(c)] *)
Definition Figure_set_facecolor (fig : nat) (c : string) : M unit :=
  modify_figure fig (fun f => mk_figure c (fig_axes f)).

(** [fig.get_axes()] *)
Definition Figure_get_axes (fig : nat) : M (list nat) :=
  fun s => (Ok (fig_axes (figures s fig)), s).

(** [ax.figure] *)
Definition Axes_figure (a : nat) : M nat :=
  fun s => (Ok (ax_figure (all_axes s a)), s).

(** [ax.set_facecolor(c)] *)
Definition Axes_set_facecolor (a : nat) (c : string) : M unit :=
  modify_axes a (with_facecolor c).

(** [ax.tick_params(colors=c)]: with the defaults [axis='both'] and
    [which='major'], the colour of the tick marks and of the tick labels of
    both axes. *)
Definition Axes_tick_params (a : nat) (colors : string) : M unit :=
  modify_axes a (with_ticks (mk_ticks colors colors) (mk_ticks colors colors)).

(** [ax.xaxis.label.set_color(c)] *)
Definition xaxis_label_set_color (a : nat) (c : string) : M unit :=
  modify_axes a (fun x => with_xlabel (set_color c (xlabel x)) x).

(** [ax.yaxis.label.set_color(c)] *)
Definition yaxis_label_set_color (a : nat) (c : string) : M unit :=
  modify_axes a (fun x => with_ylabel (set_color c (ylabel x)) x).

(** [ax.title.set_color(c)] *)
Definition title_set_color (a : nat) (c : string) : M unit :=
  modify_axes a (fun x => with_title (set_color c (title x)) x).

(** The title at location [loc] replaced by [t]; [ValueError] for anything
    but the three locations.  ([rcParams] accepts only these three for
    ['axes.titlelocation'].) *)
Definition put_title (loc : rcvalue) (t : text) (x : axes) : result axes :=
  match loc with
  | RcStr l =>
      if String.eqb l "center" then Ok (with_title t x)
      else if String.eqb l "left" then Ok (with_left_title t x)
      else if String.eqb l "right" then Ok (with_right_title t x)
      else Raise ValueError
  | _ => Raise ValueError
  end.

(** [ax.set_title(label, color=c, fontweight=w)]: without [loc], the title
    named by [rcParams['axes.titlelocation']] gets the text and the two
    properties. *)
Definition Axes_set_title (a : nat) (label color fontweight : string) : M unit :=
  fun s =>
    match put_title (rcParams s "axes.titlelocation")
                    (mk_text label color fontweight) (all_axes s a) with
    | Ok x => modify_axes a (fun _ => x) s
    | Raise e => (Raise e, s)
    end.

(** [ax.spines.values()], as the keys under which the spines are stored *)
Definition spines_values (a : nat) : M (list string) :=
  fun s => (Ok (List.map fst (spines (all_axes s a))), s).

(** [ax.spines[key]]: [KeyError] when there is no such spine *)
Definition spines_getitem (a : nat) (key : string) : M string :=
  fun s =>
    if existsb (fun kv : string * spine => String.eqb (fst kv) key) (spines (all_axes s a))
    then (Ok key, s)
    else (Raise KeyError, s).

Definition recolor (c : string) (sp : spine) : spine := mk_spine c (spine_visible sp).

Definition show (b : bool) (sp : spine) : spine := mk_spine (spine_color sp) b.

(** [spine.set_color(c)] on the spine of [a] stored under [key] *)
Definition Spine_set_color (a : nat) (key c : string) : M unit :=
  modify_axes a (fun x => with_spines (map_spine key (recolor c) (spines x)) x).

(** [spine.set_visible(b)] *)
Definition Spine_set_visible (a : nat) (key : string) (b : bool) : M unit :=
  modify_axes a (fun x => with_spines (map_spine key (show b) (spines x)) x).

(** [ax.get_legend()]: the legend or [None] *)
Definition Axes_get_legend (a : nat) : M (option legend) :=
  fun s => (Ok (ax_legend (all_axes s a)), s).

Definition modify_legend (a : nat) (f : legend -> legend) : M unit :=
  modify_axes a (fun x => with_legend (option_map f (ax_legend x)) x).

(** [legend.get_frame().set_facecolor(c)] *)
Definition Legend_frame_set_facecolor (a : nat) (c : string) : M unit :=
  modify_legend a (fun l => mk_legend c (frame_edgecolor l) (legend_texts l)).

(** [legend.get_frame().set_edgecolor(c)] *)
Definition Legend_frame_set_edgecolor (a : nat) (c : string) : M unit :=
  modify_legend a (fun l => mk_legend (frame_facecolor l) c (legend_texts l)).

(** [legend.get_texts()], as the positions of the texts *)
Definition Legend_get_texts (l : legend) : list nat := seq 0 (length (legend_texts l)).

(** [text.set_color(c)] on the [i]-th text of the legend of [a] *)
Definition Legend_text_set_color (a : nat) (i : nat) (c : string) : M unit :=
  modify_legend a (fun l =>
    mk_legend (frame_facecolor l) (frame_edgecolor l)
              (alter (set_color c) i (legend_texts l))).

(** [plt.style.use(name)]: [rcParams] updated with the sheet *)
Definition style_use (lib : library) (name : string) : M unit :=
  modify_rc (rc_update (style_sheet lib name)).

(** *** Describing a change of [pyplot] object by object

    [s'] is [s] with [rcParams] as they were, figure [f] replaced by
    [F f] of it and axes [a] by [G a] of it, for every [f] and [a]. *)
Definition evolves (F : nat -> figure -> figure) (G : nat -> axes -> axes)
    (s s' : pyplot) : Prop :=
  rcParams s' = rcParams s /\
  (forall f, figures s' f = F f (figures s f)) /\
  (forall a, all_axes s' a = G a (all_axes s a)).

(** The change [g] at reference [i], none elsewhere. *)
Definition only {A : Type} (i : nat) (g : A -> A) : nat -> A -> A :=
  fun j x => if Nat.eqb j i then g x else x.

(** No change anywhere. *)
Definition keep {A : Type} : nat -> A -> A := fun _ x => x.

End Mpl.

(** ** The theme module: [COLORS], [apply], [apply_to_figure],
    [style_dataframe_plot] *)

Module Style.
Import Mpl.

Notation "x <- c ; k" := (bind c (fun x => k))
  (at level 20, c at level 100, k at level 200, only parsing).

Definition COLORS : list (string * string) :=
  [ ("bg_dark", "#2B2927");
    ("bg_medium", "#2D2A2E");
    ("bg_light", "#302F2E");
    ("bg_elevated", "#403E41");
    ("fg_primary", "#C6CBCC");
    ("fg_bright", "#FCFCFA");
    ("fg_muted", "#939293");
    ("fg_dim", "#5B595C");
    ("title", "#CCA361");
    ("label", "#D4A870");
    ("ticks", "#939293");
    ("heading_h1", "#CCA361");
    ("heading_h2", "#D4A870");
    ("heading_h3", "#95D1BE");
    ("gold", "#CCA361");
    ("sand", "#C4A55A");
    ("peach", "#D19577");
    ("river_teal", "#7BA898");
    ("shallow_pool", "#6BA8B0");
    ("deep_oasis", "#5B8A72");
    ("morning_mist", "#8BBAB0");
    ("twilight_water", "#6A9AA8");
    ("desert_spring", "#7CB5A0");
    ("deep_channel", "#4A8888");
    ("oasis_edge", "#9BC4B0") ].

(** [COLORS[key]] *)
Definition COLORS_getitem (key : string) : result string :=
  match List.find (fun kv : string * string => String.eqb (fst kv) key) COLORS with
  | Some kv => Ok (snd kv)
  | None => Raise KeyError
  end.

Definition color (key : string) : M string := lift (COLORS_getitem key).

(** An entry of a dictionary display: a literal, or [COLORS[key]]. *)
Inductive entry : Type :=
  | Lit (v : rcvalue)
  | Col (key : string).

Definition eval_entry (kv : string * entry) : result (string * rcvalue) :=
  match snd kv with
  | Lit v => Ok (fst kv, v)
  | Col key => rbind (COLORS_getitem key) (fun c => Ok (fst kv, RcStr c))
  end.

(** The dictionary passed to [plt.rcParams.update], lines 178 to 234. *)
Definition rc_entries : list (string * entry) :=
  [ ("figure.facecolor", Col "bg_dark");
    ("figure.edgecolor", Col "bg_dark");
    ("figure.figsize", Lit (RcTuple [10; 6]));
    ("figure.dpi", Lit (RcInt 100));
    ("axes.facecolor", Col "bg_dark");
    ("axes.edgecolor", Col "fg_dim");
    ("axes.labelcolor", Col "label");
    ("axes.titlecolor", Col "title");
    ("axes.titleweight", Lit (RcStr "bold"));
    ("axes.titlesize", Lit (RcInt 14));
    ("axes.labelsize", Lit (RcInt 11));
    ("axes.labelweight", Lit (RcStr "medium"));
    ("axes.spines.top", Lit (RcBool false));
    ("axes.spines.right", Lit (RcBool false));
    ("axes.prop_cycle", Lit (RcCycler "color" Theme.COLOR_CYCLE));
    ("axes.grid", Lit (RcBool true));
    ("grid.color", Col "bg_elevated");
    ("grid.linestyle", Lit (RcStr "-"));
    ("grid.linewidth", Lit (RcFloat (F64.of_decimal 5 (-1))));
    ("grid.alpha", Lit (RcFloat (F64.of_decimal 7 (-1))));
    ("xtick.color", Col "ticks");
    ("ytick.color", Col "ticks");
    ("xtick.labelsize", Lit (RcInt 10));
    ("ytick.labelsize", Lit (RcInt 10));
    ("text.color", Col "fg_primary");
    ("font.size", Lit (RcInt 11));
    ("legend.facecolor", Col "bg_elevated");
    ("legend.edgecolor", Col "fg_dim");
    ("legend.labelcolor", Col "fg_primary");
    ("legend.fontsize", Lit (RcInt 10));
    ("legend.framealpha", Lit (RcFloat (F64.of_decimal 9 (-1))));
    ("lines.linewidth", Lit (RcInt 2));
    ("lines.markersize", Lit (RcInt 8));
    ("patch.edgecolor", Col "bg_dark");
    ("savefig.facecolor", Col "bg_dark");
    ("savefig.edgecolor", Col "bg_dark");
    ("savefig.bbox", Lit (RcStr "tight"));
    ("savefig.dpi", Lit (RcInt 150)) ].

(** The [rc] dictionary passed to [sns.set_theme], lines 241 to 251. *)
Definition seaborn_entries : list (string * entry) :=
  [ ("figure.facecolor", Col "bg_dark");
    ("axes.facecolor", Col "bg_dark");
    ("axes.edgecolor", Col "fg_dim");
    ("axes.labelcolor", Col "label");
    ("axes.titlecolor", Col "title");
    ("text.color", Col "fg_primary");
    ("xtick.color", Col "ticks");
    ("ytick.color", Col "ticks");
    ("grid.color", Col "bg_elevated") ].

Section WithLibrary.

Context (lib : library).

(** [apply(seaborn)].  (The two messages it prints are left out.) *)
Definition apply (seaborn : bool) : M unit :=
  _ <- style_use lib "dark_background";
  d <- lift (traverse eval_entry rc_entries);
  _ <- modify_rc (rc_update d);
  if seaborn then
    match Mpl.seaborn lib with
    | Some sns =>
        d' <- lift (traverse eval_entry seaborn_entries);
        _ <- modify_rc (sns_set_theme sns "darkgrid" d');
        modify_rc (sns_set_palette sns Theme.COLOR_CYCLE)
    | None => ret tt      (* [except ImportError: pass] *)
    end
  else ret tt.

End WithLibrary.

(** The [ax] argument of [apply_to_figure]: [None], a list of axes, or one
    axes. *)
Inductive ax_argument : Type :=
  | AxNone
  | AxList (l : list nat)
  | AxOne (a : nat).

(** [apply_to_figure(fig, ax)] *)
Definition apply_to_figure (fig : nat) (ax : ax_argument) : M unit :=
  c <- color "bg_dark";
  _ <- Figure_set_facecolor fig c;
  axes <- match ax with
          | AxNone => Figure_get_axes fig
          | AxList l => ret l
          | AxOne a => ret [a]
          end;
  for_ axes (fun a =>
    c <- color "bg_dark";
    _ <- Axes_set_facecolor a c;
    c <- color "ticks";
    _ <- Axes_tick_params a c;
    c <- color "label";
    _ <- xaxis_label_set_color a c;
    c <- color "label";
    _ <- yaxis_label_set_color a c;
    c <- color "title";
    _ <- title_set_color a c;
    keys <- spines_values a;
    for_ keys (fun spine =>
      c <- color "fg_dim";
      Spine_set_color a spine c)).

(** What one pass of the loop of [apply_to_figure] makes of an axes. *)
Definition repainted (x : axes) : axes :=
  mk_axes "#2B2927" (mk_ticks "#939293" "#939293") (mk_ticks "#939293" "#939293")
    (set_color "#D4A870" (xlabel x)) (set_color "#D4A870" (ylabel x))
    (set_color "#CCA361" (title x)) (left_title x) (right_title x)
    (List.map (fun kv => (fst kv, recolor "#5B595C" (snd kv))) (spines x))
    (ax_legend x) (ax_figure x).

(** The axes [apply_to_figure(fig, ax)] visits. *)
Definition selected (fig : nat) (ax : ax_argument) (s : pyplot) : list nat :=
  match ax with
  | AxNone => fig_axes (figures s fig)
  | AxList l => l
  | AxOne a => [a]
  end.

(** Truth value of the [title] argument: [None] and the empty string are
    false. *)
Definition truthy (title : option string) : bool :=
  match title with
  | None => false
  | Some t => negb (String.eqb t EmptyString)
  end.

(** [style_dataframe_plot(ax, title)] *)
Definition style_dataframe_plot (ax : nat) (title : option string) : M unit :=
  c <- color "bg_dark";
  _ <- Axes_set_facecolor ax c;
  fig <- Axes_figure ax;
  c <- color "bg_dark";
  _ <- Figure_set_facecolor fig c;
  c <- color "ticks";
  _ <- Axes_tick_params ax c;
  c <- color "label";
  _ <- xaxis_label_set_color ax c;
  c <- color "label";
  _ <- yaxis_label_set_color ax c;
  _ <- (if truthy title
        then c <- color "title";
             Axes_set_title ax (default EmptyString title) c "bold"
        else ret tt);
  legend <- Axes_get_legend ax;
  _ <- match legend with
       | Some l =>
           c <- color "bg_elevated";
           _ <- Legend_frame_set_facecolor ax c;
           c <- color "fg_dim";
           _ <- Legend_frame_set_edgecolor ax c;
           for_ (Legend_get_texts l) (fun text =>
             c <- color "fg_primary";
             Legend_text_set_color ax text c)
       | None => ret tt
       end;
  top <- spines_getitem ax "top";
  _ <- Spine_set_visible ax top false;
  right <- spines_getitem ax "right";
  _ <- Spine_set_visible ax right false;
  bottom <- spines_getitem ax "bottom";
  c <- color "fg_dim";
  _ <- Spine_set_color ax bottom c;
  left <- spines_getitem ax "left";
  c <- color "fg_dim";
  Spine_set_color ax left c.

(** The four spines [style_dataframe_plot] asks for, in the order it asks. *)
Definition box_keys : list string := ["top"; "right"; "bottom"; "left"].

Definition has_spine (x : axes) (key : string) : bool :=
  existsb (fun kv : string * spine => String.eqb (fst kv) key) (spines x).

Definition valid_location (loc : rcvalue) : bool :=
  match loc with
  | RcStr l => String.eqb l "center" || String.eqb l "left" || String.eqb l "right"
  | _ => false
  end.

(** The title is absent or empty, or [rcParams] name a title location. *)
Definition title_settable (r : rc) (title : option string) : bool :=
  negb (truthy title) || valid_location (r "axes.titlelocation").

Definition restyled_legend (l : legend) : legend :=
  mk_legend "#403E41" "#5B595C" (List.map (set_color "#C6CBCC") (legend_texts l)).

(** What [style_dataframe_plot] makes of the axes before it turns to the
    spines. *)
Definition restyled (r : rc) (title : option string) (x : axes) : axes :=
  let x := with_facecolor "#2B2927" x in
  let x := with_ticks (mk_ticks "#939293" "#939293") (mk_ticks "#939293" "#939293") x in
  let x := with_xlabel (set_color "#D4A870" (xlabel x)) x in
  let x := with_ylabel (set_color "#D4A870" (ylabel x)) x in
  let x := if truthy title
           then match put_title (r "axes.titlelocation")
                        (mk_text (default EmptyString title) "#CCA361" "bold") x with
                | Ok x' => x'
                | Raise _ => x
                end
           else x in
  with_legend (option_map restyled_legend (ax_legend x)) x.

(** What it makes of the spine stored under a key. *)
Definition restyled_spine (kv : string * spine) : string * spine :=
  let key := fst kv in
  if String.eqb key "top" || String.eqb key "right" then (key, show false (snd kv))
  else if String.eqb key "bottom" || String.eqb key "left"
       then (key, recolor "#5B595C" (snd kv))
       else kv.

End Style.

(** ** A small figure to run the styling on *)

Module Sample.
Import Mpl.

Definition plain (s : string) : text := mk_text s "white" "normal".

Definition box : list (string * spine) :=
  [ ("left", mk_spine "white" true);
    ("right", mk_spine "white" true);
    ("bottom", mk_spine "white" true);
    ("top", mk_spine "white" true) ].

(** Rectilinear axes with a legend of two entries. *)
Definition line_axes (fig : nat) : axes :=
  mk_axes "black" (mk_ticks "white" "white") (mk_ticks "white" "white")
    (plain "month") (plain "revenue")
    (plain "Revenue") (plain EmptyString) (plain EmptyString)
    box (Some (mk_legend "black" "white" [plain "2022"; plain "2023"])) fig.

(** Rectilinear axes without a legend. *)
Definition bar_axes (fig : nat) : axes :=
  mk_axes "black" (mk_ticks "white" "white") (mk_ticks "white" "white")
    (plain "x") (plain "y")
    (plain EmptyString) (plain EmptyString) (plain EmptyString)
    box None fig.

(** Polar axes: their spines are [polar], [start], [end] and [inner]. *)
Definition polar_axes (fig : nat) : axes :=
  mk_axes "black" (mk_ticks "white" "white") (mk_ticks "white" "white")
    (plain EmptyString) (plain EmptyString)
    (plain EmptyString) (plain EmptyString) (plain EmptyString)
    [ ("polar", mk_spine "white" true); ("start", mk_spine "white" true);
      ("end", mk_spine "white" true); ("inner", mk_spine "white" true) ]
    None fig.

Definition defaults : rc :=
  fun k => if String.eqb k "axes.titlelocation" then RcStr "center" else RcStr "white".

(** Figure 0 holds axes 0 and 1, figure 1 holds the polar axes 2; every
    other reference stands for an empty figure or bare axes of figure 0. *)
Definition state : pyplot :=
  mk_pyplot defaults
    (fun f => match f with
              | O => mk_figure "black" [0%nat; 1%nat]
              | S O => mk_figure "black" [2%nat]
              | _ => mk_figure "black" []
              end)
    (fun a => match a with
              | O => line_axes 0
              | S O => bar_axes 0
              | S (S O) => polar_axes 1
              | _ => bar_axes 0
              end).

Definition no_seaborn : library := mk_library (fun _ => []) None.

(** A library whose seaborn writes the [rc] it is given, and the palette as
    the colour cycle, into [rcParams]. *)
Definition with_seaborn : library :=
  mk_library (fun _ => [])
    (Some (mk_seaborn (fun _ d r => rc_update d r)
                      (fun p r => rc_set "axes.prop_cycle" (RcCycler "color" p) r))).

End Sample.

(** * Properties *)

(** ** Fallible comprehensions *)

Lemma traverse_total {A B : Type} (f : A -> result B) (g : A -> B) (l : list A) :
  (forall x, In x l -> f x = Ok (g x)) ->
  traverse f l = Ok (List.map g l).
Proof.
  induction l as [|x l IH]; intros Hf; simpl.
  - reflexivity.
  - rewrite (Hf x) by (left; reflexivity). simpl.
    rewrite IH by (intros y Hy; apply Hf; right; exact Hy).
    reflexivity.
Qed.

(** ** [range] *)

Lemma range2_length (lo hi : Z) :
  length (Py.range2 lo hi) = Z.to_nat (hi - lo).
Proof. unfold Py.range2. rewrite length_map, length_seq. reflexivity. Qed.

Lemma range2_lookup (lo hi : Z) (i : nat) :
  (i < Z.to_nat (hi - lo))%nat ->
  Py.range2 lo hi !! i = Some (lo + Z.of_nat i).
Proof.
  intros Hi. unfold Py.range2.
  rewrite list_lookup_fmap, lookup_seq_lt by exact Hi. reflexivity.
Qed.

Lemma range2_In (lo hi x : Z) :
  In x (Py.range2 lo hi) <-> lo <= x < hi.
Proof.
  unfold Py.range2. rewrite in_map_iff. split.
  - intros (i & <- & Hi). apply in_seq in Hi. lia.
  - intros Hx. exists (Z.to_nat (x - lo)). split; [lia|].
    apply in_seq. lia.
Qed.

Lemma lookup_nth_lt {A : Type} (l : list A) (i : nat) (d : A) :
  (i < length l)%nat -> l !! i = Some (nth i l d).
Proof.
  intros Hi. destruct (lookup_lt_is_Some_2 l i Hi) as [x Hx].
  rewrite Hx. f_equal. symmetry. apply nth_lookup_Some. exact Hx.
Qed.

(** ** The palette *)

Section Palette.
Import Theme.

(** Indexing a non-empty palette at [i % len(palette)] never raises. *)
Lemma cycle_index_ok (palette : list string) (i : Z) :
  palette <> [] ->
  rbind (Py.mod_ i (Py.len palette)) (fun j => Py.getitem palette j)
  = Ok (nth (Z.to_nat (i mod Py.len palette)) palette EmptyString).
Proof.
  intros Hne.
  assert (HL : 0 < Py.len palette).
  { unfold Py.len. destruct palette; [congruence|]. simpl length. lia. }
  unfold Py.mod_. destruct (Z.eqb_spec (Py.len palette) 0) as [E|_]; [lia|].
  simpl. unfold Py.getitem.
  pose proof (Z.mod_pos_bound i _ HL) as Hb.
  destruct (Z.ltb_spec (i mod Py.len palette) 0) as [?|_]; [lia|].
  destruct (Z.ltb_spec (i mod Py.len palette) 0) as [?|_]; [lia|].
  assert (Hlt : (Z.to_nat (i mod Py.len palette) < length palette)%nat).
  { unfold Py.len in *. lia. }
  rewrite (lookup_nth_lt palette _ EmptyString Hlt). reflexivity.
Qed.

Lemma get_palette_Some (n : Z) (include_accent : bool) :
  exists palette,
    get_palette None include_accent = Ok palette /\
    palette <> [] /\
    get_palette (Some n) include_accent
    = Ok (List.map (fun i => nth (Z.to_nat (i mod Py.len palette)) palette EmptyString)
                   (Py.range n)).
Proof.
  destruct include_accent.
  - exists COLOR_CYCLE. split; [reflexivity|]. split; [discriminate|].
    unfold get_palette. apply traverse_total.
    intros i _. apply cycle_index_ok. discriminate.
  - eexists. split; [reflexivity|]. split; [vm_compute; discriminate|].
    unfold get_palette. apply traverse_total.
    intros i _. apply cycle_index_ok. vm_compute. discriminate.
Qed.

(** C9: for every non-negative [n], [get_palette(n)] returns exactly [n]
    hex colour strings, the [i]-th (from 0) being entry [i mod 10] of
    [COLOR_CYCLE]; [get_palette(5)] is the first five entries of the cycle
    and in [get_palette(15)] entries 11-15 repeat entries 1-5. *)
Theorem get_palette_cycles (n : Z) :
  0 <= n ->
  (exists l,
     get_palette (Some n) true = Ok l /\
     Py.len l = n /\
     (forall i, 0 <= i < n ->
        l !! Z.to_nat i = COLOR_CYCLE !! Z.to_nat (i mod Py.len COLOR_CYCLE)) /\
     Forall (fun c => is_hex_color c = true) l) /\
  get_palette (Some 5) true = Ok (take 5 COLOR_CYCLE) /\
  get_palette (Some 15) true = Ok (COLOR_CYCLE ++ take 5 COLOR_CYCLE)%list.
Proof.
  intros Hn. split; [|split; reflexivity].
  destruct (get_palette_Some n true) as (p & Hp & _ & Hl).
  injection Hp as <-. eexists. split; [exact Hl|].
  split; [|split].
  - unfold Py.len. rewrite length_map. unfold Py.range.
    rewrite range2_length. lia.
  - intros i Hi. rewrite list_lookup_fmap. unfold Py.range.
    rewrite range2_lookup by lia. cbn [fmap option_fmap option_map].
    replace (0 + Z.of_nat (Z.to_nat i)) with i by lia.
    assert (Hb : 0 <= i mod Py.len COLOR_CYCLE < 10)
      by (apply Z.mod_pos_bound; reflexivity).
    symmetry. apply lookup_nth_lt. change (length COLOR_CYCLE) with 10%nat. lia.
  - apply Forall_forall. intros c Hc. apply list_elem_of_In, in_map_iff in Hc.
    destruct Hc as (i & <- & _).
    assert (Hall : Forall (fun c => is_hex_color c = true) COLOR_CYCLE).
    { repeat constructor. }
    assert (Hb : 0 <= i mod Py.len COLOR_CYCLE < 10)
      by (apply Z.mod_pos_bound; reflexivity).
    rewrite Forall_forall in Hall. apply Hall. apply list_elem_of_In, nth_In.
    change (length COLOR_CYCLE) with 10%nat. lia.
Qed.

Lemma get_palette_cycles_witness :
  0 <= 12 /\
  ((exists l,
      get_palette (Some 12) true = Ok l /\
      Py.len l = 12 /\
      (forall i, 0 <= i < 12 ->
         l !! Z.to_nat i = COLOR_CYCLE !! Z.to_nat (i mod Py.len COLOR_CYCLE)) /\
      Forall (fun c => is_hex_color c = true) l) /\
   get_palette (Some 5) true = Ok (take 5 COLOR_CYCLE) /\
   get_palette (Some 15) true = Ok (COLOR_CYCLE ++ take 5 COLOR_CYCLE)%list).
Proof.
  split; [lia | apply (get_palette_cycles 12); lia].
Defined.

(** C10: for every [n >= 4] the palette returned by
    [get_palette(n, include_accent=False)], which is also what
    [get_water_palette(n)] returns, still contains the gold accent
    ['#CCA361'] (at position 3): the branch drops index 5 of [COLOR_CYCLE],
    the dark green ['#4A7858'], while gold sits at index 3. *)
Theorem water_palette_keeps_gold (n : Z) :
  4 <= n ->
  (exists l,
     get_palette (Some n) false = Ok l /\
     get_water_palette (Some n) = Ok l /\
     Py.len l = n /\
     l !! 3%nat = Some gold /\
     In "#CCA361" l) /\
  COLOR_CYCLE !! 5%nat = Some "#4A7858" /\
  COLOR_CYCLE !! 3%nat = Some gold /\
  get_palette None false
  = Ok (take 5 COLOR_CYCLE ++ drop 6 COLOR_CYCLE)%list.
Proof.
  intros Hn. split; [|repeat split; reflexivity].
  destruct (get_palette_Some n false) as (p & Hp & _ & Hl).
  injection Hp as <-. eexists. split; [exact Hl|]. split; [exact Hl|].
  assert (Hlen : forall f : Z -> string,
             length (List.map f (Py.range n)) = Z.to_nat n).
  { intros f. rewrite length_map. unfold Py.range.
    rewrite range2_length. f_equal. lia. }
  assert (H3 : forall f : Z -> string,
             List.map f (Py.range n) !! 3%nat = Some (f 3)).
  { intros f. rewrite list_lookup_fmap. unfold Py.range.
    rewrite range2_lookup by lia. reflexivity. }
  split; [|split].
  - unfold Py.len. rewrite Hlen. lia.
  - rewrite H3. reflexivity.
  - apply list_elem_of_In. eapply list_elem_of_lookup_2. rewrite H3. reflexivity.
Qed.

Lemma water_palette_keeps_gold_witness :
  4 <= 4 /\
  ((exists l,
      get_palette (Some 4) false = Ok l /\
      get_water_palette (Some 4) = Ok l /\
      Py.len l = 4 /\
      l !! 3%nat = Some gold /\
      In "#CCA361" l) /\
   COLOR_CYCLE !! 5%nat = Some "#4A7858" /\
   COLOR_CYCLE !! 3%nat = Some gold /\
   get_palette None false
   = Ok (take 5 COLOR_CYCLE ++ drop 6 COLOR_CYCLE)%list).
Proof.
  split; [lia | apply (water_palette_keeps_gold 4); lia].
Defined.

End Palette.

(** ** Rounding in binary64 *)

Section FloatRounding.

Lemma digits2_pos_bounds (p : positive) :
  2 ^ (Zpos (digits2_pos p) - 1) <= Zpos p < 2 ^ Zpos (digits2_pos p).
Proof.
  induction p as [p IH|p IH|]; cbn [digits2_pos].
  - rewrite Pos2Z.inj_succ.
    replace (Z.succ (Zpos (digits2_pos p)) - 1) with (Z.succ (Zpos (digits2_pos p) - 1)) by lia.
    rewrite !Z.pow_succ_r by lia. lia.
  - rewrite Pos2Z.inj_succ.
    replace (Z.succ (Zpos (digits2_pos p)) - 1) with (Z.succ (Zpos (digits2_pos p) - 1)) by lia.
    rewrite !Z.pow_succ_r by lia. lia.
  - cbn. lia.
Qed.

Lemma Zdigits2_unique (z d : Z) :
  2 ^ (d - 1) <= z < 2 ^ d -> 0 < d -> Zdigits2 z = d.
Proof.
  intros Hz Hd.
  assert (0 < z) by (pose proof (Z.pow_pos_nonneg 2 (d - 1)); lia).
  destruct z as [|p|p]; try lia. cbn [Zdigits2].
  pose proof (digits2_pos_bounds p) as Hp.
  set (d' := Zpos (digits2_pos p)) in *.
  destruct (Z.lt_trichotomy d d') as [Hlt|[Heq|Hgt]]; [|congruence|].
  - assert (2 ^ d <= 2 ^ (d' - 1)) by (apply Z.pow_le_mono_r; lia). lia.
  - assert (2 ^ d' <= 2 ^ (d - 1)) by (apply Z.pow_le_mono_r; lia). lia.
Qed.

Lemma iter_pos_nat {A : Type} (f : A -> A) (p : positive) (x : A) :
  SpecFloat.iter_pos f p x = Nat.iter (Pos.to_nat p) f x.
Proof.
  revert x. induction p as [p IH|p IH|]; intros x; cbn [SpecFloat.iter_pos].
  - rewrite !IH, Pos2Nat.inj_xI.
    replace (S (2 * Pos.to_nat p)) with (Pos.to_nat p + (Pos.to_nat p + 1))%nat by lia.
    rewrite !Nat.iter_add. reflexivity.
  - rewrite !IH, Pos2Nat.inj_xO.
    replace (2 * Pos.to_nat p)%nat with (Pos.to_nat p + Pos.to_nat p)%nat by lia.
    rewrite Nat.iter_add. reflexivity.
  - reflexivity.
Qed.

Lemma shr_1_nonneg (m : Z) (r s : bool) :
  0 <= m ->
  shr_1 (Build_shr_record m r s) = Build_shr_record (m / 2) (Z.odd m) (r || s).
Proof.
  intros Hm. destruct m as [|p|p]; [reflexivity| |lia].
  destruct p as [p|p|]; cbn [shr_1 Z.odd].
  - f_equal. rewrite Pos2Z.inj_xI. apply Z.div_unique with (r := 1); lia.
  - f_equal. rewrite Pos2Z.inj_xO. apply Z.div_unique with (r := 0); lia.
  - reflexivity.
Qed.

Lemma shr_iter (m : Z) (k : nat) :
  0 <= m ->
  Nat.iter (S k) shr_1 (Build_shr_record m false false)
  = Build_shr_record (m / 2 ^ Z.of_nat (S k))
                     (Z.odd (m / 2 ^ Z.of_nat k))
                     (negb (m mod 2 ^ Z.of_nat k =? 0)).
Proof.
  intros Hm. induction k as [|k IH].
  - cbn [Nat.iter]. rewrite shr_1_nonneg by exact Hm.
    change (2 ^ Z.of_nat 1) with 2. change (2 ^ Z.of_nat 0) with 1.
    rewrite Z.div_1_r, Z.mod_1_r. reflexivity.
  - rewrite Nat.iter_succ, IH.
    assert (Hp : 0 < 2 ^ Z.of_nat k) by (apply Z.pow_pos_nonneg; lia).
    rewrite shr_1_nonneg by (apply Z.div_pos; [exact Hm | apply Z.pow_pos_nonneg; lia]).
    f_equal.
    + rewrite Z.div_div by lia.
      rewrite (Nat2Z.inj_succ (S k)), Z.pow_succ_r by lia.
      f_equal. lia.
    + rewrite (Nat2Z.inj_succ k), Z.pow_succ_r by lia.
      rewrite (Z.mul_comm 2), Z.rem_mul_r by lia.
      destruct (Z.odd (m / 2 ^ Z.of_nat k)) eqn:Ho.
      * cbn [orb].
        assert (Hm2 : (m / 2 ^ Z.of_nat k) mod 2 = 1).
        { rewrite Zmod_odd. rewrite Ho. reflexivity. }
        rewrite Hm2.
        pose proof (Z.mod_pos_bound m _ Hp).
        destruct (Z.eqb_spec (m mod 2 ^ Z.of_nat k + 2 ^ Z.of_nat k * 1) 0); [lia|reflexivity].
      * cbn [orb].
        assert (Hm2 : (m / 2 ^ Z.of_nat k) mod 2 = 0).
        { rewrite Zmod_odd. rewrite Ho. reflexivity. }
        rewrite Hm2. rewrite Z.mul_0_r, Z.add_0_r. reflexivity.
Qed.


Lemma rne_div_bounds (a b : Z) :
  0 < b ->
  2 * a - b <= 2 * (b * F64.rne_div a b) <= 2 * a + b.
Proof.
  intros Hb. unfold F64.rne_div.
  pose proof (Z.div_mod a b ltac:(lia)) as Hdm.
  pose proof (Z.mod_pos_bound a b Hb) as Hr.
  destruct (Z.compare_spec (2 * (a mod b)) b) as [E|L|G];
    [destruct (Z.even (a / b))|..]; nia.
Qed.

Lemma rne_div_floor (a b : Z) :
  0 < b -> a / b <= F64.rne_div a b <= a / b + 1.
Proof.
  intros Hb. unfold F64.rne_div.
  destruct (2 * (a mod b) ?= b); [destruct (Z.even (a / b))|..]; lia.
Qed.

Lemma rne_shr (P : Z) (n : positive) :
  0 <= P ->
  let mrs := SpecFloat.iter_pos shr_1 n (Build_shr_record P false false) in
  round_nearest_even (shr_m mrs) (loc_of_shr_record mrs)
  = F64.rne_div P (2 ^ Zpos n).
Proof.
  intros HP mrs. subst mrs. rewrite iter_pos_nat.
  destruct (Pos2Nat.is_succ n) as [k Hk]. rewrite Hk.
  rewrite shr_iter by exact HP.
  replace (Zpos n) with (Z.of_nat (S k)) by lia.
  assert (Hpow : 2 ^ Z.of_nat (S k) = 2 ^ Z.of_nat k * 2)
    by (rewrite (Nat2Z.inj_succ k), Z.pow_succ_r by lia; lia).
  assert (Hp : 0 < 2 ^ Z.of_nat k) by (apply Z.pow_pos_nonneg; lia).
  unfold F64.rne_div. rewrite Hpow.
  set (b := 2 ^ Z.of_nat k) in *.
  rewrite Z.rem_mul_r by lia.
  set (q := P / (b * 2)).
  pose proof (Z.mod_pos_bound P _ Hp) as Hlow.
  rewrite (Zmod_odd (P / b)).
  cbn [shr_m].
  destruct (Z.odd (P / b)).
  - destruct (Z.eqb_spec (P mod b) 0) as [E|NE];
      cbn [negb loc_of_shr_record round_nearest_even].
    + rewrite E.
      replace (2 * (0 + b * 1) ?= b * 2) with Eq; [reflexivity|].
      symmetry. apply Z.compare_eq_iff. lia.
    + replace (2 * (P mod b + b * 1) ?= b * 2) with Gt; [reflexivity|].
      symmetry. apply Z.compare_gt_iff. lia.
  - replace (2 * (P mod b + b * 0) ?= b * 2) with Lt.
    + destruct (negb (P mod b =? 0)); reflexivity.
    + symmetry. apply Z.compare_lt_iff. lia.
Qed.

(** Rounding an exact positive mantissa of more than 53 bits in the normal
    range: the mantissa is divided by [2^n], rounded to nearest even, and
    renormalised when the rounding carries to [2^53]. *)
Lemma round_aux_normal (s : bool) (P E d : Z) (n : positive) :
  2 ^ (d - 1) <= P < 2 ^ d ->
  d = 53 + Zpos n ->
  -1074 <= E + Zpos n ->
  E + Zpos n + 1 <= 971 ->
  binary_round_aux F64.prec F64.emax s P E loc_Exact
  = if F64.rne_div P (2 ^ Zpos n) <? 2 ^ 53
    then S754_finite s (Z.to_pos (F64.rne_div P (2 ^ Zpos n))) (E + Zpos n)
    else S754_finite s (Z.to_pos (2 ^ 52)) (E + Zpos n + 1).
Proof.
  intros HP Hd HE1 HE2.
  assert (Hpn : 0 < 2 ^ Zpos n) by (apply Z.pow_pos_nonneg; lia).
  assert (HP0 : 0 < P) by (pose proof (Z.pow_pos_nonneg 2 (d - 1)); lia).
  unfold binary_round_aux.
  unfold shr_fexp at 1.
  rewrite (Zdigits2_unique P d HP) by lia.
  unfold fexp, emin, F64.prec, F64.emax.
  replace (Z.max (d + E - 53) (3 - 1024 - 53) - E) with (Zpos n) by lia.
  cbn [shr_record_of_loc shr].
  pose proof (rne_shr P n ltac:(lia)) as Hr. cbv zeta in Hr.
  destruct (SpecFloat.iter_pos shr_1 n (Build_shr_record P false false)) as [m1 r1 s1] eqn:Hit.
  rewrite Hr. clear Hr.
  set (r := F64.rne_div P (2 ^ Zpos n)).
  (* bounds on r *)
  assert (Hq : 2 ^ 52 <= P / 2 ^ Zpos n < 2 ^ 53).
  { assert (Hd1 : 2 ^ (d - 1) = 2 ^ 52 * 2 ^ Zpos n)
      by (rewrite <- Z.pow_add_r by lia; f_equal; lia).
    assert (Hd2 : 2 ^ d = 2 ^ 53 * 2 ^ Zpos n)
      by (rewrite <- Z.pow_add_r by lia; f_equal; lia).
    split.
    - apply Z.div_le_lower_bound; lia.
    - apply Z.div_lt_upper_bound; lia. }
  pose proof (rne_div_floor P (2 ^ Zpos n) Hpn) as Hfl. fold r in Hfl.
  destruct (Z.ltb_spec r (2 ^ 53)) as [Hlt|Hge].
  - unfold shr_fexp.
    rewrite (Zdigits2_unique r 53) by lia.
    unfold fexp, emin.
    replace (Z.max (53 + (E + Zpos n) - 53) (3 - 1024 - 53) - (E + Zpos n)) with 0 by lia.
    cbn [shr shr_record_of_loc shr_m].
    destruct r as [|pr|pr] eqn:Er; [lia| |lia].
    destruct (Z.leb_spec (E + Zpos n) (1024 - 53)); [reflexivity|lia].
  - assert (Er : r = 9007199254740992) by lia. rewrite Er.
    unfold shr_fexp. change (Zdigits2 9007199254740992) with 54.
    unfold fexp, emin.
    replace (Z.max (54 + (E + Zpos n) - 53) (3 - 1024 - 53) - (E + Zpos n)) with 1 by lia.
    cbn [shr shr_record_of_loc SpecFloat.iter_pos shr_1 shr_m].
    change (Z.to_pos (2 ^ 52)) with 4503599627370496%positive.
    destruct (Z.leb_spec (E + Zpos n + 1) (1024 - 53)); [reflexivity|lia].
Qed.


Lemma digits53_bounds (m : positive) (e : Z) :
  -1074 + 53 <= e + 53 ->
  bounded F64.prec F64.emax m e = true ->
  -1074 < e ->
  2 ^ 52 <= Zpos m < 2 ^ 53.
Proof.
  intros _ Hb He. unfold bounded, canonical_mantissa, fexp, emin in Hb.
  apply andb_true_iff in Hb. destruct Hb as [Hc _].
  apply Z.eqb_eq in Hc. unfold F64.prec, F64.emax in Hc.
  pose proof (digits2_pos_bounds m) as Hd.
  assert (Hdig : Zpos (digits2_pos m) = 53) by lia.
  rewrite Hdig in Hd. exact Hd.
Qed.

Lemma SFcompare_pos_finite (m1 m2 : positive) (e1 e2 : Z) :
  SFcompare (S754_finite false m1 e1) (S754_finite false m2 e2)
  = Some match e1 ?= e2 with
         | Lt => Lt
         | Gt => Gt
         | Eq => (m1 ?= m2)%positive
         end.
Proof. reflexivity. Qed.

Lemma price_draw_shape (u : F64.float) :
  in_float_range (F64.of_Z 5) (F64.of_Z 500) u ->
  exists m e,
    u = S754_finite false m e /\
    -50 <= e <= -44 /\
    2 ^ 52 <= Zpos m < 2 ^ 53 /\
    (e = -50 -> 5629499534213120 <= Zpos m) /\
    (e = -44 -> Zpos m < 8796093022208000).
Proof.
  intros (Hv & Hlo & Hhi).
  change (F64.of_Z 5) with (S754_finite false 5629499534213120 (-50)) in Hlo.
  change (F64.of_Z 500) with (S754_finite false 8796093022208000 (-44)) in Hhi.
  unfold F64.leb, SFleb in Hlo. unfold F64.ltb, SFltb in Hhi.
  destruct u as [s|s| |s m e];
    [destruct s; discriminate Hlo | destruct s; discriminate
    | discriminate Hlo | ].
  destruct s; [discriminate Hlo|].
  rewrite SFcompare_pos_finite in Hlo, Hhi.
  exists m, e. split; [reflexivity|].
  assert (He : -50 <= e <= -44).
  { destruct (Z.compare_spec (-50) e); [| |discriminate Hlo];
    (destruct (Z.compare_spec e (-44)); [| |discriminate Hhi]); lia. }
  assert (Hm : 2 ^ 52 <= Zpos m < 2 ^ 53)
    by (apply (digits53_bounds m e); [lia|exact Hv|lia]).
  split; [exact He|]. split; [exact Hm|]. split; intros ->.
  - clear Hhi.
    destruct (Z.compare_spec (-50) (-50)) as [_|H|H]; [|lia|lia].
    destruct (Pos.compare_spec 5629499534213120 m) as [H|H|H];
      [subst m; apply Z.le_refl | | discriminate].
    apply Pos2Z.pos_lt_pos in H. apply Z.lt_le_incl, H.
  - clear Hlo.
    destruct (Z.compare_spec (-44) (-44)) as [_|H|H]; [|lia|lia].
    destruct (Pos.compare_spec m 8796093022208000) as [H|H|H];
      [discriminate | | discriminate].
    apply Pos2Z.pos_lt_pos in H. exact H.
Qed.

Lemma mul_finite_pos (m1 m2 : positive) (e1 e2 : Z) :
  F64.mul (S754_finite false m1 e1) (S754_finite false m2 e2)
  = binary_round_aux F64.prec F64.emax false (Zpos m1 * Zpos m2) (e1 + e2) loc_Exact.
Proof. reflexivity. Qed.

Lemma rint_finite_neg (m : positive) (e : Z) :
  e < 0 ->
  F64.rint (S754_finite false m e) = F64.of_Z (F64.rne_div (Zpos m) (2 ^ (- e))).
Proof.
  intros He. unfold F64.rint.
  destruct (Z.leb_spec 0 e); [lia|reflexivity].
Qed.

Ltac bound_rint r :=
  match goal with
  | |- context [F64.rne_div r (2 ^ ?t)] =>
      let t' := eval cbv in t in
      replace t with t' by reflexivity;
      pose proof (rne_div_bounds r (2 ^ t') ltac:(lia));
      lia
  end.

Lemma rint_mul100_range_at (M e : Z) (m : positive) :
  M = Zpos m ->
  -50 <= e <= -44 ->
  2 ^ 52 <= M < 2 ^ 53 ->
  (e = -50 -> 5629499534213120 <= M) ->
  (e = -44 -> M < 8796093022208000) ->
  exists k, 500 <= k <= 50000 /\
    F64.rint (F64.mul (S754_finite false m e) (S754_finite false 7036874417766400 (-46)))
    = F64.of_Z k.
Proof.
  intros HM He Hm Hlo Hhi.
  rewrite mul_finite_pos, <- HM. clear HM m.
  assert (Hcases : e = -50 \/ e = -49 \/ e = -48 \/ e = -47 \/ e = -46 \/ e = -45 \/ e = -44) by lia.
  destruct (Z.lt_ge_cases (M * 7036874417766400) (2 ^ 105)) as [Hd|Hd].
  - rewrite (round_aux_normal false (M * 7036874417766400) (e + -46) 105 52) by lia.
    pose proof (rne_div_bounds (M * 7036874417766400) (2 ^ 52) ltac:(lia)) as Hr.
    set (r := F64.rne_div (M * 7036874417766400) (2 ^ Z.pos 52)) in *.
    destruct (Z.ltb_spec r (2 ^ 53)) as [Hc|Hc].
    + rewrite rint_finite_neg by lia.
      rewrite Z2Pos.id by lia.
      eexists. split; [|reflexivity].
      destruct Hcases as [->|[->|[->|[->|[->|[->| ->]]]]]]; bound_rint r.
    + rewrite rint_finite_neg by lia.
      change (Z.pos (Z.to_pos (2 ^ 52))) with 4503599627370496.
      eexists. split; [|reflexivity].
      destruct Hcases as [->|[->|[->|[->|[->|[->| ->]]]]]];
        bound_rint 4503599627370496.
  - rewrite (round_aux_normal false (M * 7036874417766400) (e + -46) 106 53) by lia.
    pose proof (rne_div_bounds (M * 7036874417766400) (2 ^ 53) ltac:(lia)) as Hr.
    set (r := F64.rne_div (M * 7036874417766400) (2 ^ Z.pos 53)) in *.
    destruct (Z.ltb_spec r (2 ^ 53)) as [Hc|Hc].
    + rewrite rint_finite_neg by lia.
      rewrite Z2Pos.id by lia.
      eexists. split; [|reflexivity].
      destruct Hcases as [->|[->|[->|[->|[->|[->| ->]]]]]]; bound_rint r.
    + rewrite rint_finite_neg by lia.
      change (Z.pos (Z.to_pos (2 ^ 52))) with 4503599627370496.
      eexists. split; [|reflexivity].
      destruct Hcases as [->|[->|[->|[->|[->|[->| ->]]]]]];
        bound_rint 4503599627370496.
Qed.

Lemma rint_mul100_range (u : F64.float) :
  in_float_range (F64.of_Z 5) (F64.of_Z 500) u ->
  exists k, 500 <= k <= 50000 /\
    F64.rint (F64.mul u (F64.of_Z 100)) = F64.of_Z k.
Proof.
  intros Hu.
  destruct (price_draw_shape u Hu) as (m & e & -> & He & Hm & Hlo & Hhi).
  change (F64.of_Z 100) with (S754_finite false 7036874417766400 (-46)).
  apply (rint_mul100_range_at (Zpos m) e m); auto.
Qed.

Lemma iter_xO_spec (p : positive) (n : positive) :
  Zpos (Pos.iter xO p n) = Zpos p * 2 ^ Zpos n.
Proof.
  revert p. induction n as [|n IH] using Pos.peano_ind; intros p.
  - rewrite Pos.iter_succ || cbn. 
    change (Pos.iter xO p 1) with (xO p). rewrite Pos2Z.inj_xO. lia.
  - rewrite Pos.iter_succ, Pos2Z.inj_xO, IH, Pos2Z.inj_succ, Z.pow_succ_r by lia. lia.
Qed.

(** A mantissa of exactly 53 bits with an exact location is left as it is. *)
Lemma round_aux_exact53 (s : bool) (m e : Z) :
  2 ^ 52 <= m < 2 ^ 53 ->
  -1074 <= e <= 971 ->
  binary_round_aux F64.prec F64.emax s m e loc_Exact = S754_finite s (Z.to_pos m) e.
Proof.
  intros Hm He. unfold binary_round_aux, shr_fexp.
  rewrite (Zdigits2_unique m 53) by lia.
  unfold fexp, emin, F64.prec, F64.emax.
  replace (Z.max (53 + e - 53) (3 - 1024 - 53) - e) with 0 by lia.
  cbn [shr shr_record_of_loc shr_m loc_of_shr_record round_nearest_even].
  rewrite (Zdigits2_unique m 53) by lia.
  replace (Z.max (53 + e - 53) (3 - 1024 - 53) - e) with 0 by lia.
  cbn [shr shr_m].
  destruct m as [|p|p]; [lia| |lia].
  destruct (Z.leb_spec e (1024 - 53)); [reflexivity|lia].
Qed.

(** The float of a positive integer of [d <= 52] bits: the integer shifted
    to a 53-bit mantissa. *)
Lemma of_Z_shape (k d : Z) :
  2 ^ (d - 1) <= k < 2 ^ d -> 0 < d < 53 ->
  F64.of_Z k = S754_finite false (Z.to_pos (k * 2 ^ (53 - d))) (d - 53).
Proof.
  intros Hk Hd.
  assert (0 < k) by (pose proof (Z.pow_pos_nonneg 2 (d - 1)); lia).
  destruct k as [|p|p]; try lia.
  unfold F64.of_Z, binary_normalize, binary_round.
  pose proof (Zdigits2_unique (Zpos p) d Hk ltac:(lia)) as Hdig.
  cbn [Zdigits2] in Hdig. rewrite Hdig.
  unfold fexp, emin, F64.prec, F64.emax, shl_align.
  replace (Z.max (d + 0 - 53) (3 - 1024 - 53) - 0) with (d - 53) by lia.
  replace (Z.max (d + 0 - 53) (3 - 1024 - 53)) with (d - 53) by lia.
  destruct (d - 53) as [|q|q] eqn:Hq; try lia.
  assert (Hs : Zpos (Pos.iter xO p q) = Zpos p * 2 ^ (53 - d)).
  { rewrite iter_xO_spec. f_equal. f_equal. lia. }
  change 53 with F64.prec at 1. change 1024 with F64.emax.
  rewrite round_aux_exact53.
  - rewrite Hs. reflexivity.
  - rewrite Hs.
    assert (E1 : 2 ^ 52 = 2 ^ (d - 1) * 2 ^ (53 - d))
      by (rewrite <- Z.pow_add_r by lia; f_equal; lia).
    assert (E2 : 2 ^ 53 = 2 ^ d * 2 ^ (53 - d))
      by (rewrite <- Z.pow_add_r by lia; f_equal; lia).
    assert (0 < 2 ^ (53 - d)) by (apply Z.pow_pos_nonneg; lia).
    rewrite E1, E2. nia.
  - lia.
Qed.

Lemma round_aux_tail (s : bool) (m e : Z) :
  2 ^ 52 <= m <= 2 ^ 53 -> -1074 <= e -> e + 1 <= 971 ->
  (let '(mrs, e') := shr_fexp F64.prec F64.emax m e loc_Exact in
   match shr_m mrs with
   | Z0 => S754_zero s
   | Zpos p => if e' <=? F64.emax - F64.prec then S754_finite s p e' else S754_infinity s
   | Zneg _ => S754_nan
   end) = F64.renorm s m e.
Proof.
  intros Hm He1 He2. unfold F64.renorm.
  destruct (Z.ltb_spec m (2 ^ 53)) as [Hlt|Hge].
  - unfold shr_fexp.
    rewrite (Zdigits2_unique m 53) by lia.
    unfold fexp, emin, F64.prec, F64.emax.
    replace (Z.max (53 + e - 53) (3 - 1024 - 53) - e) with 0 by lia.
    cbn [shr shr_record_of_loc shr_m].
    destruct m as [|p|p]; [lia| |lia].
    destruct (Z.leb_spec e (1024 - 53)); [reflexivity|lia].
  - assert (Er : m = 9007199254740992) by lia. rewrite Er.
    unfold shr_fexp. change (Zdigits2 9007199254740992) with 54.
    unfold fexp, emin, F64.prec, F64.emax.
    replace (Z.max (54 + e - 53) (3 - 1024 - 53) - e) with 1 by lia.
    cbn [shr shr_record_of_loc SpecFloat.iter_pos shr_1 shr_m].
    change (Z.to_pos (2 ^ 52)) with 4503599627370496%positive.
    destruct (Z.leb_spec (e + 1) (1024 - 53)); [reflexivity|lia].
Qed.

Lemma new_location_spec (b r : Z) :
  0 < b -> 0 <= r < b ->
  new_location b r = if r =? 0 then loc_Exact else loc_Inexact (2 * r ?= b).
Proof.
  intros Hb Hr. unfold new_location, new_location_even, new_location_odd.
  destruct (Z.even b) eqn:Eb; destruct (Z.eqb_spec r 0) as [E|NE]; try reflexivity.
  f_equal.
  assert (Hodd : Z.odd b = true) by (rewrite <- Z.negb_even, Eb; reflexivity).
  apply Z.odd_spec in Hodd. destruct Hodd as [c Hc].
  destruct (Z.compare_spec (2 * r + 1) b); destruct (Z.compare_spec (2 * r) b);
    try reflexivity; lia.
Qed.

Lemma rne_quotient (X b : Z) :
  0 < b -> 0 <= X ->
  round_nearest_even (X / b) (new_location b (X mod b)) = F64.rne_div X b.
Proof.
  intros Hb HX. pose proof (Z.mod_pos_bound X b Hb) as Hr.
  rewrite new_location_spec by lia. unfold F64.rne_div.
  destruct (Z.eqb_spec (X mod b) 0) as [E|NE].
  - rewrite E. cbn [round_nearest_even].
    destruct (Z.compare_spec (2 * 0) b); lia.
  - cbn [round_nearest_even]. destruct (2 * (X mod b) ?= b); reflexivity.
Qed.

Lemma rne_quotient_half (X b : Z) (l : location) :
  0 < b -> 0 <= X ->
  l = new_location b (X mod b) ->
  let mrs := shr_1 (shr_record_of_loc (X / b) l) in
  round_nearest_even (shr_m mrs) (loc_of_shr_record mrs) = F64.rne_div X (2 * b).
Proof.
  intros Hb HX -> mrs. subst mrs.
  pose proof (Z.mod_pos_bound X b Hb) as Hr.
  rewrite new_location_spec by lia.
  assert (Hq : 0 <= X / b) by (apply Z.div_pos; lia).
  unfold F64.rne_div.
  rewrite (Z.mul_comm 2 b), Z.rem_mul_r by lia.
  rewrite <- Z.div_div by lia.
  rewrite (Zmod_odd (X / b)).
  set (q := X / b) in *. set (r := X mod b) in *.
  assert (Hsh : forall r0 s0, shr_1 (Build_shr_record q r0 s0)
                = Build_shr_record (q / 2) (Z.odd q) (r0 || s0))
    by (intros; apply shr_1_nonneg; exact Hq).
  destruct (Z.eqb_spec r 0) as [E|NE].
  - cbn [shr_record_of_loc]. rewrite Hsh. cbn [shr_m orb].
    rewrite E. destruct (Z.odd q); cbn [loc_of_shr_record round_nearest_even].
    + replace (2 * (0 + b * 1) ?= b * 2) with Eq; [reflexivity|].
      symmetry. apply Z.compare_eq_iff. lia.
    + replace (2 * (0 + b * 0) ?= b * 2) with Lt; [reflexivity|].
      symmetry. apply Z.compare_lt_iff. lia.
  - assert (Hs : forall c, exists r0 s0,
               shr_record_of_loc q (loc_Inexact c) = Build_shr_record q r0 s0
               /\ r0 || s0 = true).
    { intros []; cbn; eauto. }
    destruct (Hs (2 * r ?= b)) as (r0 & s0 & -> & Hor).
    rewrite Hsh, Hor. cbn [shr_m].
    destruct (Z.odd q); cbn [loc_of_shr_record round_nearest_even].
    + replace (2 * (r + b * 1) ?= b * 2) with Gt; [reflexivity|].
      symmetry. apply Z.compare_gt_iff. lia.
    + replace (2 * (r + b * 0) ?= b * 2) with Lt; [reflexivity|].
      symmetry. apply Z.compare_lt_iff. lia.
Qed.

Lemma div_eucl_div_mod (a b : Z) : Z.div_eucl a b = (a / b, a mod b).
Proof. unfold Z.div, Z.modulo. destruct (Z.div_eucl a b). reflexivity. Qed.

Lemma shr_record_of_loc_m (m : Z) (l : location) :
  shr_m (shr_record_of_loc m l) = m.
Proof. destruct l as [|[]]; reflexivity. Qed.

Lemma loc_of_shr_record_of_loc (m : Z) (l : location) :
  loc_of_shr_record (shr_record_of_loc m l) = l.
Proof. destruct l as [|[]]; reflexivity. Qed.

(** Rounding the quotient [X / b] when its integer part has 53 or 54 bits. *)
Lemma round_aux_quotient (s : bool) (X b e : Z) :
  0 < b -> 0 <= X ->
  2 ^ 52 <= X / b < 2 ^ 54 ->
  -1074 <= e -> e + 2 <= 971 ->
  binary_round_aux F64.prec F64.emax s (X / b) e (new_location b (X mod b))
  = if X / b <? 2 ^ 53
    then F64.renorm s (F64.rne_div X b) e
    else F64.renorm s (F64.rne_div X (2 * b)) (e + 1).
Proof.
  intros Hb HX Hq He1 He2.
  unfold binary_round_aux.
  destruct (Z.ltb_spec (X / b) (2 ^ 53)) as [Hlt|Hge].
  - unfold shr_fexp at 1.
    rewrite (Zdigits2_unique (X / b) 53) by lia.
    unfold fexp at 1; unfold emin, F64.prec, F64.emax.
    replace (Z.max (53 + e - 53) (3 - 1024 - 53) - e) with 0 by lia.
    cbn [shr].
    rewrite shr_record_of_loc_m, loc_of_shr_record_of_loc, rne_quotient by lia.
    change 53 with F64.prec. change 1024 with F64.emax.
    apply round_aux_tail; [|lia|lia].
    pose proof (rne_div_floor X b Hb). lia.
  - unfold shr_fexp at 1.
    rewrite (Zdigits2_unique (X / b) 54) by lia.
    unfold fexp at 1; unfold emin, F64.prec, F64.emax.
    replace (Z.max (54 + e - 53) (3 - 1024 - 53) - e) with 1 by lia.
    cbn [shr SpecFloat.iter_pos].
    rewrite (rne_quotient_half X b _ Hb HX eq_refl).
    change 53 with F64.prec. change 1024 with F64.emax.
    apply round_aux_tail; [|lia|lia].
    pose proof (rne_div_floor X (2 * b) ltac:(lia)) as Hf.
    rewrite (Z.mul_comm 2 b), <- Z.div_div in Hf by lia.
    assert (2 ^ 52 <= X / b / 2 < 2 ^ 53).
    { split; [apply Z.div_le_lower_bound; lia | apply Z.div_lt_upper_bound; lia]. }
    rewrite (Z.mul_comm b 2) in Hf. lia.
Qed.

Lemma div100_shape (mx : positive) (ex : Z) :
  2 ^ 52 <= Zpos mx < 2 ^ 53 ->
  -900 <= ex <= 900 ->
  F64.div (S754_finite false mx ex) (S754_finite false 7036874417766400 (-46))
  = if Zpos mx <? 7036874417766400
    then F64.renorm false (F64.rne_div (Zpos mx * 2 ^ 53) 7036874417766400) (ex - 7)
    else F64.renorm false (F64.rne_div (Zpos mx * 2 ^ 53) (2 * 7036874417766400)) (ex - 6).
Proof.
  intros Hm He.
  unfold F64.div, SFdiv, SFdiv_core_binary.
  rewrite (Zdigits2_unique (Zpos mx) 53) by lia.
  change (Zdigits2 7036874417766400) with 53.
  unfold fexp, emin, F64.prec, F64.emax.
  replace (Z.min (Z.max (53 + ex - (53 + -46) - 53) (3 - 1024 - 53)) (ex - -46))
    with (ex - 7) by lia.
  replace (ex - -46 - (ex - 7)) with 53 by lia.
  rewrite Z.shiftl_mul_pow2 by lia.
  rewrite div_eucl_div_mod. cbn [xorb].
  set (X := Zpos mx * 2 ^ 53).
  assert (HX : 0 <= X) by (unfold X; lia).
  change 53 with F64.prec at 1. change 1024 with F64.emax at 1.
  assert (Hiff : X / 7036874417766400 < 2 ^ 53 <-> Zpos mx < 7036874417766400).
  { split; intros H.
    - destruct (Z.lt_ge_cases (Zpos mx) 7036874417766400) as [|Hge]; [assumption|].
      assert (2 ^ 53 <= X / 7036874417766400)
        by (apply Z.div_le_lower_bound; unfold X; lia).
      lia.
    - apply Z.div_lt_upper_bound; unfold X; lia. }
  rewrite round_aux_quotient; try lia.
  - destruct (Z.ltb_spec (X / 7036874417766400) (2 ^ 53));
      destruct (Z.ltb_spec (Zpos mx) 7036874417766400); try lia.
    + reflexivity.
    + replace (ex - 7 + 1) with (ex - 6) by lia. reflexivity.
  - split.
    + apply Z.div_le_lower_bound; unfold X; lia.
    + apply Z.div_lt_upper_bound; unfold X; lia.
Qed.

Lemma leb_finite_pos (m1 m2 : positive) (e1 e2 : Z) :
  e1 < e2 \/ (e1 = e2 /\ Zpos m1 <= Zpos m2) ->
  F64.leb (S754_finite false m1 e1) (S754_finite false m2 e2) = true.
Proof.
  intros H. unfold F64.leb, SFleb. rewrite SFcompare_pos_finite.
  destruct (Z.compare_spec e1 e2); [|reflexivity|lia].
  destruct (Pos.compare_spec m1 m2); [reflexivity|reflexivity|lia].
Qed.

Lemma valid_normal (s : bool) (m : positive) (e : Z) :
  2 ^ 52 <= Zpos m < 2 ^ 53 -> -1074 <= e <= 971 ->
  F64.valid (S754_finite s m e) = true.
Proof.
  intros Hm He. unfold F64.valid, valid_binary, bounded, canonical_mantissa.
  pose proof (Zdigits2_unique (Zpos m) 53 Hm ltac:(lia)) as Hd.
  cbn [Zdigits2] in Hd. rewrite Hd.
  unfold fexp, emin, F64.prec, F64.emax.
  apply andb_true_iff. split; [apply Z.eqb_eq|apply Z.leb_le]; lia.
Qed.

Lemma renorm_valid (r e : Z) :
  2 ^ 52 <= r <= 2 ^ 53 -> -1074 <= e -> e + 1 <= 971 ->
  F64.valid (F64.renorm false r e) = true.
Proof.
  intros Hr He1 He2. unfold F64.renorm.
  destruct (Z.ltb_spec r (2 ^ 53)).
  - apply valid_normal; [rewrite Z2Pos.id by lia; lia | lia].
  - apply valid_normal; [rewrite Z2Pos.id by lia; lia | lia].
Qed.

Lemma leb_renorm_lo (m1 : positive) (e1 r e : Z) :
  2 ^ 52 <= r <= 2 ^ 53 ->
  e1 < e \/ (e1 = e /\ Zpos m1 <= r) ->
  F64.leb (S754_finite false m1 e1) (F64.renorm false r e) = true.
Proof.
  intros Hr H. unfold F64.renorm.
  destruct (Z.ltb_spec r (2 ^ 53)); apply leb_finite_pos.
  - rewrite Z2Pos.id by lia. exact H.
  - left. lia.
Qed.

Lemma leb_renorm_hi (m2 : positive) (e2 r e : Z) :
  2 ^ 52 <= r <= 2 ^ 53 ->
  2 ^ 52 <= Zpos m2 < 2 ^ 53 ->
  e < e2 \/ (e = e2 /\ r <= Zpos m2) ->
  F64.leb (F64.renorm false r e) (S754_finite false m2 e2) = true.
Proof.
  intros Hr Hm H. unfold F64.renorm.
  destruct (Z.ltb_spec r (2 ^ 53)); apply leb_finite_pos.
  - rewrite Z2Pos.id by lia. exact H.
  - rewrite Z2Pos.id by lia. lia.
Qed.

Ltac cent_case k d :=
  rewrite (of_Z_shape k d) by lia;
  let sh := eval cbv in (2 ^ (53 - d)) in
  let ex := eval cbv in (d - 53) in
  change (2 ^ (53 - d)) with sh; change (d - 53) with ex;
  rewrite div100_shape by (try rewrite Z2Pos.id by lia; lia);
  rewrite Z2Pos.id by lia;
  pose proof (rne_div_bounds (k * sh * 2 ^ 53) 7036874417766400 ltac:(lia));
  pose proof (rne_div_bounds (k * sh * 2 ^ 53) (2 * 7036874417766400) ltac:(lia));
  destruct (Z.ltb_spec (k * sh) 7036874417766400);
  (split; [apply renorm_valid; lia
          |split; [apply leb_renorm_lo; lia | apply leb_renorm_hi; lia]]).

(** The float nearest to [k / 100], for [k] cents between 5.00 and 500.00,
    lies between 5 and 500. *)
Lemma cent_range (k : Z) :
  500 <= k <= 50000 ->
  let p := F64.div (F64.of_Z k) (F64.of_Z 100) in
  F64.valid p = true /\
  F64.leb (F64.of_Z 5) p = true /\
  F64.leb p (F64.of_Z 500) = true.
Proof.
  intros Hk p. subst p.
  change (F64.of_Z 100) with (S754_finite false 7036874417766400 (-46)).
  change (F64.of_Z 5) with (S754_finite false 5629499534213120 (-50)).
  change (F64.of_Z 500) with (S754_finite false 8796093022208000 (-44)).
  assert (Hd : k < 2 ^ 9 \/ 2 ^ 9 <= k < 2 ^ 10 \/ 2 ^ 10 <= k < 2 ^ 11
               \/ 2 ^ 11 <= k < 2 ^ 12 \/ 2 ^ 12 <= k < 2 ^ 13
               \/ 2 ^ 13 <= k < 2 ^ 14 \/ 2 ^ 14 <= k < 2 ^ 15
               \/ 2 ^ 15 <= k) by lia.
  destruct Hd as [H|[H|[H|[H|[H|[H|[H|H]]]]]]].
  - cent_case k 9.
  - cent_case k 10.
  - cent_case k 11.
  - cent_case k 12.
  - cent_case k 13.
  - cent_case k 14.
  - cent_case k 15.
  - cent_case k 16.
Qed.

(** [np.round(u, 2)] of a draw from [[5, 500)] is the float nearest to a
    whole number of cents between 5.00 and 500.00, both included. *)
Lemma np_round2_cents (u : F64.float) :
  in_float_range (F64.of_Z 5) (F64.of_Z 500) u ->
  exists k, 500 <= k <= 50000 /\
    F64.np_round u 2 = F64.div (F64.of_Z k) (F64.of_Z 100).
Proof.
  intros Hu. destruct (rint_mul100_range u Hu) as (k & Hk & Hr).
  exists k. split; [exact Hk|].
  change (F64.np_round u 2)
    with (F64.div (F64.rint (F64.mul u (F64.of_Z 100))) (F64.of_Z 100)).
  rewrite Hr. reflexivity.
Qed.

End FloatRounding.

(** ** CSV text *)

Section CsvText.
Import Pandas.

Lemma needs_quoting_cons (c : ascii) (s : string) :
  needs_quoting (String c s) = special c || needs_quoting s.
Proof. reflexivity. Qed.

Lemma needs_quoting_app (a b : string) :
  needs_quoting (a ++ b) = needs_quoting a || needs_quoting b.
Proof.
  induction a as [|c a IH].
  - reflexivity.
  - change (String c a ++ b) with (String c (a ++ b)).
    rewrite !needs_quoting_cons, IH, orb_assoc. reflexivity.
Qed.

Lemma csv_field_plain (s : string) :
  needs_quoting s = false -> csv_field s = s.
Proof. intros H. unfold csv_field. rewrite H. reflexivity. Qed.

Lemma plain_uint (d : uint) :
  needs_quoting (NilEmpty.string_of_uint d) = false.
Proof.
  induction d; cbn [NilEmpty.string_of_uint];
    rewrite ?needs_quoting_cons, ?IHd; reflexivity.
Qed.

Lemma plain_string_of_Z (z : Z) : needs_quoting (string_of_Z z) = false.
Proof.
  unfold string_of_Z, NilZero.string_of_int.
  destruct (Z.to_int z) as [d|d]; unfold NilZero.string_of_uint.
  - destruct d; try apply plain_uint. reflexivity.
  - rewrite needs_quoting_cons.
    destruct d; try (rewrite plain_uint; reflexivity). reflexivity.
Qed.

Lemma plain_zeros (n : nat) : needs_quoting (F64.zeros n) = false.
Proof.
  induction n as [|n IH]; [reflexivity|].
  cbn [F64.zeros]. rewrite needs_quoting_cons, IH. reflexivity.
Qed.

Lemma plain_substring (s : string) (i n : nat) :
  needs_quoting s = false -> needs_quoting (substring i n s) = false.
Proof.
  revert i n. induction s as [|c s IH]; intros i n H.
  - destruct i, n; reflexivity.
  - rewrite needs_quoting_cons in H. apply orb_false_iff in H. destruct H as [Hc Hs].
    destruct i as [|i].
    + destruct n as [|n]; [reflexivity|].
      cbn [substring]. rewrite needs_quoting_cons, Hc, IH by exact Hs. reflexivity.
    + cbn [substring]. apply IH, Hs.
Qed.

Lemma plain_format_digits (N q : Z) : needs_quoting (F64.format_digits N q) = false.
Proof.
  unfold F64.format_digits.
  pose proof (plain_string_of_Z N) as HD.
  set (D := string_of_Z N) in *.
  destruct (_ && _).
  - destruct (0 <=? q).
    + rewrite !needs_quoting_app, HD, plain_zeros. reflexivity.
    + destruct (0 <? _).
      * rewrite !needs_quoting_app, !plain_substring by exact HD. reflexivity.
      * rewrite !needs_quoting_app, HD, plain_zeros. reflexivity.
  - rewrite !needs_quoting_app.
    assert (Hm : needs_quoting
                   match D with
                   | EmptyString => EmptyString
                   | String c EmptyString => String c EmptyString
                   | String c (String _ _ as rest) => String c ("." ++ rest)
                   end = false).
    { destruct D as [|c [|c' rest]]; exact HD. }
    rewrite Hm.
    destruct (_ <? 0); destruct (_ <? 10);
      rewrite ?needs_quoting_app, plain_string_of_Z; reflexivity.
Qed.

Lemma plain_repr (x : F64.float) : needs_quoting (F64.repr x) = false.
Proof.
  destruct x as [s|s| |s m e]; cbn [F64.repr].
  - destruct s; reflexivity.
  - destruct s; reflexivity.
  - reflexivity.
  - destruct (F64.shortest m e) as [N q].
    rewrite needs_quoting_app, plain_format_digits.
    destruct s; reflexivity.
Qed.

End CsvText.

(** ** Running the script *)

(** ** Dates of the window *)

Lemma dates_checked : forallb date_check (Py.range Script.window_days) = true.
Proof. vm_compute. reflexivity. Qed.

Section Run.
Import Script.
Context (G : Generator).

Lemma bind_ok {A B : Type} (c : M G A) (k : A -> M G B) (w w' : world G) (a : A) :
  c w = (Ok a, w') -> bind G c k w = k a w'.
Proof. intros H. unfold bind. rewrite H. reflexivity. Qed.

Lemma bind_raise {A B : Type} (c : M G A) (k : A -> M G B) (w w' : world G) (e : exn) :
  c w = (Raise e, w') -> bind G c k w = (Raise e, w').
Proof. intros H. unfold bind. rewrite H. reflexivity. Qed.

Lemma seed_run (seed : Z) (w : world G) :
  0 <= seed < 2 ^ 32 ->
  np_random_seed G seed w = (Ok tt, mk_world G (rng_seed G seed) (fs G w)).
Proof.
  intros Hs. unfold np_random_seed.
  destruct (Z.leb_spec 0 seed); [|lia].
  destruct (Z.ltb_spec seed (2 ^ 32)); [|lia]. reflexivity.
Qed.

Lemma randint_run (lo hi : Z) (w : world G) :
  lo < hi ->
  np_random_randint G lo hi w
  = (Ok (fst (rng_randint G lo hi (rng G w))),
     mk_world G (snd (rng_randint G lo hi (rng G w))) (fs G w)).
Proof.
  intros H. unfold np_random_randint.
  destruct (Z.leb_spec hi lo); [lia|].
  destruct (rng_randint G lo hi (rng G w)). reflexivity.
Qed.

Lemma randint_size_run (lo hi n : Z) (w : world G) :
  lo < hi -> 0 <= n ->
  np_random_randint_size G lo hi n w
  = (Ok (fst (rng_randint_size G lo hi (Z.to_nat n) (rng G w))),
     mk_world G (snd (rng_randint_size G lo hi (Z.to_nat n) (rng G w))) (fs G w)).
Proof.
  intros H Hn. unfold np_random_randint_size.
  destruct (Z.ltb_spec n 0); [lia|].
  destruct (Z.leb_spec hi lo); [lia|].
  destruct (rng_randint_size G lo hi (Z.to_nat n) (rng G w)). reflexivity.
Qed.

Lemma choice_run (a : list string) (n : Z) (w : world G) :
  a <> [] -> 0 <= n ->
  np_random_choice G a n w
  = (Ok (fst (rng_choice_size G a (Z.to_nat n) (rng G w))),
     mk_world G (snd (rng_choice_size G a (Z.to_nat n) (rng G w))) (fs G w)).
Proof.
  intros Ha Hn. unfold np_random_choice.
  destruct (Z.ltb_spec n 0); [lia|].
  destruct a as [|x a]; [congruence|].
  destruct (rng_choice_size G (x :: a) (Z.to_nat n) (rng G w)).
  destruct (Z.to_nat n); reflexivity.
Qed.

Lemma uniform_run (lo hi : F64.float) (n : Z) (w : world G) :
  0 <= n ->
  np_random_uniform G lo hi n w
  = (Ok (fst (rng_uniform_size G lo hi (Z.to_nat n) (rng G w))),
     mk_world G (snd (rng_uniform_size G lo hi (Z.to_nat n) (rng G w))) (fs G w)).
Proof.
  intros Hn. unfold np_random_uniform.
  destruct (Z.ltb_spec n 0); [lia|].
  destruct (rng_uniform_size G lo hi (Z.to_nat n) (rng G w)). reflexivity.
Qed.

Lemma date_check_ok (k : Z) :
  in_range 0 window_days k -> date_check k = true.
Proof.
  intros Hk. pose proof dates_checked as H.
  rewrite forallb_forall in H. apply H.
  apply range2_In. exact Hk.
Qed.

Lemma date_at_ok (k : Z) :
  in_range 0 window_days k ->
  rbind (Datetime.timedelta_days k) (Datetime.add start_date) = Ok (date_at k).
Proof.
  intros Hk. apply date_check_ok in Hk. unfold date_check in Hk.
  unfold date_at.
  destruct (rbind (Datetime.timedelta_days k) (Datetime.add start_date));
    [reflexivity|discriminate].
Qed.

Context (HG : GeneratorLaws G).

Lemma draw_date_run (w : world G) :
  let r := rng_randint G 0 window_days (rng G w) in
  draw_date G start_date w = (Ok (date_at (fst r)), mk_world G (snd r) (fs G w))
  /\ in_range 0 window_days (fst r).
Proof.
  intros r. subst r.
  assert (Hr : in_range 0 window_days (fst (rng_randint G 0 window_days (rng G w))))
    by (apply (randint_range G HG); reflexivity).
  split; [|exact Hr].
  unfold draw_date.
  rewrite (bind_ok _ _ _ _ _ (randint_run 0 window_days w ltac:(reflexivity))).
  pose proof (date_at_ok _ Hr) as Hd.
  unfold rbind in Hd.
  destruct (Datetime.timedelta_days _) as [td|e]; [|discriminate].
  unfold bind, lift. rewrite Hd. reflexivity.
Qed.

Lemma draw_offsets_spec (m : nat) (s : rng_state G) :
  length (fst (draw_offsets G m s)) = m /\
  Forall (in_range 0 window_days) (fst (draw_offsets G m s)).
Proof.
  revert s. induction m as [|m IH]; intros s; cbn [draw_offsets].
  - split; [reflexivity|constructor].
  - pose proof (randint_range G HG 0 window_days s ltac:(reflexivity)) as Hk.
    destruct (rng_randint G 0 window_days s) as [k s1].
    specialize (IH s1). destruct (draw_offsets G m s1) as [ks s2].
    cbn [fst] in *. destruct IH as [IH1 IH2].
    split; [cbn; f_equal; exact IH1 | constructor; assumption].
Qed.

Lemma for_each_dates_run {A : Type} (l : list A) (w : world G) :
  for_each G (fun _ => draw_date G start_date) l w
  = (Ok (List.map date_at (fst (draw_offsets G (length l) (rng G w)))),
     mk_world G (snd (draw_offsets G (length l) (rng G w))) (fs G w)).
Proof.
  revert w. induction l as [|x l IH]; intros w.
  - cbn. destruct w. reflexivity.
  - cbn [for_each length draw_offsets].
    destruct (draw_date_run w) as [Hd _]. cbv zeta in Hd.
    rewrite (bind_ok _ _ _ _ _ Hd).
    destruct (rng_randint G 0 window_days (rng G w)) as [k s1]. cbn [fst snd].
    rewrite (bind_ok _ _ _ _ _ (IH _)). cbn [rng fs].
    destruct (draw_offsets G (length l) s1) as [ks s2]. reflexivity.
Qed.



Lemma make_ok (c1 c2 c3 c4 c5 c6 c7 c8 : Pandas.column) (k1 k2 k3 k4 k5 k6 k7 k8 : string) (m : nat) :
  Forall (fun c => Pandas.col_len c = m) [c1; c2; c3; c4; c5; c6; c7; c8] ->
  Pandas.make [(k1, c1); (k2, c2); (k3, c3); (k4, c4); (k5, c5); (k6, c6); (k7, c7); (k8, c8)]
  = Ok [(k1, c1); (k2, c2); (k3, c3); (k4, c4); (k5, c5); (k6, c6); (k7, c7); (k8, c8)].
Proof.
  intros H. unfold Pandas.make.
  repeat match goal with
         | H : Forall _ (_ :: _) |- _ => inversion H; subst; clear H
         end.
  cbn [forallb snd].
  repeat match goal with H : Pandas.col_len _ = Pandas.col_len _ |- _ => rewrite H end.
  rewrite !Nat.eqb_refl. reflexivity.
Qed.

Lemma build_frame_run (seed n : Z) (w : world G) :
  0 <= seed < 2 ^ 32 -> 0 <= n ->
  build_frame G seed n w
  = (Ok (fst (synthesize G seed (Z.to_nat n))),
     mk_world G (snd (synthesize G seed (Z.to_nat n))) (fs G w)).
Proof.
  intros Hs Hn. unfold build_frame, synthesize.
  rewrite (bind_ok _ _ _ _ _ (seed_run seed w Hs)).
  rewrite (bind_ok (lift G (Datetime.make 2022 1 1)) _ _ _ start_date eq_refl).
  rewrite (bind_ok _ _ _ _ _ (for_each_dates_run _ _)).
  cbn [rng fs].
  assert (Hlen : length (Py.range n) = Z.to_nat n).
  { unfold Py.range. rewrite range2_length. f_equal. lia. }
  rewrite Hlen.
  pose proof (draw_offsets_spec (Z.to_nat n) (rng_seed G seed)) as [Ho _].
  destruct (draw_offsets G (Z.to_nat n) (rng_seed G seed)) as [offsets s1].
  cbn [fst snd] in *.
  rewrite (bind_ok _ _ _ _ _ (randint_size_run 1000 50000 n _ ltac:(lia) Hn)).
  cbn [rng fs].
  pose proof (randint_size_length G HG 1000 50000 (Z.to_nat n) s1) as Hc.
  destruct (rng_randint_size G 1000 50000 (Z.to_nat n) s1) as [cust s2].
  cbn [fst snd] in *.
  rewrite (bind_ok _ _ _ _ _ (choice_run categories n _ ltac:(discriminate) Hn)).
  cbn [rng fs].
  pose proof (choice_size_length G HG categories (Z.to_nat n) s2) as Hcat.
  destruct (rng_choice_size G categories (Z.to_nat n) s2) as [cat s3].
  cbn [fst snd] in *.
  rewrite (bind_ok _ _ _ _ _ (uniform_run (F64.of_Z 5) (F64.of_Z 500) n _ Hn)).
  cbn [rng fs].
  pose proof (uniform_size_length G HG (F64.of_Z 5) (F64.of_Z 500) (Z.to_nat n) s3) as Hu.
  destruct (rng_uniform_size G (F64.of_Z 5) (F64.of_Z 500) (Z.to_nat n) s3) as [u s4].
  cbn [fst snd] in *.
  rewrite (bind_ok _ _ _ _ _ (randint_size_run 1 10 n _ ltac:(lia) Hn)).
  cbn [rng fs].
  pose proof (randint_size_length G HG 1 10 (Z.to_nat n) s4) as Hq.
  destruct (rng_randint_size G 1 10 (Z.to_nat n) s4) as [qty s5].
  cbn [fst snd] in *.
  rewrite (bind_ok _ _ _ _ _ (choice_run payment_methods n _ ltac:(discriminate) Hn)).
  cbn [rng fs].
  pose proof (choice_size_length G HG payment_methods (Z.to_nat n) s5) as Hp.
  destruct (rng_choice_size G payment_methods (Z.to_nat n) s5) as [pay s6].
  cbn [fst snd] in *.
  rewrite (bind_ok _ _ _ _ _ (choice_run countries n _ ltac:(discriminate) Hn)).
  cbn [rng fs].
  pose proof (choice_size_length G HG countries (Z.to_nat n) s6) as Hctry.
  destruct (rng_choice_size G countries (Z.to_nat n) s6) as [ctry s7].
  cbn [fst snd] in *.
  rewrite Z2Nat.id by exact Hn.
  erewrite (bind_ok (lift G (Pandas.make _))).
  2:{ unfold lift. f_equal. apply (make_ok _ _ _ _ _ _ _ _ _ _ _ _ _ _ _ _ (Z.to_nat n)).
      repeat constructor; cbn [Pandas.col_len];
        rewrite ?length_map, ?range2_length; try assumption; f_equal; lia. }
  unfold bind, lift, ret. reflexivity.
Qed.

End Run.

(** ** The tape generator *)

Section TapeLaws.
Import Tape.

Lemma take_pad_length {A : Type} (n : nat) (l : list A) (d : A) :
  length (take_pad n l d) = n.
Proof.
  unfold take_pad. rewrite length_take, length_app, repeat_length. lia.
Qed.

Lemma clamp_range (lo hi x : Z) : lo < hi -> in_range lo hi (clamp lo hi x).
Proof.
  intros H. unfold clamp, in_range.
  destruct (Z.leb_spec lo x); destruct (Z.ltb_spec x hi); cbn [andb]; lia.
Qed.

Lemma pick_member (a : list string) (i : Z) : a <> [] -> In (pick a i) a.
Proof.
  intros Ha. unfold pick. apply nth_In.
  assert (0 < Py.len a) by (unfold Py.len; destruct a; [congruence|cbn [length]; lia]).
  pose proof (Z.mod_pos_bound i (Py.len a) ltac:(lia)). unfold Py.len in *. lia.
Qed.

Lemma leb_refl (x : F64.float) (y : F64.float) :
  F64.ltb x y = true -> F64.leb x x = true.
Proof.
  unfold F64.ltb, F64.leb, SFltb, SFleb. intros H.
  destruct x as [s|s| |s m e]; cbn [SFcompare] in *; try discriminate.
  - reflexivity.
  - destruct s; reflexivity.
  - destruct s; rewrite Z.compare_refl.
    + change (Pos.compare_cont Eq m m) with (Pos.compare m m).
      rewrite Pos.compare_refl. reflexivity.
    + change (Pos.compare_cont Eq m m) with (Pos.compare m m).
      rewrite Pos.compare_refl. reflexivity.
Qed.

Lemma fclamp_range (lo hi x : F64.float) :
  F64.valid lo = true -> F64.ltb lo hi = true ->
  in_float_range lo hi (fclamp lo hi x).
Proof.
  intros Hv Hlt. unfold fclamp, in_float_range.
  pose proof (leb_refl lo hi Hlt) as Hrefl.
  destruct (F64.valid x) eqn:E1; cbn [andb]; [|auto].
  destruct (F64.leb lo x) eqn:E2; cbn [andb]; [|auto].
  destruct (F64.ltb x hi) eqn:E3; auto.
Qed.

(** The tape generator keeps to the contract, whatever the tape. *)
Lemma tape_generator_laws (tape_of_seed : Z -> tape) :
  GeneratorLaws (generator tape_of_seed).
Proof.
  constructor; cbn [generator rng_randint rng_randint_size rng_choice_size
                     rng_uniform_size fst].
  - intros lo hi s H. apply clamp_range, H.
  - intros lo hi n s. rewrite length_map. apply take_pad_length.
  - intros lo hi n s H. apply Forall_forall. intros x Hx.
    apply list_elem_of_In, in_map_iff in Hx. destruct Hx as (y & <- & _).
    apply clamp_range, H.
  - intros a n s. rewrite length_map. apply take_pad_length.
  - intros a n s Ha. apply Forall_forall. intros x Hx.
    apply list_elem_of_In, in_map_iff in Hx. destruct Hx as (y & <- & _).
    apply pick_member, Ha.
  - intros lo hi n s. rewrite length_map. apply take_pad_length.
  - intros lo hi n s Hv Hlt. apply Forall_forall. intros x Hx.
    apply list_elem_of_In, in_map_iff in Hx. destruct Hx as (y & <- & _).
    apply fclamp_range; assumption.
Qed.

End TapeLaws.

(** ** The rows of a run *)

Lemma nth_map_lt {A B : Type} (f : A -> B) (l : list A) (i : nat) (d : A) (d' : B) :
  (i < length l)%nat -> nth i (List.map f l) d' = f (nth i l d).
Proof.
  intros H. rewrite (nth_indep _ d' (f d)) by (rewrite length_map; exact H).
  apply map_nth.
Qed.

Lemma nth_zip_with_lt {A B C : Type} (f : A -> B -> C) (l1 : list A) (l2 : list B)
    (i : nat) (d1 : A) (d2 : B) (d : C) :
  (i < length l1)%nat -> (i < length l2)%nat ->
  nth i (zip_with f l1 l2) d = f (nth i l1 d1) (nth i l2 d2).
Proof.
  revert l2 i. induction l1 as [|x l1 IH]; intros [|y l2] i H1 H2;
    cbn [length] in *; try lia.
  destruct i as [|i]; cbn [zip_with nth]; [reflexivity|].
  apply IH; lia.
Qed.

Lemma nth_range2 (lo hi : Z) (i : nat) (d : Z) :
  (i < Z.to_nat (hi - lo))%nat -> nth i (Py.range2 lo hi) d = lo + Z.of_nat i.
Proof.
  intros H. apply nth_lookup_Some with (d := d) in H || idtac.
  pose proof (range2_lookup lo hi i H) as Hl.
  apply nth_lookup_Some with (d := d) in Hl. exact Hl.
Qed.

Section Synth.
Import Script.
Context (G : Generator) (HG : GeneratorLaws G).

Lemma synthesize_transactions (seed : Z) (m : nat) :
  Pandas.transactions (fst (synthesize G seed m))
  = Ok (List.map (row_at G seed m) (seq 0 m)).
Proof.
  unfold synthesize, row_at.
  pose proof (draw_offsets_spec G HG m (rng_seed G seed)) as [Ho _].
  destruct (draw_offsets G m (rng_seed G seed)) as [offsets s1].
  pose proof (randint_size_length G HG 1000 50000 m s1) as Hc.
  destruct (rng_randint_size G 1000 50000 m s1) as [cust s2].
  pose proof (choice_size_length G HG categories m s2) as Hcat.
  destruct (rng_choice_size G categories m s2) as [cat s3].
  pose proof (uniform_size_length G HG (F64.of_Z 5) (F64.of_Z 500) m s3) as Hu.
  destruct (rng_uniform_size G (F64.of_Z 5) (F64.of_Z 500) m s3) as [u s4].
  pose proof (randint_size_length G HG 1 10 m s4) as Hq.
  destruct (rng_randint_size G 1 10 m s4) as [qty s5].
  pose proof (choice_size_length G HG payment_methods m s5) as Hp.
  destruct (rng_choice_size G payment_methods m s5) as [pay s6].
  pose proof (choice_size_length G HG countries m s6) as Hctry.
  destruct (rng_choice_size G countries m s6) as [ctry s7].
  cbn [fst snd] in *.
  unfold Pandas.transactions.
  cbn [Pandas.getitem String.eqb Ascii.eqb Bool.eqb rbind Pandas.as_int Pandas.as_str
       Pandas.as_float Pandas.as_date Pandas.nrows Pandas.col_len fst snd].
  rewrite range2_length.
  replace (Z.to_nat (Z.of_nat m + 1 - 1)) with m by lia.
  f_equal. apply map_ext_in. intros i Hi. apply in_seq in Hi.
  f_equal.
  - apply nth_range2. lia.
  - apply (nth_map_lt (fun x => F64.np_round x 2)). lia.
  - apply (nth_map_lt date_at). lia.
  - rewrite (nth_zip_with_lt _ _ _ _ S754_nan 0) by (rewrite ?length_map; lia).
    f_equal. apply (nth_map_lt (fun x => F64.np_round x 2)). lia.
Qed.

End Synth.

Section Rows.
Import Script.
Context (G : Generator) (HG : GeneratorLaws G).

Lemma row_at_fields (seed : Z) (m i : nat) :
  (i < m)%nat ->
  exists k c cat u q pay ctry,
    row_at G seed m i
    = Pandas.mk_transaction (1 + Z.of_nat i) c cat (F64.np_round u 2) q (date_at k)
        pay ctry (F64.mul (F64.np_round u 2) (F64.of_Z q))
    /\ in_range 0 window_days k /\ in_range 1000 50000 c /\ In cat categories
    /\ in_float_range (F64.of_Z 5) (F64.of_Z 500) u /\ in_range 1 10 q
    /\ In pay payment_methods /\ In ctry countries.
Proof.
  intros Hi. unfold row_at.
  pose proof (draw_offsets_spec G HG m (rng_seed G seed)) as [Ho Ho'].
  destruct (draw_offsets G m (rng_seed G seed)) as [offsets s1].
  pose proof (randint_size_length G HG 1000 50000 m s1) as Hc.
  pose proof (randint_size_range G HG 1000 50000 m s1 ltac:(lia)) as Hc'.
  destruct (rng_randint_size G 1000 50000 m s1) as [cust s2].
  pose proof (choice_size_length G HG categories m s2) as Hcat.
  pose proof (choice_size_member G HG categories m s2 ltac:(discriminate)) as Hcat'.
  destruct (rng_choice_size G categories m s2) as [cat s3].
  pose proof (uniform_size_length G HG (F64.of_Z 5) (F64.of_Z 500) m s3) as Hu.
  pose proof (uniform_size_range G HG (F64.of_Z 5) (F64.of_Z 500) m s3
                ltac:(reflexivity) ltac:(reflexivity)) as Hu'.
  destruct (rng_uniform_size G (F64.of_Z 5) (F64.of_Z 500) m s3) as [u s4].
  pose proof (randint_size_length G HG 1 10 m s4) as Hq.
  pose proof (randint_size_range G HG 1 10 m s4 ltac:(lia)) as Hq'.
  destruct (rng_randint_size G 1 10 m s4) as [qty s5].
  pose proof (choice_size_length G HG payment_methods m s5) as Hp.
  pose proof (choice_size_member G HG payment_methods m s5 ltac:(discriminate)) as Hp'.
  destruct (rng_choice_size G payment_methods m s5) as [pay s6].
  pose proof (choice_size_length G HG countries m s6) as Hctry.
  pose proof (choice_size_member G HG countries m s6 ltac:(discriminate)) as Hctry'.
  destruct (rng_choice_size G countries m s6) as [ctry s7].
  cbn [fst snd] in *.
  do 7 eexists. split; [reflexivity|].
  repeat split;
    match goal with
    | H : Forall ?P ?l |- _ => apply (Forall_nth P _ l); [exact H | lia]
    end.
Qed.

(** A lawful run of [n >= 0] rows returns the synthesized frame; its rows
    are [row_at 0], ..., [row_at (n-1)]. *)
Lemma run_generates (seed n : Z) (w : world G) :
  0 <= seed < 2 ^ 32 -> 0 <= n ->
  generates G seed n w (fst (synthesize G seed (Z.to_nat n)))
    (List.map (row_at G seed (Z.to_nat n)) (seq 0 (Z.to_nat n))).
Proof.
  intros Hs Hn. eexists. split.
  - apply build_frame_run; assumption.
  - apply synthesize_transactions, HG.
Qed.

Lemma synthesize_ids (seed : Z) (m : nat) :
  Pandas.getitem (fst (synthesize G seed m)) "transaction_id"
  = Ok (Pandas.IntCol (Py.range2 1 (Z.of_nat m + 1))).
Proof.
  unfold synthesize.
  repeat match goal with |- context [let '(_, _) := ?x in _] => destruct x end.
  reflexivity.
Qed.

End Rows.

Lemma range2_NoDup (lo hi : Z) : NoDup (Py.range2 lo hi).
Proof.
  unfold Py.range2. apply NoDup_fmap_2.
  - intros i j H. lia.
  - apply NoDup_seq.
Qed.

(** C4: for a run of [n] rows, the [transaction_id] column is the list
    [1, 2, ..., n]: its [i]-th entry (from 0) is [i + 1], it has [n]
    entries, no entry twice, and its entries are exactly the integers from
    1 to [n]. *)
Theorem transaction_ids_contiguous (G : Generator) (seed n : Z) (w : Script.world G) :
  GeneratorLaws G -> 0 <= seed < 2 ^ 32 -> 0 <= n ->
  exists df recs,
    generates G seed n w df recs /\
    Pandas.getitem df "transaction_id" = Ok (Pandas.IntCol (Py.range2 1 (n + 1))) /\
    List.map Pandas.transaction_id recs = Py.range2 1 (n + 1) /\
    Py.len (Py.range2 1 (n + 1)) = n /\
    (forall i, 0 <= i < n -> Py.range2 1 (n + 1) !! Z.to_nat i = Some (i + 1)) /\
    NoDup (Py.range2 1 (n + 1)) /\
    (forall x, In x (Py.range2 1 (n + 1)) <-> 1 <= x <= n).
Proof.
  intros HG Hs Hn. do 2 eexists.
  split; [apply (run_generates G HG seed n w Hs Hn)|].
  split; [rewrite synthesize_ids, Z2Nat.id by lia; reflexivity|].
  split.
  { rewrite map_map. unfold Py.range2.
    replace (Z.to_nat (n + 1 - 1)) with (Z.to_nat n) by lia.
    apply map_ext_in. intros i Hi. apply in_seq in Hi.
    destruct (row_at_fields G HG seed (Z.to_nat n) i ltac:(lia))
      as (k & c & cat & u & q & pay & ctry & -> & _).
    reflexivity. }
  split; [unfold Py.len; rewrite range2_length; lia|].
  split.
  { intros i Hi. rewrite range2_lookup by lia. f_equal. lia. }
  split; [apply range2_NoDup|].
  intros x. rewrite range2_In. lia.
Qed.

Lemma transaction_ids_contiguous_witness :

  GeneratorLaws (Tape.generator Tape.ordinary) /\ 0 <= 42 < 2 ^ 32 /\ 0 <= 3 /\
  exists df recs,
    generates (Tape.generator Tape.ordinary) 42 3 (Tape.fresh Tape.ordinary) df recs /\
    Pandas.getitem df "transaction_id" = Ok (Pandas.IntCol (Py.range2 1 (3 + 1))) /\
    List.map Pandas.transaction_id recs = Py.range2 1 (3 + 1) /\
    Py.len (Py.range2 1 (3 + 1)) = 3 /\
    (forall i, 0 <= i < 3 -> Py.range2 1 (3 + 1) !! Z.to_nat i = Some (i + 1)) /\
    NoDup (Py.range2 1 (3 + 1)) /\
    (forall x, In x (Py.range2 1 (3 + 1)) <-> 1 <= x <= 3).
Proof.
  split; [apply tape_generator_laws|].
  split; [lia|]. split; [lia|].
  apply (transaction_ids_contiguous (Tape.generator Tape.ordinary) 42 3
           (Tape.fresh Tape.ordinary));
    [apply tape_generator_laws | lia | lia].
Defined.

(** ** Dates *)

Lemma date_at_props (k : Z) :
  in_range 0 Script.window_days k ->
  rbind (Datetime.timedelta_days k) (Datetime.add Script.start_date)
  = Ok (Script.date_at k) /\
  Datetime.leb Script.start_date (Script.date_at k) = true /\
  Datetime.leb (Script.date_at k) Script.end_date = true /\
  Datetime.is_midnight (Script.date_at k) = true /\
  Datetime.is_iso_date (Datetime.isodate (Script.date_at k)) = true /\
  Pandas.needs_quoting (Datetime.isodate (Script.date_at k)) = false.
Proof.
  intros Hk. pose proof (date_at_ok k Hk) as Hd.
  pose proof (date_check_ok k Hk) as Hc. unfold date_check in Hc.
  rewrite Hd in Hc.
  repeat (apply andb_true_iff in Hc; destruct Hc as [Hc ?]).
  repeat split; try assumption. apply negb_true_iff. assumption.
Qed.

(** C5: every generated record's date is [start_date] plus a day offset
    [k] with [0 <= k < 730], the offsets being the successive results of
    the scalar [randint(0, 730)] draws, so the date lies between
    [start_date] and [start_date + 730 days], both included. *)
Theorem dates_in_window (G : Generator) (seed n : Z) (w : Script.world G) :
  GeneratorLaws G -> 0 <= seed < 2 ^ 32 -> 0 <= n ->
  rbind (Datetime.timedelta_days Script.window_days) (Datetime.add Script.start_date)
  = Ok Script.end_date /\
  exists df recs,
    generates G seed n w df recs /\
    Py.len recs = n /\
    List.map Pandas.date recs
    = List.map Script.date_at
        (fst (Script.draw_offsets G (Z.to_nat n) (rng_seed G seed))) /\
    Forall (fun r =>
              exists k, 0 <= k < Script.window_days /\
                rbind (Datetime.timedelta_days k) (Datetime.add Script.start_date)
                = Ok (Pandas.date r) /\
                Datetime.leb Script.start_date (Pandas.date r) = true /\
                Datetime.leb (Pandas.date r) Script.end_date = true) recs.
Proof.
  intros HG Hs Hn. split; [reflexivity|]. do 2 eexists.
  split; [apply (run_generates G HG seed n w Hs Hn)|].
  split; [unfold Py.len; rewrite length_map, length_seq; lia|].
  split.
  - pose proof (draw_offsets_spec G HG (Z.to_nat n) (rng_seed G seed)) as [Ho _].
    apply nth_ext with (d := Script.start_date) (d' := Script.start_date).
    + rewrite !length_map, length_seq, Ho. reflexivity.
    + intros i Hi. rewrite !length_map, length_seq in Hi.
      rewrite (nth_map_lt Pandas.date _ _ (Script.row_at G seed (Z.to_nat n) 0%nat))
        by (rewrite length_map, length_seq; exact Hi).
      rewrite (nth_map_lt (Script.row_at G seed (Z.to_nat n)) _ _ 0%nat)
        by (rewrite length_seq; exact Hi).
      rewrite seq_nth by exact Hi.
      rewrite (nth_map_lt Script.date_at _ _ 0) by lia.
      unfold Script.row_at.
      repeat match goal with |- context [let '(_, _) := ?x in _] => destruct x end.
      reflexivity.
  - apply Forall_forall. intros r Hr.
    apply list_elem_of_In, in_map_iff in Hr. destruct Hr as (i & <- & Hi).
    apply in_seq in Hi.
    destruct (row_at_fields G HG seed (Z.to_nat n) i ltac:(lia))
      as (k & c & cat & u & q & pay & ctry & -> & Hk & _).
    cbn [Pandas.date]. exists k.
    destruct (date_at_props k Hk) as (H1 & H2 & H3 & _).
    repeat split; try assumption; apply Hk.
Qed.

Lemma dates_in_window_witness :
  GeneratorLaws (Tape.generator Tape.ordinary) /\ 0 <= 42 < 2 ^ 32 /\ 0 <= 2 /\
  (rbind (Datetime.timedelta_days Script.window_days) (Datetime.add Script.start_date)
   = Ok Script.end_date /\
   exists df recs,
     generates (Tape.generator Tape.ordinary) 42 2 (Tape.fresh Tape.ordinary) df recs /\
     Py.len recs = 2 /\
     List.map Pandas.date recs
     = List.map Script.date_at
         (fst (Script.draw_offsets (Tape.generator Tape.ordinary) (Z.to_nat 2)
                 (rng_seed (Tape.generator Tape.ordinary) 42))) /\
     Forall (fun r =>
               exists k, 0 <= k < Script.window_days /\
                 rbind (Datetime.timedelta_days k) (Datetime.add Script.start_date)
                 = Ok (Pandas.date r) /\
                 Datetime.leb Script.start_date (Pandas.date r) = true /\
                 Datetime.leb (Pandas.date r) Script.end_date = true) recs).
Proof.
  split; [apply tape_generator_laws|].
  split; [lia|]. split; [lia|].
  apply (dates_in_window (Tape.generator Tape.ordinary) 42 2 (Tape.fresh Tape.ordinary));
    [apply tape_generator_laws | lia | lia].
Defined.

(** ** Prices and totals *)

Lemma price_props (u : F64.float) :
  in_float_range (F64.of_Z 5) (F64.of_Z 500) u ->
  F64.valid (F64.np_round u 2) = true /\
  F64.leb (F64.of_Z 5) (F64.np_round u 2) = true /\
  F64.leb (F64.np_round u 2) (F64.of_Z 500) = true /\
  exists k, 500 <= k <= 50000 /\
    F64.np_round u 2 = F64.div (F64.of_Z k) (F64.of_Z 100).
Proof.
  intros Hu. destruct (np_round2_cents u Hu) as (k & Hk & E).
  destruct (cent_range k Hk) as (H1 & H2 & H3). rewrite E.
  repeat split; try assumption. exists k. split; [exact Hk|reflexivity].
Qed.

(** C7, as the code has it: every generated record has its categorical
    fields in their declared sets, [customer_id] in [[1000, 50000)],
    [quantity] in [[1, 10)], and a [product_price] that is the float nearest
    to a whole number of cents between 5.00 and 500.00, so that
    [5 <= product_price <= 500], the upper bound included. *)
Theorem fields_in_domains (G : Generator) (seed n : Z) (w : Script.world G) :
  GeneratorLaws G -> 0 <= seed < 2 ^ 32 -> 0 <= n ->
  exists df recs,
    generates G seed n w df recs /\
    Py.len recs = n /\
    Forall (fun r =>
              In (Pandas.product_category r) Script.categories /\
              In (Pandas.payment_method r) Script.payment_methods /\
              In (Pandas.country r) Script.countries /\
              1000 <= Pandas.customer_id r < 50000 /\
              1 <= Pandas.quantity r < 10 /\
              F64.leb (F64.of_Z 5) (Pandas.product_price r) = true /\
              F64.leb (Pandas.product_price r) (F64.of_Z 500) = true /\
              exists k, 500 <= k <= 50000 /\
                Pandas.product_price r = F64.div (F64.of_Z k) (F64.of_Z 100)) recs.
Proof.
  intros HG Hs Hn. do 2 eexists.
  split; [apply (run_generates G HG seed n w Hs Hn)|].
  split; [unfold Py.len; rewrite length_map, length_seq; lia|].
  apply Forall_forall. intros r Hr.
  apply list_elem_of_In, in_map_iff in Hr. destruct Hr as (i & <- & Hi).
  apply in_seq in Hi.
  destruct (row_at_fields G HG seed (Z.to_nat n) i ltac:(lia))
    as (k & c & cat & u & q & pay & ctry & -> & Hk & Hc & Hcat & Hu & Hq & Hp & Hctry).
  cbn [Pandas.product_category Pandas.payment_method Pandas.country
       Pandas.customer_id Pandas.quantity Pandas.product_price].
  destruct (price_props u Hu) as (_ & H5 & H500 & Hcents).
  unfold in_range in *. repeat split; try assumption; lia.
Qed.

Lemma fields_in_domains_witness :
  GeneratorLaws (Tape.generator Tape.near_top) /\ 0 <= 42 < 2 ^ 32 /\ 0 <= 1 /\
  exists df recs,
    generates (Tape.generator Tape.near_top) 42 1 (Tape.fresh Tape.near_top) df recs /\
    Py.len recs = 1 /\
    Forall (fun r =>
              In (Pandas.product_category r) Script.categories /\
              In (Pandas.payment_method r) Script.payment_methods /\
              In (Pandas.country r) Script.countries /\
              1000 <= Pandas.customer_id r < 50000 /\
              1 <= Pandas.quantity r < 10 /\
              F64.leb (F64.of_Z 5) (Pandas.product_price r) = true /\
              F64.leb (Pandas.product_price r) (F64.of_Z 500) = true /\
              exists k, 500 <= k <= 50000 /\
                Pandas.product_price r = F64.div (F64.of_Z k) (F64.of_Z 100)) recs.
Proof.
  split; [apply tape_generator_laws|].
  split; [lia|]. split; [lia|].
  apply (fields_in_domains (Tape.generator Tape.near_top) 42 1 (Tape.fresh Tape.near_top));
    [apply tape_generator_laws | lia | lia].
Defined.

(** Against C7 as stated: a lawful generator whose uniform draw is 499.996,
    inside [[5, 500)], yields the price 500.0, which is not below 500. *)
Lemma price_reaches_500 :
  GeneratorLaws (Tape.generator Tape.near_top) /\
  in_float_range (F64.of_Z 5) (F64.of_Z 500) (F64.of_decimal 499996 (-3)) /\
  exists df r,
    generates (Tape.generator Tape.near_top) 42 1 (Tape.fresh Tape.near_top) df [r] /\
    Pandas.product_price r = F64.np_round (F64.of_decimal 499996 (-3)) 2 /\
    Pandas.product_price r = F64.of_Z 500 /\
    F64.ltb (Pandas.product_price r) (F64.of_Z 500) = false.
Proof.
  split; [apply tape_generator_laws|].
  split; [repeat split; vm_compute; reflexivity|].
  do 2 eexists. split.
  - eexists. split; vm_compute; reflexivity.
  - repeat split; vm_compute; reflexivity.
Qed.

(** C1, as the code has it: every generated record's [total] is the
    binary64 product of its [product_price], itself the float nearest to a
    whole number of cents, and its [quantity] converted to [float64]; the
    product is not rounded again. *)
Theorem total_is_float_product (G : Generator) (seed n : Z) (w : Script.world G) :
  GeneratorLaws G -> 0 <= seed < 2 ^ 32 -> 0 <= n ->
  exists df recs,
    generates G seed n w df recs /\
    Py.len recs = n /\
    Forall (fun r =>
              Pandas.total r
              = F64.mul (Pandas.product_price r) (F64.of_Z (Pandas.quantity r)) /\
              1 <= Pandas.quantity r < 10 /\
              exists k, 500 <= k <= 50000 /\
                Pandas.product_price r = F64.div (F64.of_Z k) (F64.of_Z 100)) recs.
Proof.
  intros HG Hs Hn. do 2 eexists.
  split; [apply (run_generates G HG seed n w Hs Hn)|].
  split; [unfold Py.len; rewrite length_map, length_seq; lia|].
  apply Forall_forall. intros r Hr.
  apply list_elem_of_In, in_map_iff in Hr. destruct Hr as (i & <- & Hi).
  apply in_seq in Hi.
  destruct (row_at_fields G HG seed (Z.to_nat n) i ltac:(lia))
    as (k & c & cat & u & q & pay & ctry & -> & Hk & Hc & Hcat & Hu & Hq & Hp & Hctry).
  cbn [Pandas.total Pandas.quantity Pandas.product_price].
  destruct (price_props u Hu) as (_ & _ & _ & Hcents).
  unfold in_range in *. repeat split; try assumption; lia.
Qed.

Lemma total_is_float_product_witness :
  GeneratorLaws (Tape.generator Tape.ordinary) /\ 0 <= 42 < 2 ^ 32 /\ 0 <= 1 /\
  exists df recs,
    generates (Tape.generator Tape.ordinary) 42 1 (Tape.fresh Tape.ordinary) df recs /\
    Py.len recs = 1 /\
    Forall (fun r =>
              Pandas.total r
              = F64.mul (Pandas.product_price r) (F64.of_Z (Pandas.quantity r)) /\
              1 <= Pandas.quantity r < 10 /\
              exists k, 500 <= k <= 50000 /\
                Pandas.product_price r = F64.div (F64.of_Z k) (F64.of_Z 100)) recs.
Proof.
  split; [apply tape_generator_laws|].
  split; [lia|]. split; [lia|].
  apply (total_is_float_product (Tape.generator Tape.ordinary) 42 1
           (Tape.fresh Tape.ordinary));
    [apply tape_generator_laws | lia | lia].
Defined.

(** Against C1 as stated: with the price 5.1 and the quantity 3 the total
    is 15.299999999999999, while rounding it to two decimals, with
    [np.round] or correctly, gives 15.3. *)
Lemma total_differs_from_rounded :
  GeneratorLaws (Tape.generator Tape.ordinary) /\
  exists df r,
    generates (Tape.generator Tape.ordinary) 42 1 (Tape.fresh Tape.ordinary) df [r] /\
    Pandas.product_price r = F64.of_decimal 51 (-1) /\
    Pandas.quantity r = 3 /\
    Pandas.total r = S754_finite false 8613134287346073 (-49) /\
    F64.np_round (F64.mul (Pandas.product_price r) (F64.of_Z (Pandas.quantity r))) 2
    = S754_finite false 8613134287346074 (-49) /\
    F64.of_decimal 1530 (-2) = S754_finite false 8613134287346074 (-49) /\
    F64.eqb (Pandas.total r)
      (F64.np_round (F64.mul (Pandas.product_price r) (F64.of_Z (Pandas.quantity r))) 2)
    = false /\
    F64.repr (Pandas.total r) = "15.299999999999999".
Proof.
  split; [apply tape_generator_laws|].
  do 2 eexists. split.
  - eexists. split; vm_compute; reflexivity.
  - repeat split; vm_compute; reflexivity.
Qed.

(** ** Totals are finite *)

(** A valid float between 5 and 500, both included, is a normal positive
    number [m * 2^e] with [-50 <= e <= -44]. *)
Lemma price_shape (p : F64.float) :
  F64.valid p = true ->
  F64.leb (F64.of_Z 5) p = true -> F64.leb p (F64.of_Z 500) = true ->
  exists m e, p = S754_finite false m e /\ -50 <= e <= -44
              /\ 2 ^ 52 <= Zpos m < 2 ^ 53.
Proof.
  intros Hv Hlo Hhi.
  change (F64.of_Z 5) with (S754_finite false 5629499534213120 (-50)) in Hlo.
  change (F64.of_Z 500) with (S754_finite false 8796093022208000 (-44)) in Hhi.
  unfold F64.leb, SFleb in Hlo, Hhi.
  destruct p as [s|s| |s m e];
    [destruct s; discriminate Hlo | destruct s; discriminate
    | discriminate Hlo | ].
  destruct s; [discriminate Hlo|].
  rewrite SFcompare_pos_finite in Hlo, Hhi.
  exists m, e. split; [reflexivity|].
  assert (He : -50 <= e <= -44).
  { destruct (Z.compare_spec (-50) e); [| |discriminate Hlo];
    (destruct (Z.compare_spec e (-44)); [| |discriminate Hhi]); lia. }
  split; [exact He|].
  apply (digits53_bounds m e); [lia|exact Hv|lia].
Qed.

(** The product of two normal positive floats is a finite positive float
    (no overflow or underflow for moderate exponents). *)
Lemma mul_normal_finite (m1 m2 : positive) (e1 e2 : Z) :
  2 ^ 52 <= Zpos m1 < 2 ^ 53 -> 2 ^ 52 <= Zpos m2 < 2 ^ 53 ->
  -500 <= e1 <= 400 -> -500 <= e2 <= 400 ->
  exists m e, F64.mul (S754_finite false m1 e1) (S754_finite false m2 e2)
              = S754_finite false m e.
Proof.
  intros H1 H2 He1 He2. rewrite mul_finite_pos.
  assert (HP : 2 ^ 104 <= Zpos m1 * Zpos m2 < 2 ^ 106).
  { change (2 ^ 104) with (2 ^ 52 * 2 ^ 52). change (2 ^ 106) with (2 ^ 53 * 2 ^ 53).
    split.
    - apply Z.mul_le_mono_nonneg; lia.
    - apply Z.mul_lt_mono_nonneg; lia. }
  destruct (Z.lt_ge_cases (Zpos m1 * Zpos m2) (2 ^ 105)) as [Hd|Hd].
  - rewrite (round_aux_normal false _ _ 105 52) by lia.
    destruct (_ <? _); eauto.
  - rewrite (round_aux_normal false _ _ 106 53) by lia.
    destruct (_ <? _); eauto.
Qed.

Lemma quantity_shape (q : Z) :
  1 <= q < 10 ->
  exists m e, F64.of_Z q = S754_finite false m e /\ -52 <= e <= -49
              /\ 2 ^ 52 <= Zpos m < 2 ^ 53.
Proof.
  intros Hq.
  assert (H : q = 1 \/ q = 2 \/ q = 3 \/ q = 4 \/ q = 5 \/ q = 6 \/ q = 7
              \/ q = 8 \/ q = 9) by lia.
  destruct H as [->|[->|[->|[->|[->|[->|[->|[->| ->]]]]]]]];
    do 2 eexists; (split; [vm_compute; reflexivity|]); split; lia.
Qed.

(** The [total] of a price between 5 and 500 and a quantity in [[1, 10)] is
    a finite positive float, in particular not a NaN. *)
Lemma total_finite (p : F64.float) (q : Z) :
  F64.valid p = true ->
  F64.leb (F64.of_Z 5) p = true -> F64.leb p (F64.of_Z 500) = true ->
  1 <= q < 10 ->
  exists m e, F64.mul p (F64.of_Z q) = S754_finite false m e.
Proof.
  intros Hv Hlo Hhi Hq.
  destruct (price_shape p Hv Hlo Hhi) as (m1 & e1 & -> & He1 & Hm1).
  destruct (quantity_shape q Hq) as (m2 & e2 & -> & He2 & Hm2).
  apply mul_normal_finite; lia.
Qed.

(** ** The lines of the file *)

Lemma no_lf_app (a b : string) : no_lf a -> no_lf b -> no_lf (a ++ b).
Proof.
  unfold no_lf. induction a as [|c a IH]; intros Ha Hb; [exact Hb|].
  change (String c a ++ b) with (String c (a ++ b)).
  cbn [list_ascii_of_string existsb] in *.
  apply orb_false_iff in Ha. destruct Ha as [Hc Ha].
  rewrite Hc, IH by assumption. reflexivity.
Qed.

Lemma plain_no_lf (s : string) : Pandas.needs_quoting s = false -> no_lf s.
Proof.
  unfold no_lf, Pandas.needs_quoting. induction s as [|c s IH]; intros H; [reflexivity|].
  cbn [list_ascii_of_string existsb] in *.
  apply orb_false_iff in H. destruct H as [Hc Hs].
  rewrite IH by exact Hs. rewrite orb_false_r.
  unfold Pandas.special in Hc.
  repeat (apply orb_false_iff in Hc; destruct Hc as [Hc ?]).
  rewrite Ascii.eqb_sym. assumption.
Qed.

Lemma no_lf_concat (fields : list string) :
  Forall (fun s => Pandas.needs_quoting s = false) fields ->
  no_lf (String.concat "," fields).
Proof.
  induction 1 as [|x l Hx Hl IH]; [reflexivity|].
  cbn [String.concat]. destruct l as [|y l]; [apply plain_no_lf, Hx|].
  apply no_lf_app; [apply plain_no_lf, Hx|].
  apply no_lf_app; [reflexivity | exact IH].
Qed.

Lemma csv_line_plain (fields : list string) :
  Forall (fun s => Pandas.needs_quoting s = false) fields ->
  Pandas.csv_line fields = String.concat "," fields ++ String Pandas.LF EmptyString
  /\ single_line (Pandas.csv_line fields).
Proof.
  intros H.
  assert (E : List.map Pandas.csv_field fields = fields).
  { induction H as [|x l Hx Hl IH]; [reflexivity|].
    cbn [List.map]. rewrite IH, csv_field_plain by exact Hx. reflexivity. }
  unfold Pandas.csv_line. rewrite E. split; [reflexivity|].
  eexists. split; [reflexivity|]. apply no_lf_concat, H.
Qed.

Lemma plain_member (x : string) (l : list string) :
  forallb (fun s => negb (Pandas.needs_quoting s)) l = true ->
  In x l -> Pandas.needs_quoting x = false.
Proof.
  intros H Hx. rewrite forallb_forall in H. apply negb_true_iff, H, Hx.
Qed.

Lemma transaction_fields_plain (r : Pandas.transaction) :
  Pandas.needs_quoting (Pandas.product_category r) = false ->
  Pandas.needs_quoting (Datetime.isodate (Pandas.date r)) = false ->
  Pandas.needs_quoting (Pandas.payment_method r) = false ->
  Pandas.needs_quoting (Pandas.country r) = false ->
  Forall (fun s => Pandas.needs_quoting s = false)
    [ string_of_Z (Pandas.transaction_id r); string_of_Z (Pandas.customer_id r);
      Pandas.product_category r; F64.repr (Pandas.product_price r);
      string_of_Z (Pandas.quantity r); Datetime.isodate (Pandas.date r);
      Pandas.payment_method r; Pandas.country r; F64.repr (Pandas.total r) ].
Proof.
  intros H1 H2 H3 H4.
  repeat constructor; auto using plain_string_of_Z, plain_repr.
Qed.

Section Csv.
Import Script.
Context (G : Generator) (HG : GeneratorLaws G).

Lemma row_at_plain (seed : Z) (m i : nat) :
  (i < m)%nat ->
  let r := row_at G seed m i in
  Pandas.needs_quoting (Pandas.product_category r) = false /\
  Pandas.needs_quoting (Datetime.isodate (Pandas.date r)) = false /\
  Pandas.needs_quoting (Pandas.payment_method r) = false /\
  Pandas.needs_quoting (Pandas.country r) = false /\
  Datetime.is_midnight (Pandas.date r) = true /\
  Datetime.is_iso_date (Datetime.isodate (Pandas.date r)) = true /\
  Pandas.is_nan (Pandas.product_price r) = false /\
  Pandas.is_nan (Pandas.total r) = false.
Proof.
  intros Hi r. subst r.
  destruct (row_at_fields G HG seed m i Hi)
    as (k & c & cat & u & q & pay & ctry & -> & Hk & Hc & Hcat & Hu & Hq & Hp & Hctry).
  cbn [Pandas.product_category Pandas.date Pandas.payment_method Pandas.country
       Pandas.product_price Pandas.total].
  destruct (date_at_props k Hk) as (_ & _ & _ & Hmid & Hiso & Hpl).
  destruct (price_props u Hu) as (Hv & H5 & H500 & _).
  destruct (price_shape _ Hv H5 H500) as (mp & ep & Ep & _).
  destruct (total_finite _ q Hv H5 H500 Hq) as (mt & et & Et).
  rewrite Et, Ep.
  repeat split; try assumption; try reflexivity;
    eapply plain_member; try eassumption; reflexivity.
Qed.

End Csv.

Section Csv2.
Import Script.
Context (G : Generator) (HG : GeneratorLaws G).

Lemma forallb_map_true {A B : Type} (f : A -> B) (p : B -> bool) (l : list A) :
  (forall x, In x l -> p (f x) = true) -> forallb p (List.map f l) = true.
Proof.
  intros H. apply forallb_forall. intros y Hy. apply in_map_iff in Hy.
  destruct Hy as (x & <- & Hx). apply H, Hx.
Qed.

Lemma synthesize_row (seed : Z) (m i : nat) :
  (i < m)%nat ->
  Pandas.row (fst (synthesize G seed m)) i
  = let r := row_at G seed m i in
    [ string_of_Z (Pandas.transaction_id r); string_of_Z (Pandas.customer_id r);
      Pandas.product_category r; F64.repr (Pandas.product_price r);
      string_of_Z (Pandas.quantity r); Datetime.isodate (Pandas.date r);
      Pandas.payment_method r; Pandas.country r; F64.repr (Pandas.total r) ].
Proof.
  intros Hi.
  pose proof (row_at_plain G HG seed m i Hi) as Hpl. cbv zeta in Hpl.
  destruct Hpl as (_ & _ & _ & _ & _ & _ & Hnp & Hnt).
  assert (Hmid : forall j, (j < m)%nat ->
             Datetime.is_midnight (Pandas.date (row_at G seed m j)) = true).
  { intros j Hj. apply (row_at_plain G HG seed m j Hj). }
  revert Hnp Hnt Hmid.
  unfold synthesize, row_at.
  pose proof (draw_offsets_spec G HG m (rng_seed G seed)) as [Ho _].
  destruct (draw_offsets G m (rng_seed G seed)) as [offsets s1].
  pose proof (randint_size_length G HG 1000 50000 m s1) as Hc.
  destruct (rng_randint_size G 1000 50000 m s1) as [cust s2].
  pose proof (choice_size_length G HG categories m s2) as Hcat.
  destruct (rng_choice_size G categories m s2) as [cat s3].
  pose proof (uniform_size_length G HG (F64.of_Z 5) (F64.of_Z 500) m s3) as Hu.
  destruct (rng_uniform_size G (F64.of_Z 5) (F64.of_Z 500) m s3) as [u s4].
  pose proof (randint_size_length G HG 1 10 m s4) as Hq.
  destruct (rng_randint_size G 1 10 m s4) as [qty s5].
  pose proof (choice_size_length G HG payment_methods m s5) as Hp.
  destruct (rng_choice_size G payment_methods m s5) as [pay s6].
  pose proof (choice_size_length G HG countries m s6) as Hctry.
  destruct (rng_choice_size G countries m s6) as [ctry s7].
  cbn [fst snd] in Ho, Hc, Hcat, Hu, Hq, Hp, Hctry.
  cbn [fst snd Pandas.transaction_id Pandas.customer_id Pandas.product_category
       Pandas.product_price Pandas.quantity Pandas.date Pandas.payment_method
       Pandas.country Pandas.total].
  intros Hnp Hnt Hmid.
  unfold Pandas.row. cbn [List.map snd Pandas.format_column].
  assert (Hall : forallb Datetime.is_midnight (List.map date_at offsets) = true).
  { apply forallb_forall. intros d Hd.
    apply (In_nth _ _ start_date) in Hd. destruct Hd as (j & Hj & <-).
    rewrite length_map in Hj.
    rewrite (nth_map_lt date_at _ _ 0) by exact Hj.
    apply Hmid. lia. }
  rewrite Hall.
  rewrite (nth_map_lt string_of_Z _ _ 0) by (rewrite range2_length; lia).
  rewrite (nth_range2 1 _ i 0) by lia.
  rewrite (nth_map_lt string_of_Z cust _ 0) by lia.
  rewrite (nth_map_lt string_of_Z qty _ 0) by lia.
  rewrite (nth_map_lt Datetime.isodate _ _ start_date) by (rewrite length_map; lia).
  rewrite (nth_map_lt date_at _ _ 0) by lia.
  rewrite (nth_map_lt (fun x => if Pandas.is_nan x then EmptyString else F64.repr x)
             (List.map _ u) _ S754_nan) by (rewrite length_map; lia).
  rewrite (nth_map_lt (fun x => F64.np_round x 2) u _ S754_nan) by lia.
  rewrite (nth_map_lt (fun x => if Pandas.is_nan x then EmptyString else F64.repr x)
             (zip_with _ _ _) _ S754_nan)
    by (rewrite length_zip_with, length_map; lia).
  rewrite (nth_zip_with_lt _ _ _ _ S754_nan 0) by (rewrite ?length_map; lia).
  rewrite (nth_map_lt (fun x => F64.np_round x 2) u _ S754_nan) by lia.
  rewrite Hnp, Hnt. reflexivity.
Qed.

Lemma synthesize_csv_lines (seed : Z) (m : nat) :
  Pandas.csv_lines (fst (synthesize G seed m))
  = Pandas.header_line
    :: List.map Pandas.transaction_line (List.map (row_at G seed m) (seq 0 m))
  /\ Forall single_line (Pandas.csv_lines (fst (synthesize G seed m))).
Proof.
  assert (Hrows : forall i, (i < m)%nat ->
            Pandas.csv_line (Pandas.row (fst (synthesize G seed m)) i)
            = Pandas.transaction_line (row_at G seed m i)
            /\ single_line (Pandas.csv_line (Pandas.row (fst (synthesize G seed m)) i))).
  { intros i Hi. rewrite synthesize_row by exact Hi. cbv zeta.
    destruct (row_at_plain G HG seed m i Hi) as (H1 & H2 & H3 & H4 & _).
    apply csv_line_plain, transaction_fields_plain; assumption. }
  assert (Hn : Pandas.nrows (fst (synthesize G seed m)) = m).
  { unfold synthesize.
    repeat match goal with |- context [let '(_, _) := ?x in _] => destruct x end.
    cbn [fst Pandas.nrows Pandas.col_len]. rewrite range2_length. lia. }
  assert (Hh : Pandas.csv_line (Pandas.header (fst (synthesize G seed m)))
               = Pandas.header_line).
  { unfold synthesize.
    repeat match goal with |- context [let '(_, _) := ?x in _] => destruct x end.
    reflexivity. }
  unfold Pandas.csv_lines, Pandas.rows. rewrite Hn. cbn [List.map]. rewrite Hh.
  split.
  - f_equal. rewrite !map_map. apply map_ext_in. intros i Hi. apply in_seq in Hi.
    apply Hrows. lia.
  - constructor.
    + eexists. split; [reflexivity|]. reflexivity.
    + apply Forall_forall. intros l Hl.
      apply list_elem_of_In in Hl. rewrite map_map in Hl. apply in_map_iff in Hl.
      destruct Hl as (i & <- & Hi). apply in_seq in Hi. apply Hrows. lia.
Qed.

(** Writing the frame when nothing is in the way. *)
Lemma script_run (seed n : Z) (w : world G) :
  0 <= seed < 2 ^ 32 -> 0 <= n ->
  script G seed n w
  = to_csv G (fst (synthesize G seed (Z.to_nat n))) target
      (mk_world G (snd (synthesize G seed (Z.to_nat n))) (fs G w)).
Proof.
  intros Hs Hn. unfold script.
  rewrite (bind_ok _ _ _ _ _ _ (build_frame_run G HG seed n w Hs Hn)). reflexivity.
Qed.

End Csv2.

(** ** Writing the file *)

Section Writing.
Import Script.
Context (G : Generator).

Lemma to_csv_ok (df : Pandas.DataFrame) (w : world G) :
  faults (fs G w) !! target = None ->
  exists w', to_csv G df target w = (Ok tt, w')
             /\ rng G w' = rng G w
             /\ output_file G w' = Some (Pandas.csv_text df).
Proof.
  intros H. unfold to_csv, write_file. rewrite H.
  eexists. split; [reflexivity|]. split; [reflexivity|].
  unfold output_file. cbn [fs files]. apply lookup_insert_eq.
Qed.

Lemma to_csv_refused (df : Pandas.DataFrame) (w : world G) (f : write_fault) :
  faults (fs G w) !! target = Some f ->
  f = MissingDirectory \/ f = PermissionDenied ->
  to_csv G df target w = (Raise OSError, w).
Proof.
  intros H Hf. unfold to_csv, write_file. rewrite H.
  destruct w as [s fsys]. destruct Hf as [-> | ->]; reflexivity.
Qed.

Lemma to_csv_disk_full (df : Pandas.DataFrame) (w : world G) (room : nat) :
  faults (fs G w) !! target = Some (DiskFull room) ->
  (room < String.length (Pandas.csv_text df))%nat ->
  exists w', to_csv G df target w = (Raise OSError, w')
             /\ output_file G w' = Some (substring 0 room (Pandas.csv_text df)).
Proof.
  intros H Hr. unfold to_csv, write_file. rewrite H.
  destruct (Nat.leb_spec (String.length (Pandas.csv_text df)) room); [lia|].
  eexists. split; [reflexivity|].
  unfold output_file. cbn [fs files]. apply lookup_insert_eq.
Qed.

Lemma to_csv_enough_room (df : Pandas.DataFrame) (w : world G) (room : nat) :
  faults (fs G w) !! target = Some (DiskFull room) ->
  (String.length (Pandas.csv_text df) <= room)%nat ->
  exists w', to_csv G df target w = (Ok tt, w')
             /\ output_file G w' = Some (Pandas.csv_text df).
Proof.
  intros H Hr. unfold to_csv, write_file. rewrite H.
  destruct (Nat.leb_spec (String.length (Pandas.csv_text df)) room); [|lia].
  eexists. split; [reflexivity|].
  unfold output_file. cbn [fs files]. apply lookup_insert_eq.
Qed.

End Writing.

(** A run that nothing prevents from writing: it succeeds, and the file
    holds the text of the synthesized frame, header line first. *)
Lemma csv_layout_parts (G : Generator) (HG : GeneratorLaws G) (seed n : Z)
    (w : Script.world G) :
  0 <= seed < 2 ^ 32 -> 0 <= n ->
  faults (Script.fs G w) !! Script.target = None ->
  exists w',
    Script.script G seed n w = (Ok tt, w') /\
    output_file G w'
    = Some (Pandas.csv_text (fst (Script.synthesize G seed (Z.to_nat n)))) /\
    Pandas.csv_lines (fst (Script.synthesize G seed (Z.to_nat n)))
    = Pandas.header_line
      :: List.map Pandas.transaction_line
           (List.map (Script.row_at G seed (Z.to_nat n)) (seq 0 (Z.to_nat n))).
Proof.
  intros Hs Hn Hf.
  destruct (synthesize_csv_lines G HG seed (Z.to_nat n)) as [Hl _].
  destruct (to_csv_ok G (fst (Script.synthesize G seed (Z.to_nat n)))
              (Script.mk_world G (snd (Script.synthesize G seed (Z.to_nat n)))
                 (Script.fs G w)) Hf) as (w' & Hw & _ & Hout).
  exists w'. split; [rewrite (script_run G HG seed n w Hs Hn); exact Hw|].
  split; [exact Hout | exact Hl].
Qed.

(** C6, as the code has it: when nothing prevents the write, the file is
    the header line [transaction_id,...,total] followed by exactly [n] data
    lines, one per record in order, each a single line of the nine fields
    in that order separated by commas and unquoted; integers are written in
    decimal, the date as [YYYY-MM-DD], and [product_price] and [total] in
    the shortest decimal form that reads back as the same [float64]. *)
Theorem csv_layout (G : Generator) (seed n : Z) (w : Script.world G) :
  GeneratorLaws G -> 0 <= seed < 2 ^ 32 -> 0 <= n ->
  faults (Script.fs G w) !! Script.target = None ->
  exists df recs w',
    generates G seed n w df recs /\
    Py.len recs = n /\
    Script.script G seed n w = (Ok tt, w') /\
    output_file G w' = Some (Pandas.csv_text df) /\
    Pandas.csv_lines df = Pandas.header_line :: List.map Pandas.transaction_line recs /\
    Py.len (Pandas.csv_lines df) = 1 + n /\
    Forall single_line (Pandas.csv_lines df) /\
    Forall (fun r =>
              Datetime.is_iso_date (Datetime.isodate (Pandas.date r)) = true) recs.
Proof.
  intros HG Hs Hn Hf.
  destruct (synthesize_csv_lines G HG seed (Z.to_nat n)) as [Hl Hsl].
  destruct (to_csv_ok G (fst (Script.synthesize G seed (Z.to_nat n)))
              (Script.mk_world G (snd (Script.synthesize G seed (Z.to_nat n)))
                 (Script.fs G w)) Hf) as (w' & Hw & _ & Hout).
  eexists _, _, w'.
  split; [apply (run_generates G HG seed n w Hs Hn)|].
  split; [unfold Py.len; rewrite length_map, length_seq; lia|].
  split; [rewrite (script_run G HG seed n w Hs Hn); exact Hw|].
  split; [exact Hout|].
  split; [exact Hl|].
  split; [rewrite Hl; unfold Py.len; cbn [length];
          rewrite !length_map, length_seq; lia|].
  split; [exact Hsl|].
  apply Forall_forall. intros r Hr.
  apply list_elem_of_In, in_map_iff in Hr. destruct Hr as (i & <- & Hi).
  apply in_seq in Hi.
  apply (row_at_plain G HG seed (Z.to_nat n) i). lia.
Qed.

Lemma csv_layout_witness :
  GeneratorLaws (Tape.generator Tape.ordinary) /\ 0 <= 42 < 2 ^ 32 /\ 0 <= 2 /\
  faults (Script.fs _ (Tape.fresh Tape.ordinary)) !! Script.target = None /\
  exists df recs w',
    generates (Tape.generator Tape.ordinary) 42 2 (Tape.fresh Tape.ordinary) df recs /\
    Py.len recs = 2 /\
    Script.script (Tape.generator Tape.ordinary) 42 2 (Tape.fresh Tape.ordinary)
    = (Ok tt, w') /\
    output_file (Tape.generator Tape.ordinary) w' = Some (Pandas.csv_text df) /\
    Pandas.csv_lines df = Pandas.header_line :: List.map Pandas.transaction_line recs /\
    Py.len (Pandas.csv_lines df) = 1 + 2 /\
    Forall single_line (Pandas.csv_lines df) /\
    Forall (fun r =>
              Datetime.is_iso_date (Datetime.isodate (Pandas.date r)) = true) recs.
Proof.
  split; [apply tape_generator_laws|].
  split; [lia|]. split; [lia|]. split; [reflexivity|].
  apply (csv_layout (Tape.generator Tape.ordinary) 42 2 (Tape.fresh Tape.ordinary));
    [apply tape_generator_laws | lia | lia | reflexivity].
Defined.

(** Against C6 as stated: the price 5.1 is written [5.1], with one decimal
    digit, and the total 5.1 * 3 is written [15.299999999999999], with
    fifteen. *)
Lemma csv_floats_not_two_decimals :
  GeneratorLaws (Tape.generator Tape.ordinary) /\
  exists df r w',
    generates (Tape.generator Tape.ordinary) 42 1 (Tape.fresh Tape.ordinary) df [r] /\
    Script.script (Tape.generator Tape.ordinary) 42 1 (Tape.fresh Tape.ordinary)
    = (Ok tt, w') /\
    output_file (Tape.generator Tape.ordinary) w'
    = Some (Pandas.header_line ++ Pandas.transaction_line r) /\
    Pandas.transaction_line r
    = "1,1000,Electronics,5.1,3,2022-01-01,PayPal,Switzerland,15.299999999999999"
      ++ String Pandas.LF EmptyString /\
    F64.repr (Pandas.product_price r) = "5.1" /\
    Pandas.decimals (F64.repr (Pandas.product_price r)) = Some 1%nat /\
    F64.repr (Pandas.total r) = "15.299999999999999" /\
    Pandas.decimals (F64.repr (Pandas.total r)) = Some 15%nat.
Proof.
  split; [apply tape_generator_laws|].
  do 3 eexists. split.
  - eexists. split; vm_compute; reflexivity.
  - repeat split; vm_compute; reflexivity.
Qed.

(** ** Reproducibility *)

Section Determinism.
Import Script.
Context (G : Generator).

Lemma rd_ret {A : Type} (a : A) : rng_determined (ret G a).
Proof. intros w1 w2 H. cbn. auto. Qed.

Lemma rd_lift {A : Type} (r : result A) : rng_determined (lift G r).
Proof. intros w1 w2 H. cbn. auto. Qed.

Lemma rd_bind {A B : Type} (c : M G A) (k : A -> M G B) :
  rng_determined c -> (forall a, rng_determined (k a)) ->
  rng_determined (bind G c k).
Proof.
  intros Hc Hk w1 w2 H. unfold bind.
  destruct (Hc w1 w2 H) as (H1 & H2 & H3 & H4).
  destruct (c w1) as [[a1|e1] w1'], (c w2) as [[a2|e2] w2']; cbn [fst snd] in *;
    try discriminate H1.
  - injection H1 as <-.
    destruct (Hk a1 w1' w2' H2) as (K1 & K2 & K3 & K4).
    rewrite K3, K4. auto.
  - injection H1 as ->. auto.
Qed.

Lemma rd_for_each {A B : Type} (f : A -> M G B) (l : list A) :
  (forall x, rng_determined (f x)) -> rng_determined (for_each G f l).
Proof.
  intros Hf. induction l as [|x l IH]; cbn [for_each].
  - apply rd_ret.
  - apply rd_bind; [apply Hf|]. intros y.
    apply rd_bind; [exact IH|]. intros ys. apply rd_ret.
Qed.

Lemma rd_randint (lo hi : Z) : rng_determined (np_random_randint G lo hi).
Proof.
  intros w1 w2 H. unfold np_random_randint. rewrite H.
  destruct (hi <=? lo); [cbn; auto|].
  destruct (rng_randint G lo hi (rng G w2)). cbn. auto.
Qed.

Lemma rd_randint_size (lo hi n : Z) : rng_determined (np_random_randint_size G lo hi n).
Proof.
  intros w1 w2 H. unfold np_random_randint_size. rewrite H.
  destruct (n <? 0); [cbn; auto|].
  destruct (hi <=? lo); [cbn; auto|].
  destruct (rng_randint_size G lo hi (Z.to_nat n) (rng G w2)). cbn. auto.
Qed.

Lemma rd_choice (a : list string) (n : Z) : rng_determined (np_random_choice G a n).
Proof.
  intros w1 w2 H. unfold np_random_choice. rewrite H.
  destruct (n <? 0); [cbn; auto|].
  destruct a as [|x a], (Z.to_nat n) as [|k];
    try (cbn; auto; fail);
    match goal with |- context [rng_choice_size G ?a ?k ?s] =>
      destruct (rng_choice_size G a k s) end; cbn; auto.
Qed.

Lemma rd_uniform (lo hi : F64.float) (n : Z) :
  rng_determined (np_random_uniform G lo hi n).
Proof.
  intros w1 w2 H. unfold np_random_uniform. rewrite H.
  destruct (n <? 0); [cbn; auto|].
  destruct (rng_uniform_size G lo hi (Z.to_nat n) (rng G w2)). cbn. auto.
Qed.

Lemma rd_draw_date (d : Datetime.datetime) : rng_determined (draw_date G d).
Proof.
  unfold draw_date. apply rd_bind; [apply rd_randint|]. intros k.
  apply rd_bind; [apply rd_lift|]. intros td. apply rd_lift.
Qed.

Lemma seeded_bind {A : Type} (seed : Z) (k : unit -> M G A) (w1 w2 : world G) :
  rng_determined (k tt) ->
  fst (bind G (np_random_seed G seed) k w1) = fst (bind G (np_random_seed G seed) k w2)
  /\ fs G (snd (bind G (np_random_seed G seed) k w1)) = fs G w1
  /\ fs G (snd (bind G (np_random_seed G seed) k w2)) = fs G w2.
Proof.
  intros Hk. unfold bind, np_random_seed.
  destruct ((0 <=? seed) && (seed <? 2 ^ 32)); [|cbn; auto].
  destruct (Hk (mk_world G (rng_seed G seed) (fs G w1))
               (mk_world G (rng_seed G seed) (fs G w2)) eq_refl)
    as (H1 & _ & H3 & H4).
  cbn [fs] in H3, H4. auto.
Qed.

(** Whatever the generator state and the files before the run, building
    the frame gives the same result, and touches no file. *)
Lemma build_frame_seeded (seed n : Z) (w1 w2 : world G) :
  fst (build_frame G seed n w1) = fst (build_frame G seed n w2)
  /\ fs G (snd (build_frame G seed n w1)) = fs G w1
  /\ fs G (snd (build_frame G seed n w2)) = fs G w2.
Proof.
  unfold build_frame. apply seeded_bind.
  apply rd_bind; [apply rd_lift|]. intros sd.
  apply rd_bind; [apply rd_for_each; intros; apply rd_draw_date|]. intros dates.
  apply rd_bind; [apply rd_randint_size|]. intros c.
  apply rd_bind; [apply rd_choice|]. intros cat.
  apply rd_bind; [apply rd_uniform|]. intros u.
  apply rd_bind; [apply rd_randint_size|]. intros q.
  apply rd_bind; [apply rd_choice|]. intros pay.
  apply rd_bind; [apply rd_choice|]. intros ctry.
  apply rd_bind; [apply rd_lift|]. intros df.
  apply rd_bind; [apply rd_lift|]. intros price.
  apply rd_bind; [apply rd_lift|]. intros qty.
  apply rd_bind; [apply rd_lift|]. intros total.
  apply rd_ret.
Qed.

End Determinism.

(** C2: two runs with the same seed and row count give the same result
    whatever the generator state and the files they start from (the script
    seeds the generator before its first draw and overwrites its target):
    the frames built are the same, the runs end the same way, and when
    they succeed the two output files are the same text. *)
Theorem runs_are_reproducible (G : Generator) (seed n : Z) (w1 w2 : Script.world G) :
  faults (Script.fs G w1) !! Script.target = faults (Script.fs G w2) !! Script.target ->
  fst (Script.build_frame G seed n w1) = fst (Script.build_frame G seed n w2) /\
  fst (Script.script G seed n w1) = fst (Script.script G seed n w2) /\
  (fst (Script.script G seed n w1) = Ok tt ->
   exists text,
     output_file G (snd (Script.script G seed n w1)) = Some text /\
     output_file G (snd (Script.script G seed n w2)) = Some text).
Proof.
  intros Hf.
  destruct (build_frame_seeded G seed n w1 w2) as (Hr & F1 & F2).
  split; [exact Hr|].
  unfold Script.script, Script.bind.
  destruct (Script.build_frame G seed n w1) as [[df1|e1] w1'],
           (Script.build_frame G seed n w2) as [[df2|e2] w2'];
    cbn [fst snd] in *; try discriminate Hr.
  - injection Hr as <-.
    unfold Script.to_csv, write_file. rewrite F1, F2, <- Hf.
    destruct (faults (Script.fs G w1) !! Script.target) as [[| |room]|];
      cbn [fst snd]; try (split; [reflexivity|discriminate]).
    + destruct (_ <=? _)%nat; cbn [fst snd]; split; try reflexivity; try discriminate.
      intros _. eexists. unfold output_file. cbn [Script.fs files].
      rewrite !lookup_insert_eq. split; reflexivity.
    + split; [reflexivity|]. intros _. eexists. unfold output_file.
      cbn [Script.fs files]. rewrite !lookup_insert_eq. split; reflexivity.
  - injection Hr as ->. split; [reflexivity|]. discriminate.
Qed.

Lemma runs_are_reproducible_witness :
  faults (Script.fs _ (Tape.fresh Tape.ordinary)) !! Script.target
  = faults (Script.fs _ (Tape.used Tape.ordinary)) !! Script.target /\
  (fst (Script.build_frame _ 42 2 (Tape.fresh Tape.ordinary))
   = fst (Script.build_frame _ 42 2 (Tape.used Tape.ordinary)) /\
   fst (Script.script _ 42 2 (Tape.fresh Tape.ordinary))
   = fst (Script.script _ 42 2 (Tape.used Tape.ordinary)) /\
   (fst (Script.script _ 42 2 (Tape.fresh Tape.ordinary)) = Ok tt ->
    exists text,
      output_file _ (snd (Script.script _ 42 2 (Tape.fresh Tape.ordinary))) = Some text /\
      output_file _ (snd (Script.script _ 42 2 (Tape.used Tape.ordinary))) = Some text)).
Proof.
  split; [reflexivity|].
  apply (runs_are_reproducible (Tape.generator Tape.ordinary) 42 2
           (Tape.fresh Tape.ordinary) (Tape.used Tape.ordinary)).
  reflexivity.
Defined.

(** ** Failures *)

Section Failures.
Import Script.
Context (G : Generator).

(** A negative row count: the two comprehensions are empty, and the first
    sized draw raises. *)
Lemma script_negative (seed n : Z) (w : world G) :
  0 <= seed < 2 ^ 32 -> n < 0 ->
  script G seed n w = (Raise ValueError, mk_world G (rng_seed G seed) (fs G w)).
Proof.
  intros Hs Hn. unfold script.
  apply bind_raise. unfold build_frame.
  rewrite (bind_ok _ _ _ _ _ _ (seed_run G seed w Hs)).
  rewrite (bind_ok G (lift G (Datetime.make 2022 1 1)) _ _ _ start_date eq_refl).
  assert (Hr : Py.range n = []).
  { unfold Py.range, Py.range2. replace (Z.to_nat (n - 0)) with 0%nat by lia.
    reflexivity. }
  rewrite Hr. cbn [for_each].
  rewrite (bind_ok G (ret G []) _ _ _ [] eq_refl).
  apply bind_raise. unfold np_random_randint_size.
  destruct (Z.ltb_spec n 0); [reflexivity|lia].
Qed.

End Failures.

(** C3, as the code has it: the script checks no configuration.  With a
    row count of 0 it succeeds and writes a file holding the header line
    alone; with a negative row count the first sized draw raises NumPy's
    [ValueError] before anything is written, so the files stay as they
    were; the categorical sets are non-empty constants and the numeric
    ranges well-ordered constants. *)
Theorem no_configuration_check (G : Generator) (seed n : Z) (w : Script.world G) :
  GeneratorLaws G -> 0 <= seed < 2 ^ 32 -> n <= 0 ->
  faults (Script.fs G w) !! Script.target = None ->
  (n = 0 ->
   exists w', Script.script G seed n w = (Ok tt, w')
              /\ output_file G w' = Some Pandas.header_line) /\
  (n < 0 ->
   exists w', Script.script G seed n w = (Raise ValueError, w')
              /\ Script.fs G w' = Script.fs G w) /\
  Script.categories <> [] /\ Script.payment_methods <> [] /\ Script.countries <> [] /\
  1000 < 50000 /\ 1 < 10 /\ 0 < Script.window_days /\
  F64.ltb (F64.of_Z 5) (F64.of_Z 500) = true.
Proof.
  intros HG Hs Hn Hf. split; [|split].
  - intros ->.
    destruct (csv_layout_parts G HG seed 0 w Hs ltac:(lia) Hf) as (w' & Hw & Ho & Hl).
    exists w'. split; [exact Hw|]. rewrite Ho.
    unfold Pandas.csv_text. rewrite Hl. reflexivity.
  - intros Hneg. eexists. split; [apply script_negative; assumption|reflexivity].
  - repeat split; try discriminate; reflexivity.
Qed.

Lemma no_configuration_check_witness :
  GeneratorLaws (Tape.generator Tape.ordinary) /\ 0 <= 42 < 2 ^ 32 /\ -1 <= 0 /\
  faults (Script.fs _ (Tape.fresh Tape.ordinary)) !! Script.target = None /\
  ((-1 = 0 ->
    exists w', Script.script (Tape.generator Tape.ordinary) 42 (-1)
                 (Tape.fresh Tape.ordinary) = (Ok tt, w')
               /\ output_file _ w' = Some Pandas.header_line) /\
   (-1 < 0 ->
    exists w', Script.script (Tape.generator Tape.ordinary) 42 (-1)
                 (Tape.fresh Tape.ordinary) = (Raise ValueError, w')
               /\ Script.fs _ w' = Script.fs _ (Tape.fresh Tape.ordinary)) /\
   Script.categories <> [] /\ Script.payment_methods <> [] /\ Script.countries <> [] /\
   1000 < 50000 /\ 1 < 10 /\ 0 < Script.window_days /\
   F64.ltb (F64.of_Z 5) (F64.of_Z 500) = true).
Proof.
  split; [apply tape_generator_laws|].
  split; [lia|]. split; [lia|]. split; [reflexivity|].
  apply (no_configuration_check (Tape.generator Tape.ordinary) 42 (-1)
           (Tape.fresh Tape.ordinary));
    [apply tape_generator_laws | lia | lia | reflexivity].
Defined.

(** Against C3 as stated: a run with a row count of 0 does not fail; it
    creates the output file, holding the header line. *)
Lemma zero_rows_writes_header :
  GeneratorLaws (Tape.generator Tape.ordinary) /\
  output_file _ (Tape.fresh Tape.ordinary) = None /\
  exists w',
    Script.script (Tape.generator Tape.ordinary) 42 0 (Tape.fresh Tape.ordinary)
    = (Ok tt, w') /\
    output_file _ w' = Some Pandas.header_line.
Proof.
  split; [apply tape_generator_laws|]. split; [reflexivity|].
  eexists. split; vm_compute; reflexivity.
Qed.

(** C8, as the code has it: when the target cannot be written, the
    [OSError] of the single [to_csv] call reaches the caller.  A refused
    [open] (missing directory, no permission) leaves the files as they
    were; a device that runs out of room after [room] bytes leaves these
    first [room] bytes of the text at the target; with room enough the
    run succeeds. *)
Theorem write_failure_behaviour (G : Generator) (seed n : Z) (w : Script.world G)
    (fault : write_fault) :
  GeneratorLaws G -> 0 <= seed < 2 ^ 32 -> 0 <= n ->
  faults (Script.fs G w) !! Script.target = Some fault ->
  exists df recs w',
    generates G seed n w df recs /\
    match fault with
    | MissingDirectory | PermissionDenied =>
        Script.script G seed n w = (Raise OSError, w') /\
        Script.fs G w' = Script.fs G w
    | DiskFull room =>
        if (String.length (Pandas.csv_text df) <=? room)%nat
        then Script.script G seed n w = (Ok tt, w') /\
             output_file G w' = Some (Pandas.csv_text df)
        else Script.script G seed n w = (Raise OSError, w') /\
             output_file G w' = Some (substring 0 room (Pandas.csv_text df))
    end.
Proof.
  intros HG Hs Hn Hf.
  pose proof (script_run G HG seed n w Hs Hn) as Hrun.
  set (df := fst (Script.synthesize G seed (Z.to_nat n))) in *.
  set (w0 := Script.mk_world G (snd (Script.synthesize G seed (Z.to_nat n)))
               (Script.fs G w)) in *.
  assert (Hf0 : faults (Script.fs G w0) !! Script.target = Some fault) by exact Hf.
  exists df, (List.map (Script.row_at G seed (Z.to_nat n)) (seq 0 (Z.to_nat n))).
  destruct fault as [| |room].
  - exists w0. split; [apply (run_generates G HG seed n w Hs Hn)|].
    split; [|reflexivity].
    rewrite Hrun. apply (to_csv_refused G df w0 MissingDirectory); auto.
  - exists w0. split; [apply (run_generates G HG seed n w Hs Hn)|].
    split; [|reflexivity].
    rewrite Hrun. apply (to_csv_refused G df w0 PermissionDenied); auto.
  - destruct (Nat.leb_spec (String.length (Pandas.csv_text df)) room) as [Hr|Hr].
    + destruct (to_csv_enough_room G df w0 room Hf0 Hr) as (w' & Hw & Ho).
      exists w'. split; [apply (run_generates G HG seed n w Hs Hn)|].
      rewrite Hrun. split; assumption.
    + destruct (to_csv_disk_full G df w0 room Hf0 Hr) as (w' & Hw & Ho).
      exists w'. split; [apply (run_generates G HG seed n w Hs Hn)|].
      rewrite Hrun. split; assumption.
Qed.

Lemma write_failure_behaviour_witness :
  GeneratorLaws (Tape.generator Tape.ordinary) /\ 0 <= 42 < 2 ^ 32 /\ 0 <= 1 /\
  faults (Script.fs _ (Tape.short_of_room Tape.ordinary 10)) !! Script.target
  = Some (DiskFull 10) /\
  exists df recs w',
    generates (Tape.generator Tape.ordinary) 42 1
      (Tape.short_of_room Tape.ordinary 10) df recs /\
    if (String.length (Pandas.csv_text df) <=? 10)%nat
    then Script.script (Tape.generator Tape.ordinary) 42 1
           (Tape.short_of_room Tape.ordinary 10) = (Ok tt, w') /\
         output_file _ w' = Some (Pandas.csv_text df)
    else Script.script (Tape.generator Tape.ordinary) 42 1
           (Tape.short_of_room Tape.ordinary 10) = (Raise OSError, w') /\
         output_file _ w' = Some (substring 0 10 (Pandas.csv_text df)).
Proof.
  split; [apply tape_generator_laws|].
  split; [lia|]. split; [lia|]. split; [reflexivity|].
  apply (write_failure_behaviour (Tape.generator Tape.ordinary) 42 1
           (Tape.short_of_room Tape.ordinary 10) (DiskFull 10));
    [apply tape_generator_laws | lia | lia | reflexivity].
Defined.

(** Against C8 as stated: on a device with room for ten bytes the run
    fails with [OSError], and afterwards a file holding the first ten bytes
    of the header is at the target, where there was none before. *)
Lemma disk_full_leaves_partial_file :
  GeneratorLaws (Tape.generator Tape.ordinary) /\
  output_file _ (Tape.short_of_room Tape.ordinary 10) = None /\
  exists w',
    Script.script (Tape.generator Tape.ordinary) 42 1
      (Tape.short_of_room Tape.ordinary 10) = (Raise OSError, w') /\
    output_file _ w' = Some "transactio".
Proof.
  split; [apply tape_generator_laws|]. split; [reflexivity|].
  eexists. split; vm_compute; reflexivity.
Qed.

Section TotalRange.

Lemma round_aux_renorm (s : bool) (P E d : Z) (n : positive) :
  2 ^ (d - 1) <= P < 2 ^ d ->
  d = 53 + Zpos n ->
  -1074 <= E + Zpos n ->
  E + Zpos n + 1 <= 971 ->
  binary_round_aux F64.prec F64.emax s P E loc_Exact
  = F64.renorm s (F64.rne_div P (2 ^ Zpos n)) (E + Zpos n).
Proof. intros. rewrite (round_aux_normal s P E d n) by assumption. reflexivity. Qed.

(** A valid float between 5 and 500: its mantissa against those of 5 and
    500 in the two extreme binades. *)
Lemma price_shape_bounds (p : F64.float) :
  F64.valid p = true ->
  F64.leb (F64.of_Z 5) p = true -> F64.leb p (F64.of_Z 500) = true ->
  exists m e, p = S754_finite false m e /\ -50 <= e <= -44
              /\ 2 ^ 52 <= Zpos m < 2 ^ 53
              /\ (e = -50 -> 5629499534213120 <= Zpos m)
              /\ (e = -44 -> Zpos m <= 8796093022208000).
Proof.
  intros Hv Hlo Hhi.
  destruct (price_shape p Hv Hlo Hhi) as (m & e & -> & He & Hm).
  exists m, e. split; [reflexivity|]. split; [exact He|]. split; [exact Hm|].
  change (F64.of_Z 5) with (S754_finite false 5629499534213120 (-50)) in Hlo.
  change (F64.of_Z 500) with (S754_finite false 8796093022208000 (-44)) in Hhi.
  unfold F64.leb, SFleb in Hlo, Hhi.
  rewrite SFcompare_pos_finite in Hlo, Hhi.
  split; intros ->.
  - clear Hhi.
    destruct (Z.compare_spec (-50) (-50)) as [_|H|H]; [|lia|lia].
    destruct (Pos.compare_spec 5629499534213120 m) as [H|H|H];
      [subst m; apply Z.le_refl | | discriminate].
    apply Pos2Z.pos_lt_pos in H. apply Z.lt_le_incl, H.
  - clear Hlo.
    destruct (Z.compare_spec (-44) (-44)) as [_|H|H]; [|lia|lia].
    destruct (Pos.compare_spec m 8796093022208000) as [H|H|H];
      [subst m; apply Z.le_refl | | discriminate].
    apply Pos2Z.pos_lt_pos in H. apply Z.lt_le_incl, H.
Qed.

Ltac total_case M mq :=
  rewrite mul_finite_pos;
  let P := constr:(M * Zpos mq) in
  pose proof (rne_div_bounds P (2 ^ 52) ltac:(lia));
  pose proof (rne_div_bounds P (2 ^ 53) ltac:(lia));
  destruct (Z.lt_ge_cases P (2 ^ 105));
  [ rewrite (round_aux_renorm false P _ 105 52) by lia
  | rewrite (round_aux_renorm false P _ 106 53) by lia ];
  (split; [apply renorm_valid; lia
          |split; [apply leb_renorm_lo; lia | apply leb_renorm_hi; lia]]).

Lemma total_range_at (m : positive) (e q : Z) :
  -50 <= e <= -44 -> 2 ^ 52 <= Zpos m < 2 ^ 53 ->
  (e = -50 -> 5629499534213120 <= Zpos m) ->
  (e = -44 -> Zpos m <= 8796093022208000) ->
  1 <= q < 10 ->
  let t := F64.mul (S754_finite false m e) (F64.of_Z q) in
  F64.valid t = true /\
  F64.leb (S754_finite false 5629499534213120 (-50)) t = true /\
  F64.leb t (S754_finite false 4947802324992000 (-40)) = true.
Proof.
  intros He Hm Hlo Hhi Hq t. subst t.
  assert (Hqs : q = 1 \/ q = 2 \/ q = 3 \/ q = 4 \/ q = 5 \/ q = 6 \/ q = 7
                \/ q = 8 \/ q = 9) by lia.
  assert (Hes : e = -50 \/ e = -49 \/ e = -48 \/ e = -47 \/ e = -46 \/ e = -45
                \/ e = -44) by lia.
  set (M := Zpos m) in *.
  destruct Hqs as [->|[->|[->|[->|[->|[->|[->|[->| ->]]]]]]]];
    match goal with
    | |- context [F64.of_Z ?q] =>
        let f := eval vm_compute in (F64.of_Z q) in
        change (F64.of_Z q) with f
    end;
    destruct Hes as [->|[->|[->|[->|[->|[->| ->]]]]]];
    match goal with
    | |- context [F64.mul _ (S754_finite false ?mq _)] => total_case M mq
    end.
Qed.

End TotalRange.

Section RoundAgain.

(* after the price is in the form  F64.renorm false r e  *)
Ltac reround k r E :=
  unfold F64.renorm at 1;
  destruct (Z.ltb_spec r (2 ^ 53)); [|exfalso; lia];
  rewrite mul_finite_pos, Z2Pos.id by lia;
  pose proof (rne_div_bounds (r * 7036874417766400) (2 ^ 52) ltac:(lia));
  pose proof (rne_div_bounds (r * 7036874417766400) (2 ^ 53) ltac:(lia));
  destruct (Z.lt_ge_cases (r * 7036874417766400) (2 ^ 105));
  [ rewrite (round_aux_renorm false _ _ 105 52) by lia
  | rewrite (round_aux_renorm false _ _ 106 53) by lia ];
  unfold F64.renorm;
  match goal with
  | |- context [if ?r' <? 2 ^ 53 then _ else _] =>
      destruct (Z.ltb_spec r' (2 ^ 53));
      [ rewrite rint_finite_neg by lia; rewrite Z2Pos.id by lia
      | rewrite rint_finite_neg by lia;
        change (Z.pos (Z.to_pos (2 ^ 52))) with 4503599627370496 ]
  end;
  (eexists; split; [reflexivity|]);
  match goal with
  | |- F64.rne_div ?a (2 ^ ?t) = _ =>
      let t' := eval cbv in t in
      replace t with t' by reflexivity;
      pose proof (rne_div_bounds a (2 ^ t') ltac:(lia)); lia
  end.

Ltac fixed_case k d :=
  rewrite (of_Z_shape k d) by lia;
  let sh := eval cbv in (2 ^ (53 - d)) in
  let ex := eval cbv in (d - 53) in
  change (2 ^ (53 - d)) with sh; change (d - 53) with ex;
  rewrite div100_shape by (try rewrite Z2Pos.id by lia; lia);
  rewrite Z2Pos.id by lia;
  pose proof (rne_div_bounds (k * sh * 2 ^ 53) 7036874417766400 ltac:(lia));
  pose proof (rne_div_bounds (k * sh * 2 ^ 53) (2 * 7036874417766400) ltac:(lia));
  destruct (Z.ltb_spec (k * sh) 7036874417766400);
  match goal with
  | |- exists _, F64.rint (F64.mul (F64.renorm false ?r ?E) _) = _ /\ _ =>
      reround k r E
  end.

Lemma rint_cent (k : Z) :
  500 <= k <= 50000 ->
  F64.rint (F64.mul (F64.div (F64.of_Z k) (F64.of_Z 100)) (F64.of_Z 100))
  = F64.of_Z k.
Proof.
  intros Hk.
  enough (Hz : exists z,
             F64.rint (F64.mul (F64.div (F64.of_Z k) (F64.of_Z 100)) (F64.of_Z 100))
             = F64.of_Z z /\ z = k)
    by (destruct Hz as (z & Hz & ->); exact Hz).
  change (F64.of_Z 100) with (S754_finite false 7036874417766400 (-46)).
  assert (Hd : k < 2 ^ 9 \/ 2 ^ 9 <= k < 2 ^ 10 \/ 2 ^ 10 <= k < 2 ^ 11
               \/ 2 ^ 11 <= k < 2 ^ 12 \/ 2 ^ 12 <= k < 2 ^ 13
               \/ 2 ^ 13 <= k < 2 ^ 14 \/ 2 ^ 14 <= k < 2 ^ 15
               \/ 2 ^ 15 <= k) by lia.
  destruct Hd as [H|[H|[H|[H|[H|[H|[H|H]]]]]]].
  - fixed_case k 9.
  - fixed_case k 10.
  - fixed_case k 11.
  - fixed_case k 12.
  - fixed_case k 13.
  - fixed_case k 14.
  - fixed_case k 15.
  - fixed_case k 16.
Qed.

End RoundAgain.

(** A property of every row of the synthesized frame is a property of every
    record of a lawful run. *)
Lemma generated_rows_satisfy (G : Generator) (HG : GeneratorLaws G)
    (P : Pandas.transaction -> Prop) (seed n : Z) (w : Script.world G) :
  0 <= seed < 2 ^ 32 -> 0 <= n ->
  (forall i, (i < Z.to_nat n)%nat -> P (Script.row_at G seed (Z.to_nat n) i)) ->
  exists df recs,
    generates G seed n w df recs /\ Py.len recs = n /\ Forall P recs.
Proof.
  intros Hs Hn HP. do 2 eexists.
  split; [apply (run_generates G HG seed n w Hs Hn)|].
  split; [unfold Py.len; rewrite length_map, length_seq; lia|].
  apply Forall_forall. intros r Hr.
  apply list_elem_of_In, in_map_iff in Hr. destruct Hr as (i & <- & Hi).
  apply in_seq in Hi. apply HP. lia.
Qed.

(** X1: Every generated record's [total] is a finite float between 5 and 4500,
    both included. *)
Theorem totals_in_range (G : Generator) (seed n : Z) (w : Script.world G) :
  GeneratorLaws G -> 0 <= seed < 2 ^ 32 -> 0 <= n ->
  exists df recs,
    generates G seed n w df recs /\ Py.len recs = n /\
    Forall (fun r =>
              F64.valid (Pandas.total r) = true /\
              F64.leb (F64.of_Z 5) (Pandas.total r) = true /\
              F64.leb (Pandas.total r) (F64.of_Z 4500) = true) recs.
Proof.
  intros HG Hs Hn. apply (generated_rows_satisfy G HG); try assumption.
  intros i Hi.
  destruct (row_at_fields G HG seed (Z.to_nat n) i Hi)
    as (k & c & cat & u & q & pay & ctry & -> & _ & _ & _ & Hu & Hq & _).
  cbn [Pandas.total].
  destruct (price_props u Hu) as (Hv & H5 & H500 & _).
  destruct (price_shape_bounds _ Hv H5 H500) as (m & e & -> & He & Hm & Hlo & Hhi).
  apply (total_range_at m e q He Hm Hlo Hhi Hq).
Qed.

Lemma totals_in_range_witness :
  GeneratorLaws (Tape.generator Tape.near_top) /\ 0 <= 42 < 2 ^ 32 /\ 0 <= 1 /\
  exists df recs,
    generates (Tape.generator Tape.near_top) 42 1 (Tape.fresh Tape.near_top) df recs /\
    Py.len recs = 1 /\
    Forall (fun r =>
              F64.valid (Pandas.total r) = true /\
              F64.leb (F64.of_Z 5) (Pandas.total r) = true /\
              F64.leb (Pandas.total r) (F64.of_Z 4500) = true) recs.
Proof.
  split; [apply tape_generator_laws|].
  split; [lia|]. split; [lia|].
  apply (totals_in_range (Tape.generator Tape.near_top) 42 1 (Tape.fresh Tape.near_top));
    [apply tape_generator_laws | lia | lia].
Defined.

(** X2: Rounding a generated [product_price] to two decimals again gives the
    same float: [np.round(price, 2) == price] for every record. *)
Theorem prices_survive_rounding (G : Generator) (seed n : Z) (w : Script.world G) :
  GeneratorLaws G -> 0 <= seed < 2 ^ 32 -> 0 <= n ->
  exists df recs,
    generates G seed n w df recs /\ Py.len recs = n /\
    Forall (fun r =>
              F64.np_round (Pandas.product_price r) 2 = Pandas.product_price r) recs.
Proof.
  intros HG Hs Hn. apply (generated_rows_satisfy G HG); try assumption.
  intros i Hi.
  destruct (row_at_fields G HG seed (Z.to_nat n) i Hi)
    as (k & c & cat & u & q & pay & ctry & -> & _ & _ & _ & Hu & _).
  cbn [Pandas.product_price].
  destruct (np_round2_cents u Hu) as (z & Hz & ->).
  change (F64.np_round (F64.div (F64.of_Z z) (F64.of_Z 100)) 2)
    with (F64.div
            (F64.rint (F64.mul (F64.div (F64.of_Z z) (F64.of_Z 100)) (F64.of_Z 100)))
            (F64.of_Z 100)).
  rewrite rint_cent by exact Hz. reflexivity.
Qed.

Lemma prices_survive_rounding_witness :
  GeneratorLaws (Tape.generator Tape.ordinary) /\ 0 <= 42 < 2 ^ 32 /\ 0 <= 1 /\
  exists df recs,
    generates (Tape.generator Tape.ordinary) 42 1 (Tape.fresh Tape.ordinary) df recs /\
    Py.len recs = 1 /\
    Forall (fun r =>
              F64.np_round (Pandas.product_price r) 2 = Pandas.product_price r) recs.
Proof.
  split; [apply tape_generator_laws|].
  split; [lia|]. split; [lia|].
  apply (prices_survive_rounding (Tape.generator Tape.ordinary) 42 1
           (Tape.fresh Tape.ordinary));
    [apply tape_generator_laws | lia | lia].
Defined.

Lemma calendar_checked : forallb calendar_check (Py.range Script.window_days) = true.
Proof. vm_compute. reflexivity. Qed.

(** X3: Every generated date is a calendar day of 2022 or 2023, at midnight,
    no later than 2023-12-31 (the end of the window, 2024-01-01, is never
    drawn), and lies as many days after [start_date] as the offset drawn
    for it. *)
Theorem dates_cover_two_years (G : Generator) (seed n : Z) (w : Script.world G) :
  GeneratorLaws G -> 0 <= seed < 2 ^ 32 -> 0 <= n ->
  exists df recs,
    generates G seed n w df recs /\ Py.len recs = n /\
    Forall (fun r =>
              let d := Pandas.date r in
              (Datetime.year d = 2022 \/ Datetime.year d = 2023) /\
              1 <= Datetime.month d <= 12 /\
              1 <= Datetime.day d
                <= Datetime.days_in_month (Datetime.year d) (Datetime.month d) /\
              Datetime.is_midnight d = true /\
              Datetime.leb d last_date = true /\
              d <> Script.end_date /\
              0 <= Datetime.toordinal d - Datetime.toordinal Script.start_date
                < Script.window_days) recs.
Proof.
  intros HG Hs Hn. apply (generated_rows_satisfy G HG); try assumption.
  intros i Hi.
  destruct (row_at_fields G HG seed (Z.to_nat n) i Hi)
    as (k & c & cat & u & q & pay & ctry & -> & Hk & _).
  cbn [Pandas.date]. cbv zeta.
  destruct (date_at_props k Hk) as (_ & _ & _ & Hmid & _).
  pose proof calendar_checked as Hc. rewrite forallb_forall in Hc.
  specialize (Hc k ltac:(apply range2_In; exact Hk)).
  unfold calendar_check in Hc.
  repeat (apply andb_true_iff in Hc; destruct Hc as [Hc ?]).
  apply orb_true_iff in Hc.
  repeat match goal with
         | H : (_ <=? _) = true |- _ => apply Z.leb_le in H
         | H : (_ =? _) = true |- _ => apply Z.eqb_eq in H
         end.
  unfold in_range in Hk.
  repeat split; try assumption; try lia.
  intros E. rewrite E in H0. vm_compute in H0. discriminate H0.
Qed.

Lemma dates_cover_two_years_witness :
  GeneratorLaws (Tape.generator Tape.ordinary) /\ 0 <= 42 < 2 ^ 32 /\ 0 <= 2 /\
  exists df recs,
    generates (Tape.generator Tape.ordinary) 42 2 (Tape.fresh Tape.ordinary) df recs /\
    Py.len recs = 2 /\
    Forall (fun r =>
              let d := Pandas.date r in
              (Datetime.year d = 2022 \/ Datetime.year d = 2023) /\
              1 <= Datetime.month d <= 12 /\
              1 <= Datetime.day d
                <= Datetime.days_in_month (Datetime.year d) (Datetime.month d) /\
              Datetime.is_midnight d = true /\
              Datetime.leb d last_date = true /\
              d <> Script.end_date /\
              0 <= Datetime.toordinal d - Datetime.toordinal Script.start_date
                < Script.window_days) recs.
Proof.
  split; [apply tape_generator_laws|].
  split; [lia|]. split; [lia|].
  apply (dates_cover_two_years (Tape.generator Tape.ordinary) 42 2
           (Tape.fresh Tape.ordinary));
    [apply tape_generator_laws | lia | lia].
Defined.

(** ** Separators in the file *)

Lemma count_char_app (c : ascii) (a b : string) :
  count_char c (a ++ b) = (count_char c a + count_char c b)%nat.
Proof.
  induction a as [|x a IH].
  - reflexivity.
  - change (String x a ++ b) with (String x (a ++ b)).
    cbn [count_char]. rewrite IH. lia.
Qed.

Lemma count_char_plain (s : string) :
  Pandas.needs_quoting s = false ->
  count_char Pandas.COMMA s = 0%nat /\ count_char Pandas.DQUOTE s = 0%nat.
Proof.
  induction s as [|x s IH]; [split; reflexivity|].
  rewrite needs_quoting_cons. intros H.
  apply orb_false_iff in H. destruct H as [Hx Hs].
  destruct (IH Hs) as [IH1 IH2]. cbn [count_char]. rewrite IH1, IH2.
  unfold Pandas.special in Hx.
  repeat (apply orb_false_iff in Hx; destruct Hx as [Hx ?]).
  rewrite Hx. rewrite H1. split; reflexivity.
Qed.

Lemma count_char_concat (c : ascii) (l : list string) :
  Forall (fun s => count_char c s = 0%nat) l ->
  count_char c (String.concat (String Pandas.COMMA EmptyString) l)
  = (if Ascii.eqb Pandas.COMMA c then pred (length l) else 0)%nat.
Proof.
  induction 1 as [|x l Hx Hl IH]; [destruct (Ascii.eqb _ _); reflexivity|].
  destruct l as [|y l].
  - cbn [String.concat length pred]. rewrite Hx. destruct (Ascii.eqb _ _); reflexivity.
  - change (String.concat (String Pandas.COMMA EmptyString) (x :: y :: l))
      with (x ++ String Pandas.COMMA EmptyString
              ++ String.concat (String Pandas.COMMA EmptyString) (y :: l)).
    rewrite !count_char_app, IH, Hx. cbn [count_char length pred].
    destruct (Ascii.eqb Pandas.COMMA c); lia.
Qed.

Lemma transaction_line_separators (r : Pandas.transaction) :
  Pandas.needs_quoting (Pandas.product_category r) = false ->
  Pandas.needs_quoting (Datetime.isodate (Pandas.date r)) = false ->
  Pandas.needs_quoting (Pandas.payment_method r) = false ->
  Pandas.needs_quoting (Pandas.country r) = false ->
  count_char Pandas.COMMA (Pandas.transaction_line r) = 8%nat /\
  count_char Pandas.DQUOTE (Pandas.transaction_line r) = 0%nat.
Proof.
  intros H1 H2 H3 H4.
  pose proof (transaction_fields_plain r H1 H2 H3 H4) as Hp.
  unfold Pandas.transaction_line. rewrite !count_char_app.
  split.
  - rewrite (count_char_concat Pandas.COMMA).
    + reflexivity.
    + eapply Forall_impl; [exact Hp|]. intros s Hs. apply (count_char_plain s Hs).
  - rewrite (count_char_concat Pandas.DQUOTE).
    + reflexivity.
    + eapply Forall_impl; [exact Hp|]. intros s Hs. apply (count_char_plain s Hs).
Qed.

(** X4: Every line of the CSV text of a generated frame, the header included,
    holds exactly eight commas and no double quote: no field is quoted and
    no field holds a separator, so that splitting a line at its commas gives
    back the nine fields. *)
Theorem lines_have_eight_commas (G : Generator) (seed n : Z) (w : Script.world G) :
  GeneratorLaws G -> 0 <= seed < 2 ^ 32 -> 0 <= n ->
  exists df recs,
    generates G seed n w df recs /\
    Py.len (Pandas.csv_lines df) = 1 + n /\
    Forall (fun l => count_char Pandas.COMMA l = 8%nat /\
                     count_char Pandas.DQUOTE l = 0%nat)
           (Pandas.csv_lines df).
Proof.
  intros HG Hs Hn. do 2 eexists.
  split; [apply (run_generates G HG seed n w Hs Hn)|].
  destruct (synthesize_csv_lines G HG seed (Z.to_nat n)) as [Hl _].
  rewrite Hl. split.
  - unfold Py.len. cbn [length]. rewrite !length_map, length_seq. lia.
  - constructor; [split; reflexivity|].
    apply Forall_forall. intros l Hin.
    apply list_elem_of_In, in_map_iff in Hin. destruct Hin as (r & <- & Hr).
    apply in_map_iff in Hr. destruct Hr as (i & <- & Hi). apply in_seq in Hi.
    destruct (row_at_plain G HG seed (Z.to_nat n) i ltac:(lia))
      as (H1 & H2 & H3 & H4 & _).
    apply transaction_line_separators; assumption.
Qed.

Lemma lines_have_eight_commas_witness :
  GeneratorLaws (Tape.generator Tape.ordinary) /\ 0 <= 42 < 2 ^ 32 /\ 0 <= 2 /\
  exists df recs,
    generates (Tape.generator Tape.ordinary) 42 2 (Tape.fresh Tape.ordinary) df recs /\
    Py.len (Pandas.csv_lines df) = 1 + 2 /\
    Forall (fun l => count_char Pandas.COMMA l = 8%nat /\
                     count_char Pandas.DQUOTE l = 0%nat)
           (Pandas.csv_lines df).
Proof.
  split; [apply tape_generator_laws|].
  split; [lia|]. split; [lia|].
  apply (lines_have_eight_commas (Tape.generator Tape.ordinary) 42 2
           (Tape.fresh Tape.ordinary));
    [apply tape_generator_laws | lia | lia].
Defined.

(** ** What the script leaves alone *)

Lemma write_file_frame (path content : string) (fs : filesystem) :
  faults (snd (write_file path content fs)) = faults fs /\
  forall other, other <> path ->
    files (snd (write_file path content fs)) !! other = files fs !! other.
Proof.
  unfold write_file.
  destruct (faults fs !! path) as [[| |room]|]; cbn [snd files faults].
  - split; [reflexivity|]. intros; reflexivity.
  - split; [reflexivity|]. intros; reflexivity.
  - destruct (String.length content <=? room)%nat; cbn [snd files faults];
      (split; [reflexivity|]); intros other Ho;
      apply lookup_insert_ne; congruence.
  - split; [reflexivity|]. intros other Ho. apply lookup_insert_ne; congruence.
Qed.

(** X5: Whatever the generator does and however the run ends, the script
    changes no file other than [ecommerce_5m.csv]; and when building the
    frame raises, the exception is the script's outcome and the file system
    is left exactly as it was, the target included. *)
Theorem script_writes_only_target (G : Generator) (seed n : Z) (w : Script.world G) :
  (forall path, path <> Script.target ->
     files (Script.fs G (snd (Script.script G seed n w))) !! path
     = files (Script.fs G w) !! path) /\
  faults (Script.fs G (snd (Script.script G seed n w))) = faults (Script.fs G w) /\
  (forall e w1, Script.build_frame G seed n w = (Raise e, w1) ->
     fst (Script.script G seed n w) = Raise e /\
     Script.fs G (snd (Script.script G seed n w)) = Script.fs G w).
Proof.
  destruct (build_frame_seeded G seed n w w) as (_ & Hfs & _).
  unfold Script.script, Script.bind.
  destruct (Script.build_frame G seed n w) as [[df|e] w1] eqn:E; cbn [snd] in Hfs.
  - unfold Script.to_csv.
    pose proof (write_file_frame Script.target (Pandas.csv_text df) (Script.fs G w1))
      as [Hfa Hfi].
    destruct (write_file Script.target (Pandas.csv_text df) (Script.fs G w1))
      as [r fs'] eqn:Ew.
    cbn [snd fst Script.fs] in *. rewrite <- Hfs.
    split; [intros path Hp; apply Hfi; exact Hp|].
    split; [exact Hfa|]. intros e w2 [=].
  - cbn [snd fst]. rewrite Hfs.
    split; [reflexivity|]. split; [reflexivity|].
    intros e' w2 [= <- <-]. split; reflexivity.
Qed.

(** ** The palette: every request, both variants *)

Section PaletteMore.
Import Theme.

Lemma range_length (n : Z) : length (Py.range n) = Z.to_nat n.
Proof. unfold Py.range. rewrite range2_length. f_equal. lia. Qed.

Lemma range_take (m n : Z) :
  0 <= m <= n -> Py.range m = take (Z.to_nat m) (Py.range n).
Proof.
  intros H. unfold Py.range, Py.range2.
  rewrite <- fmap_take. f_equal.
  rewrite take_seq. f_equal. lia.
Qed.

(** X6: [get_palette] never raises: for every [n], negative ones included, and
    both settings of [include_accent] it returns [max(n, 0)] colours, each
    of them a hex colour string taken from [COLOR_CYCLE]. *)
Theorem get_palette_never_raises (n : Z) (include_accent : bool) :
  exists l,
    get_palette (Some n) include_accent = Ok l /\
    Py.len l = Z.max 0 n /\
    (n <= 0 -> l = []) /\
    Forall (fun c => In c COLOR_CYCLE /\ is_hex_color c = true) l.
Proof.
  destruct (get_palette_Some n include_accent) as (p & Hp & Hne & Hl).
  eexists. split; [exact Hl|].
  split; [unfold Py.len; rewrite length_map, range_length; lia|].
  split.
  - intros Hn. unfold Py.range, Py.range2.
    replace (Z.to_nat (n - 0)) with 0%nat by lia. reflexivity.
  - assert (Hall : Forall (fun c => In c COLOR_CYCLE /\ is_hex_color c = true) p).
    { destruct include_accent; injection Hp as <-.
      - repeat (constructor; [split; [vm_compute; tauto|reflexivity]|]). constructor.
      - repeat (constructor; [split; [vm_compute; tauto|reflexivity]|]). constructor. }
    assert (HL : 0 < Py.len p).
    { unfold Py.len. destruct p; [congruence|]. cbn [length]. lia. }
    apply Forall_forall. intros c Hc.
    apply list_elem_of_In, in_map_iff in Hc. destruct Hc as (i & <- & _).
    rewrite Forall_forall in Hall. apply Hall, list_elem_of_In, nth_In.
    pose proof (Z.mod_pos_bound i _ HL). unfold Py.len in *. lia.
Qed.

(** X7: The water palette cycles with period nine through [COLOR_CYCLE] without
    its entry 5: position [i] of [get_water_palette(n)] holds entry
    [i mod 9] of that list, so the dark green ['#4A7858'] never occurs in
    it, whatever [n]. *)
Theorem water_palette_cycle_of_nine (n : Z) :
  exists l,
    get_water_palette (Some n) = Ok l /\
    (forall i, 0 <= i < n ->
       l !! Z.to_nat i
       = (take 5 COLOR_CYCLE ++ drop 6 COLOR_CYCLE)%list !! Z.to_nat (i mod 9)) /\
    (forall i, 0 <= i -> i + 9 < n -> l !! Z.to_nat (i + 9) = l !! Z.to_nat i) /\
    ~ In "#4A7858" l.
Proof.
  destruct (get_palette_Some n false) as (p & Hp & _ & Hl).
  injection Hp as <-.
  eexists. split; [exact Hl|].
  set (water := (take 5 COLOR_CYCLE ++ drop 6 COLOR_CYCLE)%list).
  assert (Hpos : forall i, 0 <= i < n ->
            List.map (fun i => nth (Z.to_nat (i mod 9)) water EmptyString) (Py.range n)
              !! Z.to_nat i
            = water !! Z.to_nat (i mod 9)).
  { intros i Hi. rewrite list_lookup_fmap. unfold Py.range.
    rewrite range2_lookup by lia. cbn [fmap option_fmap option_map].
    replace (0 + Z.of_nat (Z.to_nat i)) with i by lia.
    pose proof (Z.mod_pos_bound i 9 ltac:(lia)) as Hb.
    symmetry. apply lookup_nth_lt. change (length water) with 9%nat. lia. }
  split; [exact Hpos|]. split.
  - intros i H0 H9. change
      (List.map (fun i => nth (Z.to_nat (i mod 9)) water EmptyString) (Py.range n)
         !! Z.to_nat (i + 9)
       = List.map (fun i => nth (Z.to_nat (i mod 9)) water EmptyString) (Py.range n)
         !! Z.to_nat i).
    rewrite !Hpos by lia.
    replace ((i + 9) mod 9) with (i mod 9); [reflexivity|].
    replace (i + 9) with (i + 1 * 9) by lia. rewrite Z.mod_add by lia. reflexivity.
  - intros Hin. apply in_map_iff in Hin. destruct Hin as (i & Hi & _).
    change (nth (Z.to_nat (i mod 9)) water EmptyString = "#4A7858") in Hi.
    pose proof (Z.mod_pos_bound i 9 ltac:(lia)) as Hb.
    assert (Hc : (Z.to_nat (i mod 9) < 9)%nat) by lia.
    revert Hi. generalize (Z.to_nat (i mod 9)) Hc. intros k Hk.
    do 9 (destruct k as [|k]; [vm_compute; intros Hi; discriminate Hi|]). lia.
Qed.

(** X8: A shorter palette is a prefix of a longer one: for [0 <= m <= n],
    [get_palette(m, a) == get_palette(n, a)[:m]]. *)
Theorem get_palette_prefix (m n : Z) (include_accent : bool) :
  0 <= m <= n ->
  exists l,
    get_palette (Some n) include_accent = Ok l /\
    get_palette (Some m) include_accent = Ok (take (Z.to_nat m) l).
Proof.
  intros Hmn.
  destruct (get_palette_Some n include_accent) as (p & Hp & _ & Hn).
  destruct (get_palette_Some m include_accent) as (p' & Hp' & _ & Hm).
  rewrite Hp in Hp'. injection Hp' as <-.
  eexists. split; [exact Hn|]. rewrite Hm.
  rewrite (range_take m n Hmn), <- fmap_take. reflexivity.
Qed.

Lemma get_palette_prefix_witness :
  0 <= 3 <= 12 /\
  exists l,
    get_palette (Some 12) false = Ok l /\
    get_palette (Some 3) false = Ok (take (Z.to_nat 3) l).
Proof.
  split; [lia | apply (get_palette_prefix 3 12 false); lia].
Defined.

End PaletteMore.

(** ** Styling existing figures *)

Section Figures.
Import Mpl Style.

Lemma evolves_ext (F F' : nat -> figure -> figure) (G G' : nat -> axes -> axes)
    (s s' : pyplot) :
  (forall i x, F i x = F' i x) -> (forall i x, G i x = G' i x) ->
  evolves F G s s' -> evolves F' G' s s'.
Proof.
  intros HF HG (Hr & Hf & Ha). split; [exact Hr|]. split.
  - intros f. rewrite Hf. apply HF.
  - intros a. rewrite Ha. apply HG.
Qed.

Lemma evolves_trans (F1 F2 : nat -> figure -> figure) (G1 G2 : nat -> axes -> axes)
    (s s1 s2 : pyplot) :
  evolves F1 G1 s s1 -> evolves F2 G2 s1 s2 ->
  evolves (fun i x => F2 i (F1 i x)) (fun i x => G2 i (G1 i x)) s s2.
Proof.
  intros (Hr1 & Hf1 & Ha1) (Hr2 & Hf2 & Ha2). split; [congruence|]. split.
  - intros f. rewrite Hf2, Hf1. reflexivity.
  - intros a. rewrite Ha2, Ha1. reflexivity.
Qed.

Lemma modify_axes_evolves (a : nat) (g : axes -> axes) (s : pyplot) :
  evolves keep (only a g) s (snd (modify_axes a g s)).
Proof.
  split; [reflexivity|]. split; [reflexivity|].
  intros b. cbn [modify_axes snd all_axes]. unfold upd, only.
  destruct (Nat.eqb_spec b a) as [->|_]; reflexivity.
Qed.

Lemma modify_figure_evolves (fig : nat) (g : figure -> figure) (s : pyplot) :
  evolves (only fig g) keep s (snd (modify_figure fig g s)).
Proof.
  split; [reflexivity|]. split; [|reflexivity].
  intros b. cbn [modify_figure snd figures]. unfold upd, only.
  destruct (Nat.eqb_spec b fig) as [->|_]; reflexivity.
Qed.

Lemma bind_color {A : Type} (key c : string) (k : string -> M A) (s : pyplot) :
  COLORS_getitem key = Ok c -> bind (color key) k s = k c s.
Proof. intros H. unfold bind, color, lift. rewrite H. reflexivity. Qed.

Lemma run_bind_ok {A B : Type} (c : M A) (k : A -> M B) (s s1 : pyplot) (a : A) :
  c s = (Ok a, s1) -> bind c k s = k a s1.
Proof. intros H. unfold bind. rewrite H. reflexivity. Qed.

Lemma run_bind_raise {A B : Type} (c : M A) (k : A -> M B) (s s1 : pyplot) (e : exn) :
  c s = (Raise e, s1) -> bind c k s = (Raise e, s1).
Proof. intros H. unfold bind. rewrite H. reflexivity. Qed.

Lemma bind_modify_axes {A : Type} (a : nat) (g : axes -> axes) (k : unit -> M A)
    (s : pyplot) :
  bind (modify_axes a g) k s = k tt (snd (modify_axes a g s)).
Proof. reflexivity. Qed.

Lemma bind_modify_figure {A : Type} (fig : nat) (g : figure -> figure)
    (k : unit -> M A) (s : pyplot) :
  bind (modify_figure fig g) k s = k tt (snd (modify_figure fig g s)).
Proof. reflexivity. Qed.

(** *** Recolouring the spines *)

Lemma map_spine_fold (c : string) (keys : list string) (sp : list (string * spine)) :
  fold_left (fun l k => map_spine k (recolor c) l) keys sp
  = List.map (fun kv => if existsb (String.eqb (fst kv)) keys
                        then (fst kv, recolor c (snd kv)) else kv) sp.
Proof.
  revert sp. induction keys as [|k keys IH]; intros sp; cbn [fold_left existsb].
  - symmetry. rewrite <- (map_id sp) at 2. apply map_ext. reflexivity.
  - rewrite IH. unfold map_spine. rewrite map_map. apply map_ext.
    intros [key v]. cbn [fst snd].
    destruct (String.eqb key k); cbn [fst snd orb].
    + destruct (existsb (String.eqb key) keys); reflexivity.
    + reflexivity.
Qed.

Lemma map_spine_all (c : string) (sp : list (string * spine)) :
  fold_left (fun l k => map_spine k (recolor c) l) (List.map fst sp) sp
  = List.map (fun kv => (fst kv, recolor c (snd kv))) sp.
Proof.
  rewrite map_spine_fold. apply map_ext_in. intros kv Hin.
  replace (existsb (String.eqb (fst kv)) (List.map fst sp)) with true; [reflexivity|].
  symmetry. apply existsb_exists. exists (fst kv).
  split; [apply in_map; exact Hin | apply String.eqb_refl].
Qed.

Lemma spine_loop_run (a : nat) (c : string) (keys : list string) (s : pyplot) :
  COLORS_getitem "fg_dim" = Ok c ->
  exists s',
    for_ keys (fun spine => bind (color "fg_dim") (fun c => Spine_set_color a spine c)) s
    = (Ok tt, s') /\
    evolves keep
      (only a (fun x =>
         with_spines (fold_left (fun l k => map_spine k (recolor c) l) keys (spines x)) x))
      s s'.
Proof.
  intros Hc. revert s. induction keys as [|k keys IH]; intros s.
  - exists s. split; [reflexivity|].
    split; [reflexivity|]. split; [reflexivity|].
    intros b. unfold only. destruct (Nat.eqb b a); [|reflexivity].
    destruct (all_axes s b); reflexivity.
  - cbn [for_].
    rewrite (run_bind_ok _ _ s (snd (Spine_set_color a k c s)) tt)
      by (rewrite (bind_color _ c) by exact Hc; reflexivity).
    destruct (IH (snd (Spine_set_color a k c s))) as (s' & Hrun & Hev).
    exists s'. split; [exact Hrun|].
    pose proof (modify_axes_evolves a
      (fun x => with_spines (map_spine k (recolor c) (spines x)) x) s) as H1.
    eapply evolves_ext; [| |exact (evolves_trans _ _ _ _ _ _ _ H1 Hev)].
    + reflexivity.
    + intros i x. unfold only. destruct (Nat.eqb i a); [|reflexivity].
      destruct x; reflexivity.
Qed.

Lemma repainted_idem (x : axes) : repainted (repainted x) = repainted x.
Proof.
  destruct x. unfold repainted. cbn. f_equal. rewrite map_map. reflexivity.
Qed.

(** One pass of the loop of [apply_to_figure]. *)
Lemma visit_run (a : nat) (s : pyplot) :
  exists s',
    (c <- color "bg_dark";
     _ <- Axes_set_facecolor a c;
     c <- color "ticks";
     _ <- Axes_tick_params a c;
     c <- color "label";
     _ <- xaxis_label_set_color a c;
     c <- color "label";
     _ <- yaxis_label_set_color a c;
     c <- color "title";
     _ <- title_set_color a c;
     keys <- spines_values a;
     for_ keys (fun spine =>
       c <- color "fg_dim";
       Spine_set_color a spine c)) s = (Ok tt, s') /\
    evolves keep (only a repainted) s s'.
Proof.
  rewrite (bind_color "bg_dark" "#2B2927") by reflexivity.
  unfold Axes_set_facecolor. rewrite bind_modify_axes.
  rewrite (bind_color "ticks" "#939293") by reflexivity.
  unfold Axes_tick_params. rewrite bind_modify_axes.
  rewrite (bind_color "label" "#D4A870") by reflexivity.
  unfold xaxis_label_set_color. rewrite bind_modify_axes.
  rewrite (bind_color "label" "#D4A870") by reflexivity.
  unfold yaxis_label_set_color. rewrite bind_modify_axes.
  rewrite (bind_color "title" "#CCA361") by reflexivity.
  unfold title_set_color. rewrite bind_modify_axes.
  match goal with
  | |- context [bind (spines_values a) _ ?s5] =>
      rewrite (run_bind_ok (spines_values a) _ s5 s5 (List.map fst (spines (all_axes s5 a))))
        by reflexivity;
      destruct (spine_loop_run a "#5B595C" (List.map fst (spines (all_axes s5 a))) s5
                  eq_refl) as (s' & Hrun & (Hr6 & Hf6 & Ha6))
  end.
  exists s'. split; [exact Hrun|].
  split; [rewrite Hr6; reflexivity|].
  split; [intros f; rewrite Hf6; reflexivity|].
  intros b. rewrite Ha6. unfold only.
  cbn [modify_axes snd all_axes]. unfold upd.
  destruct (Nat.eqb_spec b a) as [->|Hne].
  - rewrite !Nat.eqb_refl.
    destruct (all_axes s a) as [fc xt yt xl yl t lt rt sp lg fg].
    unfold repainted.
    cbn [with_spines with_title with_ylabel with_xlabel with_ticks
      with_facecolor spines title ylabel xlabel ax_facecolor xticks yticks
      left_title right_title ax_legend ax_figure].
    rewrite map_spine_all. reflexivity.
  - reflexivity.
Qed.



Lemma visits_run (l : list nat) (s : pyplot) :
  exists s',
    for_ l (fun a =>
      c <- color "bg_dark";
      _ <- Axes_set_facecolor a c;
      c <- color "ticks";
      _ <- Axes_tick_params a c;
      c <- color "label";
      _ <- xaxis_label_set_color a c;
      c <- color "label";
      _ <- yaxis_label_set_color a c;
      c <- color "title";
      _ <- title_set_color a c;
      keys <- spines_values a;
      for_ keys (fun spine =>
        c <- color "fg_dim";
        Spine_set_color a spine c)) s = (Ok tt, s') /\
    evolves keep
      (fun b x => if existsb (Nat.eqb b) l then repainted x else x) s s'.
Proof.
  revert s. induction l as [|a l IH]; intros s.
  - exists s. split; [reflexivity|]. repeat split; reflexivity.
  - cbn [for_].
    destruct (visit_run a s) as (s1 & Hrun1 & E1).
    rewrite (run_bind_ok _ _ s s1 tt Hrun1).
    destruct (IH s1) as (s' & Hrun & E).
    exists s'. split; [exact Hrun|].
    eapply evolves_ext; [| |exact (evolves_trans _ _ _ _ _ _ _ E1 E)].
    + reflexivity.
    + intros b x. cbn [existsb]. unfold only.
      destruct (Nat.eqb b a); cbn [orb].
      * destruct (existsb (Nat.eqb b) l); [apply repainted_idem|reflexivity].
      * reflexivity.
Qed.

Lemma existsb_eqb_In (b : nat) (l : list nat) :
  existsb (Nat.eqb b) l = true <-> In b l.
Proof.
  rewrite existsb_exists. split.
  - intros (x & Hx & E). apply Nat.eqb_eq in E. subst. exact Hx.
  - intros H. exists b. split; [exact H|apply Nat.eqb_refl].
Qed.

(** The whole of [apply_to_figure]. *)
Lemma apply_to_figure_run (fig : nat) (ax : ax_argument) (s : pyplot) :
  exists s',
    apply_to_figure fig ax s = (Ok tt, s') /\
    evolves (only fig (fun f => mk_figure "#2B2927" (fig_axes f)))
      (fun b x => if existsb (Nat.eqb b) (selected fig ax s) then repainted x else x)
      s s'.
Proof.
  unfold apply_to_figure.
  rewrite (bind_color "bg_dark" "#2B2927") by reflexivity.
  unfold Figure_set_facecolor. rewrite bind_modify_figure.
  pose proof (modify_figure_evolves fig (fun f => mk_figure "#2B2927" (fig_axes f)) s)
    as E0.
  set (s0 := snd (modify_figure fig _ s)) in *.
  assert (Hsel : exists l, l = selected fig ax s /\
            forall (k : list nat -> M unit),
              bind match ax with
                   | AxNone => Figure_get_axes fig
                   | AxList l => ret l
                   | AxOne a => ret [a]
                   end k s0 = k l s0).
  { eexists. split; [reflexivity|]. intros k. destruct ax; cbn [selected].
    - unfold bind, Figure_get_axes. subst s0.
      cbn [modify_figure snd figures]. unfold upd. rewrite Nat.eqb_refl. reflexivity.
    - reflexivity.
    - reflexivity. }
  destruct Hsel as (l & Hl & Hk). rewrite Hk. rewrite <- Hl.
  destruct (visits_run l s0) as (s' & Hrun & E).
  exists s'. split; [exact Hrun|].
  eapply evolves_ext; [| |exact (evolves_trans _ _ _ _ _ _ _ E0 E)];
    intros i y; reflexivity.
Qed.

Lemma selected_evolves (F : nat -> figure -> figure) (G : nat -> axes -> axes)
    (fig : nat) (ax : ax_argument) (s s' : pyplot) :
  (forall f y, fig_axes (F f y) = fig_axes y) ->
  evolves F G s s' -> selected fig ax s' = selected fig ax s.
Proof.
  intros HF (_ & Hf & _). destruct ax; cbn [selected]; [|reflexivity..].
  rewrite Hf. apply HF.
Qed.

(** X9: [apply_to_figure] never raises.  It gives the figure the dark
    background and leaves every other figure alone; each of the axes it was
    pointed at ([ax], the list [ax], or all axes of the figure when [ax] is
    [None]) comes out repainted (face, ticks, axis labels, centred title and
    all spines, whatever their keys), however often the list names it and
    whichever figure it belongs to; every other axes is left alone, and so
    are [rcParams]. *)
Theorem apply_to_figure_repaints (fig : nat) (ax : ax_argument) (s : pyplot) :
  exists s',
    apply_to_figure fig ax s = (Ok tt, s') /\
    rcParams s' = rcParams s /\
    figures s' fig = mk_figure "#2B2927" (fig_axes (figures s fig)) /\
    (forall f, f <> fig -> figures s' f = figures s f) /\
    (forall a, In a (selected fig ax s) -> all_axes s' a = repainted (all_axes s a)) /\
    (forall a, ~ In a (selected fig ax s) -> all_axes s' a = all_axes s a).
Proof.
  destruct (apply_to_figure_run fig ax s) as (s' & Hrun & Hr & Hf & Ha).
  exists s'. split; [exact Hrun|].
  split; [exact Hr|]. split; [|split; [|split]].
  - rewrite Hf. unfold only. rewrite Nat.eqb_refl. reflexivity.
  - intros f Hne. rewrite Hf. unfold only.
    rewrite (proj2 (Nat.eqb_neq f fig) Hne). reflexivity.
  - intros a Hin. rewrite Ha.
    rewrite (proj2 (existsb_eqb_In a _) Hin). reflexivity.
  - intros a Hin. rewrite Ha.
    destruct (existsb (Nat.eqb a) (selected fig ax s)) eqn:E1; [|reflexivity].
    apply existsb_eqb_In in E1. contradiction.
Qed.

(** X10: Styling a figure a second time changes nothing: after
    [apply_to_figure(fig, ax)], the same call leaves every figure and every
    axes as the first call left them. *)
Theorem apply_to_figure_idempotent (fig : nat) (ax : ax_argument) (s : pyplot) :
  exists s1 s2,
    apply_to_figure fig ax s = (Ok tt, s1) /\
    apply_to_figure fig ax s1 = (Ok tt, s2) /\
    rcParams s2 = rcParams s1 /\
    (forall f, figures s2 f = figures s1 f) /\
    (forall a, all_axes s2 a = all_axes s1 a).
Proof.
  destruct (apply_to_figure_run fig ax s) as (s1 & H1 & E1).
  destruct (apply_to_figure_run fig ax s1) as (s2 & H2 & E2).
  assert (Hsel : selected fig ax s1 = selected fig ax s).
  { eapply selected_evolves; [|exact E1].
    intros f y. unfold only. destruct (Nat.eqb f fig); reflexivity. }
  rewrite Hsel in E2.
  destruct E1 as (Hr1 & Hf1 & Ha1). destruct E2 as (Hr2 & Hf2 & Ha2).
  exists s1, s2. split; [exact H1|]. split; [exact H2|]. split; [exact Hr2|].
  split.
  - intros f. rewrite Hf2, Hf1. unfold only.
    destruct (Nat.eqb f fig); reflexivity.
  - intros a. rewrite Ha2, Ha1.
    destruct (existsb (Nat.eqb a) (selected fig ax s)); [|reflexivity].
    apply repainted_idem.
Qed.

End Figures.

(** ** Styling a DataFrame plot *)

Section DataFramePlot.
Import Mpl Style.

Lemma alter_fold_lookup {A : Type} (f : A -> A) (idxs : list nat) (l : list A) (j : nat) :
  (forall x, f (f x) = f x) ->
  fold_left (fun ts i => alter f i ts) idxs l !! j
  = if existsb (Nat.eqb j) idxs then f <$> l !! j else l !! j.
Proof.
  intros Hf. revert l. induction idxs as [|i idxs IH]; intros l; cbn [fold_left existsb].
  - reflexivity.
  - rewrite IH. destruct (Nat.eqb_spec j i) as [->|Hne]; cbn [orb].
    + rewrite list_lookup_alter_eq.
      destruct (existsb (Nat.eqb i) idxs); [|reflexivity].
      destruct (l !! i); cbn; [rewrite Hf|]; reflexivity.
    + rewrite list_lookup_alter_ne by congruence. reflexivity.
Qed.

Lemma alter_all {A : Type} (f : A -> A) (l : list A) :
  (forall x, f (f x) = f x) ->
  fold_left (fun ts i => alter f i ts) (seq 0 (length l)) l = List.map f l.
Proof.
  intros Hf. apply list_eq. intros j.
  rewrite (alter_fold_lookup f _ l j Hf).
  change (List.map f l) with (f <$> l). rewrite list_lookup_fmap.
  destruct (existsb (Nat.eqb j) (seq 0 (length l))) eqn:E; [reflexivity|].
  destruct (l !! j) eqn:El; [|reflexivity].
  apply lookup_lt_Some in El.
  assert (Ht : existsb (Nat.eqb j) (seq 0 (length l)) = true).
  { apply existsb_eqb_In. apply in_seq. lia. }
  congruence.
Qed.

Lemma legend_texts_run (ax : nat) (c : string) (idxs : list nat) (s : pyplot) :
  COLORS_getitem "fg_primary" = Ok c ->
  exists s',
    for_ idxs (fun text =>
      bind (color "fg_primary") (fun c => Legend_text_set_color ax text c)) s
    = (Ok tt, s') /\
    evolves keep
      (only ax (fun x =>
         with_legend
           (option_map (fun l =>
              mk_legend (frame_facecolor l) (frame_edgecolor l)
                (fold_left (fun ts i => alter (set_color c) i ts) idxs (legend_texts l)))
              (ax_legend x)) x))
      s s'.
Proof.
  intros Hc. revert s. induction idxs as [|i idxs IH]; intros s.
  - exists s. split; [reflexivity|].
    split; [reflexivity|]. split; [reflexivity|].
    intros b. unfold only. destruct (Nat.eqb b ax); [|reflexivity].
    destruct (all_axes s b) as [? ? ? ? ? ? ? ? ? [[]|] ?]; reflexivity.
  - cbn [for_].
    rewrite (run_bind_ok _ _ s (snd (Legend_text_set_color ax i c s)) tt)
      by (rewrite (bind_color _ c) by exact Hc; reflexivity).
    destruct (IH (snd (Legend_text_set_color ax i c s))) as (s' & Hrun & Hev).
    exists s'. split; [exact Hrun|].
    pose proof (modify_axes_evolves ax
      (fun x => with_legend
         (option_map (fun l => mk_legend (frame_facecolor l) (frame_edgecolor l)
                                 (alter (set_color c) i (legend_texts l)))
                     (ax_legend x)) x) s) as H1.
    eapply evolves_ext; [| |exact (evolves_trans _ _ _ _ _ _ _ H1 Hev)].
    + reflexivity.
    + intros j x. unfold only. destruct (Nat.eqb j ax); [|reflexivity].
      destruct x as [? ? ? ? ? ? ? ? ? [[]|] ?]; reflexivity.
Qed.

Lemma set_color_idem (c : string) (t : text) : set_color c (set_color c t) = set_color c t.
Proof. reflexivity. Qed.

(** Lines 320 to 325: the legend, if there is one. *)
Lemma legend_run (ax : nat) (s : pyplot) :
  exists s',
    match ax_legend (all_axes s ax) with
    | Some l =>
        c <- color "bg_elevated";
        _ <- Legend_frame_set_facecolor ax c;
        c <- color "fg_dim";
        _ <- Legend_frame_set_edgecolor ax c;
        for_ (Legend_get_texts l) (fun text =>
          c <- color "fg_primary";
          Legend_text_set_color ax text c)
    | None => ret tt
    end s = (Ok tt, s') /\
    evolves keep
      (only ax (fun x => with_legend (option_map restyled_legend (ax_legend x)) x)) s s'.
Proof.
  destruct (ax_legend (all_axes s ax)) as [l|] eqn:El.
  - rewrite (bind_color "bg_elevated" "#403E41") by reflexivity.
    unfold Legend_frame_set_facecolor, modify_legend. rewrite bind_modify_axes.
    rewrite (bind_color "fg_dim" "#5B595C") by reflexivity.
    unfold Legend_frame_set_edgecolor, modify_legend. rewrite bind_modify_axes.
    match goal with
    | |- context [for_ ?idxs _ ?s2] =>
        destruct (legend_texts_run ax "#C6CBCC" idxs s2 eq_refl)
          as (s' & Hrun & (Hr & Hf & Ha))
    end.
    exists s'. split; [exact Hrun|].
    split; [rewrite Hr; reflexivity|].
    split; [intros f; rewrite Hf; reflexivity|].
    intros b. rewrite Ha. unfold only.
    cbn [modify_axes snd all_axes]. unfold upd.
    destruct (Nat.eqb_spec b ax) as [->|Hne]; [|reflexivity].
    rewrite !Nat.eqb_refl.
    destruct (all_axes s ax) as [fc xt yt xl yl t lt rt sp lg fg].
    cbn [ax_legend] in El. subst lg.
    cbn [with_legend ax_legend option_map frame_facecolor frame_edgecolor legend_texts
         ax_facecolor xticks yticks xlabel ylabel title left_title right_title spines
         ax_figure].
    unfold restyled_legend, Legend_get_texts.
    rewrite (alter_all (set_color "#C6CBCC") (legend_texts l) (set_color_idem _)).
    reflexivity.
  - exists s. split; [reflexivity|].
    split; [reflexivity|]. split; [reflexivity|].
    intros b. unfold only. destruct (Nat.eqb_spec b ax) as [->|Hne]; [|reflexivity].
    rewrite El. destruct (all_axes s ax) as [? ? ? ? ? ? ? ? ? lg ?].
    cbn [ax_legend] in El. subst lg. reflexivity.
Qed.

Lemma has_spine_map (key k : string) (f : spine -> spine)
    (l : list (string * spine)) (x : axes) :
  has_spine (with_spines (map_spine k f l) x) key = has_spine (with_spines l x) key.
Proof.
  unfold has_spine. cbn [with_spines spines]. unfold map_spine.
  induction l as [|[k0 v] l IH]; [reflexivity|].
  cbn [List.map existsb fst snd]. rewrite IH.
  destruct (String.eqb k0 k); reflexivity.
Qed.

Lemma has_spine_same (key : string) (x : axes) :
  has_spine (with_spines (spines x) x) key = has_spine x key.
Proof. reflexivity. Qed.

Lemma map_spine_keys (k : string) (f : spine -> spine) (l : list (string * spine)) :
  List.map fst (map_spine k f l) = List.map fst l.
Proof.
  unfold map_spine. rewrite map_map. apply map_ext.
  intros [k0 v]. cbn [fst snd]. destruct (String.eqb k0 k); reflexivity.
Qed.

Lemma with_spines_same (x : axes) : with_spines (spines x) x = x.
Proof. destruct x; reflexivity. Qed.

Lemma with_spines_twice (l l' : list (string * spine)) (x : axes) :
  with_spines l (with_spines l' x) = with_spines l x.
Proof. reflexivity. Qed.

Lemma box_spines (l : list (string * spine)) :
  map_spine "left" (recolor "#5B595C")
    (map_spine "bottom" (recolor "#5B595C")
       (map_spine "right" (show false) (map_spine "top" (show false) l)))
  = List.map restyled_spine l.
Proof.
  unfold map_spine. rewrite !map_map. apply map_ext. intros [key v].
  unfold restyled_spine. cbn [fst snd].
  destruct (String.eqb_spec key "top") as [->|Ht]; [reflexivity|].
  cbn [fst snd orb].
  destruct (String.eqb_spec key "right") as [->|Hr]; [reflexivity|].
  cbn [fst snd orb].
  destruct (String.eqb_spec key "bottom") as [->|Hb]; [reflexivity|].
  cbn [fst snd orb].
  destruct (String.eqb_spec key "left") as [->|Hl]; reflexivity.
Qed.

(** Lines 328 to 331: the four spines. *)
Lemma box_run (ax : nat) (s : pyplot) :
  exists r s' sp',
    (top <- spines_getitem ax "top";
     _ <- Spine_set_visible ax top false;
     right <- spines_getitem ax "right";
     _ <- Spine_set_visible ax right false;
     bottom <- spines_getitem ax "bottom";
     c <- color "fg_dim";
     _ <- Spine_set_color ax bottom c;
     left <- spines_getitem ax "left";
     c <- color "fg_dim";
     Spine_set_color ax left c) s = (r, s') /\
    rcParams s' = rcParams s /\
    figures s' = figures s /\
    (forall b, b <> ax -> all_axes s' b = all_axes s b) /\
    all_axes s' ax = with_spines sp' (all_axes s ax) /\
    List.map fst sp' = List.map fst (spines (all_axes s ax)) /\
    (forallb (has_spine (all_axes s ax)) box_keys = true ->
       r = Ok tt /\ sp' = List.map restyled_spine (spines (all_axes s ax))) /\
    (forallb (has_spine (all_axes s ax)) box_keys = false -> r = Raise KeyError).
Proof.
  set (x := all_axes s ax).
  assert (Hother : forall g (b : nat), b <> ax ->
            upd ax g (all_axes s) b = all_axes s b).
  { intros g b Hb. unfold upd. rewrite (proj2 (Nat.eqb_neq b ax) Hb). reflexivity. }
  cbn [forallb box_keys].
  (* top *)
  unfold bind at 1. unfold spines_getitem at 1. fold (has_spine (all_axes s ax) "top").
  fold x. destruct (has_spine x "top") eqn:Ht; cbn [andb].
  2:{ exists (Raise KeyError), s, (spines x).
      split; [reflexivity|]. split; [reflexivity|]. split; [reflexivity|].
      split; [reflexivity|].
      split; [subst x; symmetry; apply with_spines_same|].
      split; [reflexivity|].
      split; [discriminate|reflexivity]. }
  unfold Spine_set_visible at 1. rewrite bind_modify_axes.
  set (s1 := snd (modify_axes ax _ s)).
  assert (X1 : all_axes s1 ax
               = with_spines (map_spine "top" (show false) (spines x)) x).
  { subst s1. cbn [modify_axes snd all_axes]. unfold upd. rewrite Nat.eqb_refl.
    reflexivity. }
  (* right *)
  unfold bind at 1. unfold spines_getitem at 1. fold (has_spine (all_axes s1 ax) "right").
  rewrite X1, !has_spine_map, has_spine_same.
  destruct (has_spine x "right") eqn:Hr; cbn [andb].
  2:{ exists (Raise KeyError), s1, (map_spine "top" (show false) (spines x)).
      split; [reflexivity|]. split; [reflexivity|]. split; [reflexivity|].
      split; [intros b Hb; apply Hother; exact Hb|].
      split; [exact X1|]. split; [apply map_spine_keys|].
      split; [discriminate|reflexivity]. }
  unfold Spine_set_visible at 1. rewrite bind_modify_axes.
  set (s2 := snd (modify_axes ax _ s1)).
  assert (X2 : all_axes s2 ax
               = with_spines (map_spine "right" (show false)
                                (map_spine "top" (show false) (spines x))) x).
  { subst s2. cbn [modify_axes snd all_axes]. unfold upd. rewrite Nat.eqb_refl.
    rewrite X1. reflexivity. }
  assert (O2 : forall b, b <> ax -> all_axes s2 b = all_axes s b).
  { intros b Hb. subst s2 s1. cbn [modify_axes snd all_axes].
    unfold upd. rewrite (proj2 (Nat.eqb_neq b ax) Hb). reflexivity. }
  (* bottom *)
  unfold bind at 1. unfold spines_getitem at 1. fold (has_spine (all_axes s2 ax) "bottom").
  rewrite X2, !has_spine_map, has_spine_same.
  destruct (has_spine x "bottom") eqn:Hb; cbn [andb].
  2:{ exists (Raise KeyError), s2, (map_spine "right" (show false)
                                      (map_spine "top" (show false) (spines x))).
      split; [reflexivity|]. split; [reflexivity|]. split; [reflexivity|].
      split; [exact O2|].
      split; [exact X2|]. split; [rewrite !map_spine_keys; reflexivity|].
      split; [discriminate|reflexivity]. }
  rewrite (bind_color "fg_dim" "#5B595C") by reflexivity.
  unfold Spine_set_color at 1. rewrite bind_modify_axes.
  set (s3 := snd (modify_axes ax _ s2)).
  assert (X3 : all_axes s3 ax
               = with_spines (map_spine "bottom" (recolor "#5B595C")
                                (map_spine "right" (show false)
                                   (map_spine "top" (show false) (spines x)))) x).
  { subst s3. cbn [modify_axes snd all_axes]. unfold upd. rewrite Nat.eqb_refl.
    rewrite X2. reflexivity. }
  assert (O3 : forall b, b <> ax -> all_axes s3 b = all_axes s b).
  { intros b Hb'. rewrite <- (O2 b Hb'). subst s3. cbn [modify_axes snd all_axes].
    unfold upd. rewrite (proj2 (Nat.eqb_neq b ax) Hb'). reflexivity. }
  (* left *)
  unfold bind at 1. unfold spines_getitem at 1. fold (has_spine (all_axes s3 ax) "left").
  rewrite X3, !has_spine_map, has_spine_same.
  destruct (has_spine x "left") eqn:Hl; cbn [andb].
  2:{ exists (Raise KeyError), s3, (map_spine "bottom" (recolor "#5B595C")
                                      (map_spine "right" (show false)
                                         (map_spine "top" (show false) (spines x)))).
      split; [reflexivity|]. split; [reflexivity|]. split; [reflexivity|].
      split; [exact O3|].
      split; [exact X3|]. split; [rewrite !map_spine_keys; reflexivity|].
      split; [discriminate|reflexivity]. }
  rewrite (bind_color "fg_dim" "#5B595C") by reflexivity.
  unfold Spine_set_color.
  set (s4 := snd (modify_axes ax
                    (fun y => with_spines (map_spine "left" (recolor "#5B595C") (spines y)) y)
                    s3)).
  exists (Ok tt), s4, (List.map restyled_spine (spines x)).
  split; [reflexivity|]. split; [reflexivity|]. split; [reflexivity|].
  split.
  { intros b Hb'. rewrite <- (O3 b Hb'). subst s4. cbn [modify_axes snd all_axes].
    unfold upd. rewrite (proj2 (Nat.eqb_neq b ax) Hb'). reflexivity. }
  split.
  { subst s4. cbn [modify_axes snd all_axes]. unfold upd. rewrite Nat.eqb_refl.
    rewrite X3. cbn [with_spines spines]. rewrite box_spines. reflexivity. }
  split.
  { rewrite <- box_spines, !map_spine_keys. reflexivity. }
  split; [intros _; split; reflexivity | discriminate].
Qed.

Lemma put_title_valid (loc : rcvalue) (t : text) (x : axes) :
  valid_location loc = true -> exists y, put_title loc t x = Ok y.
Proof.
  destruct loc as [l| | | | |]; try discriminate. cbn [valid_location put_title].
  destruct (String.eqb l "center"); [eexists; reflexivity|].
  destruct (String.eqb l "left"); [eexists; reflexivity|].
  destruct (String.eqb l "right"); [eexists; reflexivity|discriminate].
Qed.

Lemma put_title_spines (loc : rcvalue) (t : text) (x y : axes) :
  put_title loc t x = Ok y ->
  spines y = spines x /\ ax_figure y = ax_figure x /\ ax_legend y = ax_legend x.
Proof.
  destruct loc as [l| | | | |]; try discriminate. cbn [put_title].
  destruct (String.eqb l "center"); [intros [= <-]; repeat split|].
  destruct (String.eqb l "left"); [intros [= <-]; repeat split|].
  destruct (String.eqb l "right"); [intros [= <-]; repeat split|discriminate].
Qed.

Lemma restyled_spines (r : rc) (title : option string) (x : axes) :
  spines (restyled r title x) = spines x /\
  ax_figure (restyled r title x) = ax_figure x.
Proof.
  unfold restyled. cbv zeta. cbn [with_legend spines ax_figure].
  destruct (truthy title); [|split; reflexivity].
  match goal with
  | |- context [put_title ?l ?t ?y] => destruct (put_title l t y) as [z|e] eqn:E
  end; [|split; reflexivity].
  apply put_title_spines in E. destruct E as (E1 & E2 & _).
  rewrite E1, E2. split; reflexivity.
Qed.

(** The whole of [style_dataframe_plot], whichever way it ends. *)
Lemma style_dataframe_plot_run (ax : nat) (title : option string) (s : pyplot) :
  title_settable (rcParams s) title = true ->
  exists r s' sp',
    style_dataframe_plot ax title s = (r, s') /\
    rcParams s' = rcParams s /\
    (forall f, figures s' f
               = if Nat.eqb f (ax_figure (all_axes s ax))
                 then mk_figure "#2B2927" (fig_axes (figures s f))
                 else figures s f) /\
    (forall b, b <> ax -> all_axes s' b = all_axes s b) /\
    all_axes s' ax = with_spines sp' (restyled (rcParams s) title (all_axes s ax)) /\
    List.map fst sp' = List.map fst (spines (all_axes s ax)) /\
    (forallb (has_spine (all_axes s ax)) box_keys = true ->
       r = Ok tt /\ sp' = List.map restyled_spine (spines (all_axes s ax))) /\
    (forallb (has_spine (all_axes s ax)) box_keys = false -> r = Raise KeyError).
Proof.
  intros Hts. unfold style_dataframe_plot.
  rewrite (bind_color "bg_dark" "#2B2927") by reflexivity.
  unfold Axes_set_facecolor. rewrite bind_modify_axes.
  match goal with
  | |- context [bind (Axes_figure ax) _ ?s1] =>
      rewrite (run_bind_ok (Axes_figure ax) _ s1 s1 (ax_figure (all_axes s1 ax)))
        by reflexivity
  end.
  rewrite (bind_color "bg_dark" "#2B2927") by reflexivity.
  unfold Figure_set_facecolor. rewrite bind_modify_figure.
  rewrite (bind_color "ticks" "#939293") by reflexivity.
  unfold Axes_tick_params. rewrite bind_modify_axes.
  rewrite (bind_color "label" "#D4A870") by reflexivity.
  unfold xaxis_label_set_color. rewrite bind_modify_axes.
  rewrite (bind_color "label" "#D4A870") by reflexivity.
  unfold yaxis_label_set_color. rewrite bind_modify_axes.
  match goal with
  | |- context [bind (if truthy title then _ else _) _ ?s4] => set (sA := s4)
  end.
  assert (RA : rcParams sA = rcParams s) by reflexivity.
  assert (FA : forall f, figures sA f
                 = if Nat.eqb f (ax_figure (all_axes s ax))
                   then mk_figure "#2B2927" (fig_axes (figures s f))
                   else figures s f).
  { intros f. subst sA. cbn [modify_axes modify_figure snd all_axes figures].
    unfold upd at 1. unfold upd at 1. rewrite Nat.eqb_refl.
    cbn [with_facecolor ax_figure].
    destruct (Nat.eqb_spec f (ax_figure (all_axes s ax))) as [->|Hne].
    - unfold upd. rewrite Nat.eqb_refl. cbn [with_facecolor ax_figure]. reflexivity.
    - reflexivity. }
  assert (OA : forall b, b <> ax -> all_axes sA b = all_axes s b).
  { intros b Hb. subst sA. cbn [modify_axes modify_figure snd all_axes].
    unfold upd. rewrite (proj2 (Nat.eqb_neq b ax) Hb). reflexivity. }
  assert (XA : all_axes sA ax
               = with_ylabel (set_color "#D4A870" (ylabel (all_axes s ax)))
                   (with_xlabel (set_color "#D4A870" (xlabel (all_axes s ax)))
                      (with_ticks (mk_ticks "#939293" "#939293")
                                  (mk_ticks "#939293" "#939293")
                         (with_facecolor "#2B2927" (all_axes s ax))))).
  { subst sA. cbn [modify_axes modify_figure snd all_axes].
    unfold upd. rewrite !Nat.eqb_refl. reflexivity. }
  clearbody sA.
  (* the title *)
  assert (HB : exists sB,
            (if truthy title
             then c <- color "title";
                  Axes_set_title ax (default EmptyString title) c "bold"
             else ret tt) sA = (Ok tt, sB) /\
            rcParams sB = rcParams s /\ figures sB = figures sA /\
            (forall b, b <> ax -> all_axes sB b = all_axes s b) /\
            with_legend (option_map restyled_legend (ax_legend (all_axes sB ax)))
                        (all_axes sB ax)
            = restyled (rcParams s) title (all_axes s ax)).
  { unfold restyled. cbv zeta.
    match goal with
    | |- context [truthy title] => idtac
    end.
    match goal with
    | |- context [with_ylabel ?t ?y] =>
        replace (with_ylabel t y) with (all_axes sA ax) by (rewrite XA; reflexivity)
    end.
    unfold title_settable in Hts.
    destruct (truthy title) eqn:Htr.
    - cbn [negb orb] in Hts. rewrite <- RA in Hts |- *.
      rewrite (bind_color "title" "#CCA361") by reflexivity.
      unfold Axes_set_title.
      destruct (put_title_valid _ (mk_text (default EmptyString title) "#CCA361" "bold")
                  (all_axes sA ax) Hts) as (y & Hy).
      rewrite Hy. eexists. split; [reflexivity|].
      cbn [modify_axes snd rcParams figures all_axes].
      split; [reflexivity|]. split; [reflexivity|]. split.
      + intros b Hb. unfold upd. rewrite (proj2 (Nat.eqb_neq b ax) Hb). apply OA, Hb.
      + unfold upd. rewrite Nat.eqb_refl. reflexivity.
    - exists sA. split; [reflexivity|]. split; [exact RA|]. split; [reflexivity|].
      split; [exact OA|reflexivity]. }
  destruct HB as (sB & HrunB & RB & FB & OB & XB).
  rewrite (run_bind_ok _ _ sA sB tt HrunB).
  (* the legend *)
  rewrite (run_bind_ok (Axes_get_legend ax) _ sB sB (ax_legend (all_axes sB ax)))
    by reflexivity.
  destruct (legend_run ax sB) as (sC & HrunC & (RC & FC & XC)).
  rewrite (run_bind_ok _ _ sB sC tt HrunC).
  (* the spines *)
  destruct (box_run ax sC) as (r & s' & sp' & Hrun & R' & F' & O' & X' & K' & Hok & Hko).
  assert (XC' : all_axes sC ax = restyled (rcParams s) title (all_axes s ax)).
  { rewrite XC. unfold only. rewrite Nat.eqb_refl. exact XB. }
  destruct (restyled_spines (rcParams s) title (all_axes s ax)) as [Hsp Hfg].
  assert (Hhas : forall key, has_spine (all_axes sC ax) key = has_spine (all_axes s ax) key).
  { intros key. unfold has_spine. rewrite XC', Hsp. reflexivity. }
  assert (Hbox : forallb (has_spine (all_axes sC ax)) box_keys
                 = forallb (has_spine (all_axes s ax)) box_keys).
  { cbn [forallb box_keys]. rewrite !Hhas. reflexivity. }
  exists r, s', sp'. split; [exact Hrun|].
  split; [congruence|].
  split.
  { intros f. rewrite F'. rewrite FC. unfold keep. rewrite FB. apply FA. }
  split.
  { intros b Hb. rewrite (O' b Hb), XC. unfold only.
    rewrite (proj2 (Nat.eqb_neq b ax) Hb). apply OB, Hb. }
  split; [rewrite X', XC'; reflexivity|].
  split; [rewrite K', XC', Hsp; reflexivity|].
  rewrite Hbox in Hok, Hko. rewrite XC', Hsp in Hok.
  split; assumption.
Qed.



(** X11: On axes that have the spines [top], [right], [bottom] and [left],
    [style_dataframe_plot] returns normally.  The axes come out with the
    dark face, the tick and label colours, the title (if one was given) in
    gold and bold at the location [rcParams] name, the legend (if there is
    one) restyled with every text recoloured, the top and right spines
    hidden and the bottom and left spines recoloured; spines stored under
    other keys are as they were.  The figure of the axes gets the dark face;
    no other figure, no other axes and no [rcParams] entry changes. *)
Theorem style_dataframe_plot_restyles (ax : nat) (title : option string) (s : pyplot) :
  title_settable (rcParams s) title = true ->
  forallb (has_spine (all_axes s ax)) box_keys = true ->
  exists s',
    style_dataframe_plot ax title s = (Ok tt, s') /\
    rcParams s' = rcParams s /\
    figures s' (ax_figure (all_axes s ax))
    = mk_figure "#2B2927" (fig_axes (figures s (ax_figure (all_axes s ax)))) /\
    (forall f, f <> ax_figure (all_axes s ax) -> figures s' f = figures s f) /\
    (forall b, b <> ax -> all_axes s' b = all_axes s b) /\
    all_axes s' ax
    = with_spines (List.map restyled_spine (spines (all_axes s ax)))
        (restyled (rcParams s) title (all_axes s ax)).
Proof.
  intros Hts Hbox.
  destruct (style_dataframe_plot_run ax title s Hts)
    as (r & s' & sp' & Hrun & Hr & Hf & Ho & Hx & _ & Hok & _).
  destruct (Hok Hbox) as [-> ->].
  exists s'. split; [exact Hrun|]. split; [exact Hr|].
  split; [rewrite Hf, Nat.eqb_refl; reflexivity|].
  split; [intros f Hne; rewrite Hf, (proj2 (Nat.eqb_neq _ _) Hne); reflexivity|].
  split; [exact Ho | exact Hx].
Qed.

Lemma style_dataframe_plot_restyles_witness :
  title_settable (rcParams Sample.state) (Some "Revenue 2023") = true /\
  forallb (has_spine (all_axes Sample.state 0)) box_keys = true /\
  exists s',
    style_dataframe_plot 0 (Some "Revenue 2023") Sample.state = (Ok tt, s') /\
    rcParams s' = rcParams Sample.state /\
    figures s' (ax_figure (all_axes Sample.state 0))
    = mk_figure "#2B2927"
        (fig_axes (figures Sample.state (ax_figure (all_axes Sample.state 0)))) /\
    (forall f, f <> ax_figure (all_axes Sample.state 0) ->
       figures s' f = figures Sample.state f) /\
    (forall b, b <> 0%nat -> all_axes s' b = all_axes Sample.state b) /\
    all_axes s' 0
    = with_spines (List.map restyled_spine (spines (all_axes Sample.state 0)))
        (restyled (rcParams Sample.state) (Some "Revenue 2023")
           (all_axes Sample.state 0)).
Proof.
  split; [reflexivity|]. split; [reflexivity|].
  apply (style_dataframe_plot_restyles 0 (Some "Revenue 2023") Sample.state);
    reflexivity.
Defined.

(** X12: On axes that lack one of the spines [top], [right], [bottom], [left]
    (polar axes, for one), [style_dataframe_plot] raises [KeyError], and
    what it did before it reached the spines stays done: the axes are
    restyled but for their spines, whose keys are the same as before, and
    the figure has the dark face. *)
Theorem style_dataframe_plot_needs_box (ax : nat) (title : option string) (s : pyplot) :
  title_settable (rcParams s) title = true ->
  forallb (has_spine (all_axes s ax)) box_keys = false ->
  exists s' sp',
    style_dataframe_plot ax title s = (Raise KeyError, s') /\
    all_axes s' ax = with_spines sp' (restyled (rcParams s) title (all_axes s ax)) /\
    List.map fst sp' = List.map fst (spines (all_axes s ax)) /\
    ax_facecolor (all_axes s' ax) = "#2B2927" /\
    fig_facecolor (figures s' (ax_figure (all_axes s ax))) = "#2B2927".
Proof.
  intros Hts Hbox.
  destruct (style_dataframe_plot_run ax title s Hts)
    as (r & s' & sp' & Hrun & Hr & Hf & Ho & Hx & Hk & _ & Hko).
  rewrite (Hko Hbox) in Hrun.
  exists s', sp'. split; [exact Hrun|]. split; [exact Hx|]. split; [exact Hk|].
  split.
  - rewrite Hx. unfold restyled. cbv zeta. cbn [with_spines with_legend ax_facecolor].
    destruct (truthy title); [|reflexivity].
    match goal with
    | |- context [put_title ?l ?t ?y] => destruct (put_title l t y) as [z|e] eqn:E
    end; [|reflexivity].
    revert E. unfold put_title.
    destruct (rcParams s "axes.titlelocation") as [l| | | | |]; try discriminate.
    destruct (String.eqb l "center"); [intros [= <-]; reflexivity|].
    destruct (String.eqb l "left"); [intros [= <-]; reflexivity|].
    destruct (String.eqb l "right"); [intros [= <-]; reflexivity|discriminate].
  - rewrite Hf, Nat.eqb_refl. reflexivity.
Qed.

Lemma style_dataframe_plot_needs_box_witness :
  title_settable (rcParams Sample.state) None = true /\
  forallb (has_spine (all_axes Sample.state 2)) box_keys = false /\
  exists s' sp',
    style_dataframe_plot 2 None Sample.state = (Raise KeyError, s') /\
    all_axes s' 2
    = with_spines sp' (restyled (rcParams Sample.state) None (all_axes Sample.state 2)) /\
    List.map fst sp' = List.map fst (spines (all_axes Sample.state 2)) /\
    ax_facecolor (all_axes s' 2) = "#2B2927" /\
    fig_facecolor (figures s' (ax_figure (all_axes Sample.state 2))) = "#2B2927".
Proof.
  split; [reflexivity|]. split; [reflexivity|].
  apply (style_dataframe_plot_needs_box 2 None Sample.state); reflexivity.
Defined.

(** X13: Without a title, and an empty string counts as none,
    [style_dataframe_plot] leaves the three titles of the axes exactly as
    they were, text, colour and weight, whether it goes on to return or to
    raise. *)
Theorem style_dataframe_plot_without_title (ax : nat) (title : option string)
    (s : pyplot) :
  truthy title = false ->
  Mpl.title (all_axes (snd (style_dataframe_plot ax title s)) ax)
  = Mpl.title (all_axes s ax) /\
  left_title (all_axes (snd (style_dataframe_plot ax title s)) ax)
  = left_title (all_axes s ax) /\
  right_title (all_axes (snd (style_dataframe_plot ax title s)) ax)
  = right_title (all_axes s ax).
Proof.
  intros Htr.
  assert (Hts : title_settable (rcParams s) title = true).
  { unfold title_settable. rewrite Htr. reflexivity. }
  destruct (style_dataframe_plot_run ax title s Hts)
    as (r & s' & sp' & Hrun & _ & _ & _ & Hx & _).
  rewrite Hrun. cbn [snd]. rewrite Hx. unfold restyled. cbv zeta. rewrite Htr.
  repeat split.
Qed.

Lemma style_dataframe_plot_without_title_witness :
  truthy (Some EmptyString) = false /\
  (Mpl.title (all_axes (snd (style_dataframe_plot 0 (Some EmptyString) Sample.state)) 0)
   = Mpl.title (all_axes Sample.state 0) /\
   left_title (all_axes (snd (style_dataframe_plot 0 (Some EmptyString) Sample.state)) 0)
   = left_title (all_axes Sample.state 0) /\
   right_title (all_axes (snd (style_dataframe_plot 0 (Some EmptyString) Sample.state)) 0)
   = right_title (all_axes Sample.state 0)).
Proof.
  split; [reflexivity|].
  apply (style_dataframe_plot_without_title 0 (Some EmptyString) Sample.state).
  reflexivity.
Defined.

Lemma restyled_legend_idem (l : legend) :
  restyled_legend (restyled_legend l) = restyled_legend l.
Proof.
  unfold restyled_legend. cbn [legend_texts]. rewrite map_map. reflexivity.
Qed.

Lemma restyled_again (r : rc) (title : option string) (l : list (string * spine))
    (x : axes) :
  restyled r title (with_spines l (restyled r title x))
  = with_spines l (restyled r title x).
Proof.
  destruct x as [fc xt yt xl yl t lt rt sp lg fg].
  unfold restyled. cbv zeta.
  destruct (truthy title).
  - unfold put_title.
    destruct (r "axes.titlelocation") as [loc| | | | |];
      try (cbn; destruct lg; cbn; rewrite ?restyled_legend_idem; reflexivity).
    destruct (String.eqb loc "center");
      [cbn; destruct lg; cbn; rewrite ?restyled_legend_idem; reflexivity|].
    destruct (String.eqb loc "left");
      [cbn; destruct lg; cbn; rewrite ?restyled_legend_idem; reflexivity|].
    destruct (String.eqb loc "right");
      cbn; destruct lg; cbn; rewrite ?restyled_legend_idem; reflexivity.
  - cbn. destruct lg; cbn; rewrite ?restyled_legend_idem; reflexivity.
Qed.

Lemma restyled_spine_idem (kv : string * spine) :
  restyled_spine (restyled_spine kv) = restyled_spine kv.
Proof.
  destruct kv as [key v]. unfold restyled_spine. cbn [fst snd].
  destruct (String.eqb key "top" || String.eqb key "right") eqn:E1.
  - cbn [fst snd]. rewrite E1. reflexivity.
  - destruct (String.eqb key "bottom" || String.eqb key "left") eqn:E2.
    + cbn [fst snd]. rewrite E1, E2. reflexivity.
    + cbn [fst snd]. rewrite E1, E2. reflexivity.
Qed.

Lemma has_spine_keys (x y : axes) (key : string) :
  List.map fst (spines x) = List.map fst (spines y) ->
  has_spine x key = has_spine y key.
Proof.
  unfold has_spine. intros H.
  assert (E : forall l : list (string * spine),
             existsb (fun kv => String.eqb (fst kv) key) l
             = existsb (fun k => String.eqb k key) (List.map fst l)).
  { induction l as [|kv l IH]; [reflexivity|]. cbn. rewrite IH. reflexivity. }
  rewrite !E, H. reflexivity.
Qed.

(** X14: Styling the same plot a second time changes nothing: once
    [style_dataframe_plot(ax, title)] has returned, the same call returns
    again and leaves [rcParams], every figure and every axes as the first
    call left them. *)
Theorem style_dataframe_plot_idempotent (ax : nat) (title : option string)
    (s : pyplot) :
  title_settable (rcParams s) title = true ->
  forallb (has_spine (all_axes s ax)) box_keys = true ->
  exists s1 s2,
    style_dataframe_plot ax title s = (Ok tt, s1) /\
    style_dataframe_plot ax title s1 = (Ok tt, s2) /\
    rcParams s2 = rcParams s1 /\
    (forall f, figures s2 f = figures s1 f) /\
    (forall a, all_axes s2 a = all_axes s1 a).
Proof.
  intros Hts Hbox.
  destruct (style_dataframe_plot_run ax title s Hts)
    as (r & s1 & sp1 & Hrun1 & Hr1 & Hf1 & Ho1 & Hx1 & Hk1 & Hok1 & _).
  destruct (Hok1 Hbox) as [-> ->].
  assert (Hts1 : title_settable (rcParams s1) title = true) by (rewrite Hr1; exact Hts).
  destruct (restyled_spines (rcParams s) title (all_axes s ax)) as [Hsp Hfg].
  assert (Hkeys : List.map fst (spines (all_axes s1 ax))
                  = List.map fst (spines (all_axes s ax))).
  { rewrite Hx1. cbn [with_spines spines]. exact Hk1. }
  assert (Hbox1 : forallb (has_spine (all_axes s1 ax)) box_keys = true).
  { rewrite <- Hbox. cbn [forallb box_keys].
    rewrite !(has_spine_keys (all_axes s1 ax) (all_axes s ax) _ Hkeys). reflexivity. }
  destruct (style_dataframe_plot_run ax title s1 Hts1)
    as (r & s2 & sp2 & Hrun2 & Hr2 & Hf2 & Ho2 & Hx2 & _ & Hok2 & _).
  destruct (Hok2 Hbox1) as [-> ->].
  exists s1, s2. split; [exact Hrun1|]. split; [exact Hrun2|]. split; [exact Hr2|].
  split.
  - intros f. rewrite Hf2.
    assert (E : ax_figure (all_axes s1 ax) = ax_figure (all_axes s ax)).
    { rewrite Hx1. cbn [with_spines ax_figure]. exact Hfg. }
    rewrite E. destruct (Nat.eqb f (ax_figure (all_axes s ax))) eqn:Ef; [|reflexivity].
    rewrite Hf1, Ef. reflexivity.
  - intros a. destruct (Nat.eq_dec a ax) as [->|Hne]; [|apply Ho2; exact Hne].
    rewrite Hx2, Hr1. rewrite Hx1 at 2. rewrite restyled_again.
    rewrite with_spines_twice. rewrite Hx1 at 1. cbn [with_spines spines].
    rewrite map_map. rewrite Hx1. f_equal.
    apply map_ext. intros kv. apply restyled_spine_idem.
Qed.

Lemma style_dataframe_plot_idempotent_witness :
  title_settable (rcParams Sample.state) (Some "Revenue 2023") = true /\
  forallb (has_spine (all_axes Sample.state 0)) box_keys = true /\
  exists s1 s2,
    style_dataframe_plot 0 (Some "Revenue 2023") Sample.state = (Ok tt, s1) /\
    style_dataframe_plot 0 (Some "Revenue 2023") s1 = (Ok tt, s2) /\
    rcParams s2 = rcParams s1 /\
    (forall f, figures s2 f = figures s1 f) /\
    (forall a, all_axes s2 a = all_axes s1 a).
Proof.
  split; [reflexivity|]. split; [reflexivity|].
  apply (style_dataframe_plot_idempotent 0 (Some "Revenue 2023") Sample.state);
    reflexivity.
Defined.

End DataFramePlot.

(** ** Applying the theme to [rcParams] *)

Section ApplyTheme.
Import Mpl Style.

Lemma traverse_Forall2 {A B : Type} (f : A -> result B) (l : list A) (d : list B) :
  traverse f l = Ok d -> Forall2 (fun a b => f a = Ok b) l d.
Proof.
  revert d. induction l as [|a l IH]; intros d; cbn [traverse].
  - intros [= <-]. constructor.
  - destruct (f a) as [b|e] eqn:Ea; [|discriminate]. cbn [rbind].
    destruct (traverse f l) as [d'|e]; [|discriminate]. cbn [rbind].
    intros [= <-]. constructor; [exact Ea | apply IH; reflexivity].
Qed.

Lemma eval_entry_key (kv : string * entry) (kv' : string * rcvalue) :
  eval_entry kv = Ok kv' -> fst kv' = fst kv.
Proof.
  unfold eval_entry. destruct (snd kv) as [v|key].
  - intros [= <-]. reflexivity.
  - destruct (COLORS_getitem key); [|discriminate]. intros [= <-]. reflexivity.
Qed.

Lemma eval_entries_keys (l : list (string * entry)) (d : list (string * rcvalue)) :
  Forall2 (fun a b => eval_entry a = Ok b) l d -> List.map fst d = List.map fst l.
Proof.
  induction 1 as [|a b l d Hab _ IH]; [reflexivity|].
  cbn [List.map]. rewrite IH, (eval_entry_key a b Hab). reflexivity.
Qed.

Lemma eval_entries_In (l : list (string * entry)) (d : list (string * rcvalue))
    (kv : string * entry) (kv' : string * rcvalue) :
  Forall2 (fun a b => eval_entry a = Ok b) l d ->
  In kv l -> eval_entry kv = Ok kv' -> In kv' d.
Proof.
  induction 1 as [|a b l d Hab _ IH]; [intros []|].
  intros [->|Hin] He.
  - left. congruence.
  - right. apply IH; assumption.
Qed.

Lemma eval_entries_In_inv (l : list (string * entry)) (d : list (string * rcvalue))
    (kv' : string * rcvalue) :
  Forall2 (fun a b => eval_entry a = Ok b) l d ->
  In kv' d -> exists kv, In kv l /\ eval_entry kv = Ok kv'.
Proof.
  induction 1 as [|a b l d Hab _ IH]; [intros []|].
  intros [<-|Hin].
  - exists a. split; [left; reflexivity|exact Hab].
  - destruct (IH Hin) as (kv & Hkv & He). exists kv. split; [right; exact Hkv|exact He].
Qed.

Lemma rc_update_cons (kv : string * rcvalue) (d : list (string * rcvalue)) (r : rc) :
  rc_update (kv :: d) r = rc_update d (rc_set (fst kv) (snd kv) r).
Proof. reflexivity. Qed.

Lemma rc_update_notin (d : list (string * rcvalue)) (r : rc) (k : string) :
  ~ In k (List.map fst d) -> rc_update d r k = r k.
Proof.
  revert r. induction d as [|[k0 v0] d IH]; intros r Hn; [reflexivity|].
  rewrite rc_update_cons, IH by (intros H; apply Hn; right; exact H).
  cbn [fst snd]. unfold rc_set.
  destruct (String.eqb_spec k k0) as [->|_]; [|reflexivity].
  exfalso. apply Hn. left. reflexivity.
Qed.

Lemma rc_update_In (d : list (string * rcvalue)) (r : rc) (k : string) (v : rcvalue) :
  List.NoDup (List.map fst d) -> In (k, v) d -> rc_update d r k = v.
Proof.
  revert r. induction d as [|[k0 v0] d IH]; intros r Hnd Hin; [destruct Hin|].
  cbn [List.map fst] in Hnd. apply List.NoDup_cons_iff in Hnd. destruct Hnd as [Hk0 Hnd].
  rewrite rc_update_cons. cbn [fst snd]. destruct Hin as [[= -> ->]|Hin].
  - rewrite rc_update_notin by exact Hk0. unfold rc_set.
    rewrite String.eqb_refl. reflexivity.
  - apply IH; assumption.
Qed.

(** The value of an entry that is assigned does not depend on what was
    there before. *)
Lemma rc_update_base (d : list (string * rcvalue)) (r r' : rc) (k : string) :
  In k (List.map fst d) -> rc_update d r k = rc_update d r' k.
Proof.
  revert r r'. induction d as [|[k0 v0] d IH]; intros r r' Hin; [destruct Hin|].
  rewrite !rc_update_cons. cbn [fst snd].
  destruct (in_dec String.string_dec k (List.map fst d)) as [Hd|Hd].
  - apply IH. exact Hd.
  - rewrite !rc_update_notin by exact Hd.
    destruct Hin as [<-|Hin]; [|contradiction].
    cbn [fst]. unfold rc_set. rewrite String.eqb_refl. reflexivity.
Qed.

Lemma rc_entries_eval :
  exists d, traverse eval_entry rc_entries = Ok d /\
            Forall2 (fun a b => eval_entry a = Ok b) rc_entries d.
Proof.
  destruct (traverse eval_entry rc_entries) as [d|e] eqn:E.
  - exists d. split; [reflexivity|]. apply traverse_Forall2. exact E.
  - vm_compute in E. discriminate E.
Qed.

Lemma seaborn_entries_eval :
  exists d, traverse eval_entry seaborn_entries = Ok d /\
            Forall2 (fun a b => eval_entry a = Ok b) seaborn_entries d.
Proof.
  destruct (traverse eval_entry seaborn_entries) as [d|e] eqn:E.
  - exists d. split; [reflexivity|]. apply traverse_Forall2. exact E.
  - vm_compute in E. discriminate E.
Qed.

Lemma rc_entries_NoDup : List.NoDup (List.map fst rc_entries).
Proof.
  apply NoDup_ListNoDup.
  apply (bool_decide_unpack (NoDup (List.map fst rc_entries))).
  vm_compute. reflexivity.
Qed.

Lemma seaborn_entries_subset (kv : string * entry) :
  In kv seaborn_entries -> In kv rc_entries.
Proof.
  intros H. unfold seaborn_entries in H. cbn [In] in H.
  repeat (destruct H as [<-|H];
          [unfold rc_entries; cbn [In];
           repeat (first [left; reflexivity | right])|]).
  destruct H.
Qed.

(** The whole of [apply]. *)
Lemma apply_run (lib : library) (seaborn : bool) (s : pyplot) :
  exists d d',
    traverse eval_entry rc_entries = Ok d /\
    traverse eval_entry seaborn_entries = Ok d' /\
    apply lib seaborn s
    = (Ok tt,
       mk_pyplot
         (let rc1 := rc_update d (rc_update (style_sheet lib "dark_background")
                                            (rcParams s)) in
          if seaborn
          then match Mpl.seaborn lib with
               | Some sns =>
                   sns_set_palette sns Theme.COLOR_CYCLE
                     (sns_set_theme sns "darkgrid" d' rc1)
               | None => rc1
               end
          else rc1)
         (figures s) (all_axes s)).
Proof.
  destruct rc_entries_eval as (d & Hd & _).
  destruct seaborn_entries_eval as (d' & Hd' & _).
  exists d, d'. split; [exact Hd|]. split; [exact Hd'|].
  unfold apply, style_use, bind, modify_rc, lift, ret. rewrite Hd.
  cbn [rcParams figures all_axes]. cbv zeta.
  destruct seaborn; [|reflexivity].
  destruct (Mpl.seaborn lib) as [sns|]; [|reflexivity].
  rewrite Hd'. reflexivity.
Qed.

Lemma theme_entries (d : list (string * rcvalue)) (r : rc) :
  traverse eval_entry rc_entries = Ok d ->
  (forall key e, In (key, e) rc_entries ->
     exists v, eval_entry (key, e) = Ok (key, v) /\ rc_update d r key = v) /\
  (forall key, ~ In key (List.map fst rc_entries) -> rc_update d r key = r key).
Proof.
  intros Hd.
  pose proof (traverse_Forall2 _ _ _ Hd) as HF.
  pose proof (eval_entries_keys _ _ HF) as Hkeys.
  split.
  - intros key e Hin.
    assert (Hex : exists kv', eval_entry (key, e) = Ok kv').
    { clear - HF Hin. induction HF as [|a b l0 d0 Hab _ IH]; [destruct Hin|].
      destruct Hin as [->|Hin]; [exists b; exact Hab | apply IH; exact Hin]. }
    destruct Hex as ([k v] & He).
    pose proof (eval_entry_key _ _ He) as Hk. cbn [fst] in Hk. subst k.
    exists v. split; [exact He|].
    apply rc_update_In.
    + rewrite Hkeys. exact rc_entries_NoDup.
    + exact (eval_entries_In _ _ _ _ HF Hin He).
  - intros key Hn. apply rc_update_notin. rewrite Hkeys. exact Hn.
Qed.

(** Without seaborn the last step of [apply] does nothing. *)
Lemma without_seaborn (lib : library) (seaborn : bool) (d' : list (string * rcvalue))
    (r : rc) :
  seaborn = false \/ Mpl.seaborn lib = None ->
  (if seaborn
   then match Mpl.seaborn lib with
        | Some sns =>
            sns_set_palette sns Theme.COLOR_CYCLE (sns_set_theme sns "darkgrid" d' r)
        | None => r
        end
   else r) = r.
Proof.
  intros [->| ->]; [reflexivity|]. destruct seaborn; reflexivity.
Qed.

(** X15: When seaborn is not asked for, or is asked for but not installed,
    [apply] returns normally (every colour it looks up is in [COLORS]).
    Each entry of its dictionary is then in [rcParams] with its value,
    whatever the [dark_background] sheet says about it; every other entry is
    as that sheet leaves it; and no existing figure or axes is changed. *)
Theorem apply_sets_theme (lib : library) (seaborn : bool) (s : pyplot) :
  seaborn = false \/ Mpl.seaborn lib = None ->
  exists s',
    apply lib seaborn s = (Ok tt, s') /\
    figures s' = figures s /\
    all_axes s' = all_axes s /\
    (forall key e, In (key, e) rc_entries ->
       exists v, eval_entry (key, e) = Ok (key, v) /\ rcParams s' key = v) /\
    (forall key, ~ In key (List.map fst rc_entries) ->
       rcParams s' key
       = rc_update (style_sheet lib "dark_background") (rcParams s) key).
Proof.
  intros Hsb.
  destruct (apply_run lib seaborn s) as (d & d' & Hd & _ & Hrun).
  eexists. split; [exact Hrun|]. cbn [rcParams figures all_axes]. cbv zeta.
  rewrite (without_seaborn lib seaborn d' _ Hsb).
  split; [reflexivity|]. split; [reflexivity|].
  exact (theme_entries d _ Hd).
Qed.

Lemma apply_sets_theme_witness :
  (true = false \/ Mpl.seaborn Sample.no_seaborn = None) /\
  exists s',
    apply Sample.no_seaborn true Sample.state = (Ok tt, s') /\
    figures s' = figures Sample.state /\
    all_axes s' = all_axes Sample.state /\
    (forall key e, In (key, e) rc_entries ->
       exists v, eval_entry (key, e) = Ok (key, v) /\ rcParams s' key = v) /\
    (forall key, ~ In key (List.map fst rc_entries) ->
       rcParams s' key
       = rc_update (style_sheet Sample.no_seaborn "dark_background")
           (rcParams Sample.state) key).
Proof.
  split; [right; reflexivity|].
  apply (apply_sets_theme Sample.no_seaborn true Sample.state).
  right. reflexivity.
Defined.

(** X16: With seaborn installed and asked for, [apply] is [apply(seaborn=False)]
    followed by [sns.set_theme] and [sns.set_palette(COLOR_CYCLE)], and the
    [rc] dictionary handed to [set_theme] agrees, entry by entry, with the
    [rcParams] that [apply] has just set. *)
Theorem apply_hands_seaborn_the_theme (lib : library) (sns : seaborn_module)
    (s : pyplot) :
  Mpl.seaborn lib = Some sns ->
  exists s' d',
    apply lib true s = (Ok tt, s') /\
    traverse eval_entry seaborn_entries = Ok d' /\
    List.map fst d' = List.map fst seaborn_entries /\
    rcParams s'
    = sns_set_palette sns Theme.COLOR_CYCLE
        (sns_set_theme sns "darkgrid" d' (rcParams (snd (apply lib false s)))) /\
    (forall k v, In (k, v) d' -> rcParams (snd (apply lib false s)) k = v) /\
    figures s' = figures s /\
    all_axes s' = all_axes s.
Proof.
  intros Hsns.
  destruct (apply_run lib true s) as (d & d' & Hd & Hd' & Hrun).
  destruct (apply_run lib false s) as (d0 & d0' & Hd0 & _ & Hrun0).
  rewrite Hd in Hd0. injection Hd0 as <-.
  pose proof (traverse_Forall2 _ _ _ Hd) as HF.
  pose proof (traverse_Forall2 _ _ _ Hd') as HF'.
  eexists _, d'. split; [exact Hrun|]. split; [exact Hd'|].
  split; [exact (eval_entries_keys _ _ HF')|].
  rewrite Hrun0. cbn [snd rcParams figures all_axes]. cbv zeta. rewrite Hsns.
  split; [reflexivity|]. split; [|split; reflexivity].
  intros k v Hin.
  destruct (eval_entries_In_inv _ _ _ HF' Hin) as (kv & Hkv & He).
  apply rc_update_In.
  - rewrite (eval_entries_keys _ _ HF). exact rc_entries_NoDup.
  - exact (eval_entries_In _ _ _ _ HF (seaborn_entries_subset kv Hkv) He).
Qed.

Lemma apply_hands_seaborn_the_theme_witness :
  Mpl.seaborn Sample.with_seaborn
  = Some (mk_seaborn (fun _ d r => rc_update d r)
            (fun p r => rc_set "axes.prop_cycle" (RcCycler "color" p) r)) /\
  exists s' d',
    apply Sample.with_seaborn true Sample.state = (Ok tt, s') /\
    traverse eval_entry seaborn_entries = Ok d' /\
    List.map fst d' = List.map fst seaborn_entries /\
    rcParams s'
    = sns_set_palette
        (mk_seaborn (fun _ d r => rc_update d r)
           (fun p r => rc_set "axes.prop_cycle" (RcCycler "color" p) r))
        Theme.COLOR_CYCLE
        (sns_set_theme
           (mk_seaborn (fun _ d r => rc_update d r)
              (fun p r => rc_set "axes.prop_cycle" (RcCycler "color" p) r))
           "darkgrid" d' (rcParams (snd (apply Sample.with_seaborn false Sample.state)))) /\
    (forall k v, In (k, v) d' ->
       rcParams (snd (apply Sample.with_seaborn false Sample.state)) k = v) /\
    figures s' = figures Sample.state /\
    all_axes s' = all_axes Sample.state.
Proof.
  split; [reflexivity|].
  apply (apply_hands_seaborn_the_theme Sample.with_seaborn _ Sample.state).
  reflexivity.
Defined.

(** X17: Applying the theme twice is applying it once: without seaborn, a second
    [apply] leaves every [rcParams] entry as the first one left it. *)
Theorem apply_idempotent (lib : library) (seaborn : bool) (s : pyplot) :
  seaborn = false \/ Mpl.seaborn lib = None ->
  exists s1 s2,
    apply lib seaborn s = (Ok tt, s1) /\
    apply lib seaborn s1 = (Ok tt, s2) /\
    (forall key, rcParams s2 key = rcParams s1 key) /\
    figures s2 = figures s1 /\
    all_axes s2 = all_axes s1.
Proof.
  intros Hsb.
  destruct (apply_run lib seaborn s) as (d & d' & Hd & _ & Hrun1).
  eexists. destruct (apply_run lib seaborn (mk_pyplot
    (let rc1 := rc_update d (rc_update (style_sheet lib "dark_background") (rcParams s)) in
     if seaborn
     then match Mpl.seaborn lib with
          | Some sns =>
              sns_set_palette sns Theme.COLOR_CYCLE (sns_set_theme sns "darkgrid" d' rc1)
          | None => rc1
          end
     else rc1) (figures s) (all_axes s))) as (d2 & d2' & Hd2 & _ & Hrun2).
  rewrite Hd in Hd2. injection Hd2 as <-.
  eexists. split; [exact Hrun1|]. split; [exact Hrun2|].
  cbn [rcParams figures all_axes]. cbv zeta.
  split; [|split; reflexivity].
  intros key.
  assert (Hrc : forall r : rc,
            (if seaborn
             then match Mpl.seaborn lib with
                  | Some sns =>
                      sns_set_palette sns Theme.COLOR_CYCLE
                        (sns_set_theme sns "darkgrid" d2' r)
                  | None => r
                  end
             else r) = r).
  { intros r. destruct Hsb as [->| ->]; [reflexivity|]. destruct seaborn; reflexivity. }
  assert (Hrc' : forall r : rc,
            (if seaborn
             then match Mpl.seaborn lib with
                  | Some sns =>
                      sns_set_palette sns Theme.COLOR_CYCLE
                        (sns_set_theme sns "darkgrid" d' r)
                  | None => r
                  end
             else r) = r).
  { intros r. destruct Hsb as [->| ->]; [reflexivity|]. destruct seaborn; reflexivity. }
  rewrite Hrc, Hrc'.
  set (sheet := style_sheet lib "dark_background").
  destruct (in_dec String.string_dec key (List.map fst d)) as [Hin|Hout].
  - apply rc_update_base. exact Hin.
  - rewrite !(rc_update_notin d) by exact Hout.
    destruct (in_dec String.string_dec key (List.map fst sheet)) as [Hin'|Hout'].
    + apply rc_update_base. exact Hin'.
    + rewrite !(rc_update_notin sheet) by exact Hout'.
      rewrite (rc_update_notin d) by exact Hout.
      apply rc_update_notin. exact Hout'.
Qed.

Lemma apply_idempotent_witness :
  (false = false \/ Mpl.seaborn Sample.with_seaborn = None) /\
  exists s1 s2,
    apply Sample.with_seaborn false Sample.state = (Ok tt, s1) /\
    apply Sample.with_seaborn false s1 = (Ok tt, s2) /\
    (forall key, rcParams s2 key = rcParams s1 key) /\
    figures s2 = figures s1 /\
    all_axes s2 = all_axes s1.
Proof.
  split; [left; reflexivity|].
  apply (apply_idempotent Sample.with_seaborn false Sample.state).
  left. reflexivity.
Defined.

Lemma theme_color (r : rc) (key col c : string) :
  (forall key e, In (key, e) rc_entries ->
     exists v, eval_entry (key, e) = Ok (key, v) /\ r key = v) ->
  In (key, Col col) rc_entries ->
  COLORS_getitem col = Ok c ->
  r key = RcStr c.
Proof.
  intros Hrc Hin Hc. destruct (Hrc key (Col col) Hin) as (v & He & Hv).
  unfold eval_entry in He. cbn [snd fst] in He. rewrite Hc in He. cbn [rbind] in He.
  injection He as <-. exact Hv.
Qed.

Ltac in_rc_entries :=
  unfold rc_entries; cbn [In]; repeat (first [left; reflexivity | right]).

(** X18: [apply_to_figure] brings an existing figure to the colours that
    [apply] makes the default for new ones: after [apply] (without seaborn)
    and then [apply_to_figure(fig, ax)], the face of the figure is
    [rcParams['figure.facecolor']], and on every axes visited the face, the
    ticks, the axis labels, the centred title and all spines have the
    colours under ['axes.facecolor'], ['xtick.color'], ['ytick.color'],
    ['axes.labelcolor'], ['axes.titlecolor'] and ['axes.edgecolor']. *)
Theorem apply_to_figure_matches_theme (lib : library) (seaborn : bool) (fig : nat)
    (ax : ax_argument) (s : pyplot) :
  seaborn = false \/ Mpl.seaborn lib = None ->
  exists s1 s2,
    apply lib seaborn s = (Ok tt, s1) /\
    apply_to_figure fig ax s1 = (Ok tt, s2) /\
    rcParams s2 "figure.facecolor" = RcStr (fig_facecolor (figures s2 fig)) /\
    forall a, In a (selected fig ax s) ->
      rcParams s2 "axes.facecolor" = RcStr (ax_facecolor (all_axes s2 a)) /\
      rcParams s2 "xtick.color" = RcStr (tick_color (xticks (all_axes s2 a))) /\
      rcParams s2 "ytick.color" = RcStr (tick_color (yticks (all_axes s2 a))) /\
      rcParams s2 "axes.labelcolor" = RcStr (text_color (xlabel (all_axes s2 a))) /\
      rcParams s2 "axes.labelcolor" = RcStr (text_color (ylabel (all_axes s2 a))) /\
      rcParams s2 "axes.titlecolor" = RcStr (text_color (Mpl.title (all_axes s2 a))) /\
      Forall (fun kv : string * spine =>
                rcParams s2 "axes.edgecolor" = RcStr (spine_color (snd kv)))
             (spines (all_axes s2 a)).
Proof.
  intros Hsb.
  destruct (apply_run lib seaborn s) as (d & d' & Hd & _ & Hrun1).
  rewrite (without_seaborn lib seaborn d' _ Hsb) in Hrun1.
  set (r1 := rc_update d (rc_update (style_sheet lib "dark_background") (rcParams s)))
    in Hrun1.
  set (s1 := mk_pyplot r1 (figures s) (all_axes s)) in Hrun1.
  destruct (theme_entries d (rc_update (style_sheet lib "dark_background") (rcParams s))
              Hd) as [Hrc _].
  fold r1 in Hrc.
  destruct (apply_to_figure_run fig ax s1) as (s2 & Hrun2 & Hr2 & Hf2 & Ha2).
  exists s1, s2. split; [exact Hrun1|]. split; [exact Hrun2|].
  rewrite Hr2, Hf2. unfold only. rewrite Nat.eqb_refl.
  cbn [fig_facecolor rcParams s1].
  split; [apply (theme_color r1 _ "bg_dark"); [exact Hrc|in_rc_entries|reflexivity]|].
  intros a Hin.
  assert (Hsel : selected fig ax s1 = selected fig ax s).
  { destruct ax; reflexivity. }
  rewrite Ha2, Hsel, (proj2 (existsb_eqb_In a _) Hin).
  unfold repainted.
  cbn [ax_facecolor xticks yticks xlabel ylabel Mpl.title spines tick_color text_color
       set_color].
  split; [apply (theme_color r1 _ "bg_dark"); [exact Hrc|in_rc_entries|reflexivity]|].
  split; [apply (theme_color r1 _ "ticks"); [exact Hrc|in_rc_entries|reflexivity]|].
  split; [apply (theme_color r1 _ "ticks"); [exact Hrc|in_rc_entries|reflexivity]|].
  split; [apply (theme_color r1 _ "label"); [exact Hrc|in_rc_entries|reflexivity]|].
  split; [apply (theme_color r1 _ "label"); [exact Hrc|in_rc_entries|reflexivity]|].
  split; [apply (theme_color r1 _ "title"); [exact Hrc|in_rc_entries|reflexivity]|].
  apply Forall_forall. intros kv Hkv.
  apply list_elem_of_In, in_map_iff in Hkv. destruct Hkv as (kv0 & <- & _).
  cbn [snd recolor spine_color].
  apply (theme_color r1 _ "fg_dim"); [exact Hrc|in_rc_entries|reflexivity].
Qed.

Lemma apply_to_figure_matches_theme_witness :
  (false = false \/ Mpl.seaborn Sample.with_seaborn = None) /\
  exists s1 s2,
    apply Sample.with_seaborn false Sample.state = (Ok tt, s1) /\
    apply_to_figure 0 AxNone s1 = (Ok tt, s2) /\
    rcParams s2 "figure.facecolor" = RcStr (fig_facecolor (figures s2 0%nat)) /\
    forall a, In a (selected 0 AxNone Sample.state) ->
      rcParams s2 "axes.facecolor" = RcStr (ax_facecolor (all_axes s2 a)) /\
      rcParams s2 "xtick.color" = RcStr (tick_color (xticks (all_axes s2 a))) /\
      rcParams s2 "ytick.color" = RcStr (tick_color (yticks (all_axes s2 a))) /\
      rcParams s2 "axes.labelcolor" = RcStr (text_color (xlabel (all_axes s2 a))) /\
      rcParams s2 "axes.labelcolor" = RcStr (text_color (ylabel (all_axes s2 a))) /\
      rcParams s2 "axes.titlecolor" = RcStr (text_color (Mpl.title (all_axes s2 a))) /\
      Forall (fun kv : string * spine =>
                rcParams s2 "axes.edgecolor" = RcStr (spine_color (snd kv)))
             (spines (all_axes s2 a)).
Proof.
  split; [left; reflexivity|].
  apply (apply_to_figure_matches_theme Sample.with_seaborn false 0 AxNone Sample.state).
  left. reflexivity.
Defined.

End ApplyTheme.
